(** * Cooperative society back office: loan lifecycle and balance reconciliation

    A shallow embedding of the money-moving code of the Django project
    (members/models.py, savings/models.py, savings/forms.py, savings/views.py,
    loans/models.py, loans/views.py, dashboard/views.py, transactions/views.py,
    transactions/signals.py and the setup_accounts command) and the properties
    of the specification that concern it, followed by further properties of the
    same code.

    Modelling conventions.
    - [Decimal] values are exact rationals ([Q]).  Python's decimal context
      keeps 28 significant digits, which the additions, subtractions and
      products over 12- and 15-digit model fields never exhaust; the two
      quotients of the code ([total_to_repay / 22] and
      [total_paid / total_borrowed]) are only ever compared with a value that
      is far coarser than the 28-digit rounding step, so the comparison has the
      same truth value as over the rationals.  Equalities of amounts are
      therefore stated with [==] ([Qeq]).
    - The money columns are [DecimalField]s with [decimal_places=2]: a row
      holds the value rounded to two places, half to even ([quantize]).  The
      amounts the code writes are amounts of two places themselves (form
      amounts, which the forms validate, and values read from a row) and sums
      and differences of such amounts, which are stored as they are.  The one
      product that is written, the 10% interest of a loan at disbursement, and
      the total it is added to, are rounded where the row is written.  The
      amount typed at an approval, which no form validates, is taken as an
      amount of two places.  A value too large for [max_digits] is not
      modelled.
    - A table is the list of its rows in insertion order.  A model instance is
      a record; [save] writes the record over the row with the same key, or
      appends it.  The columns kept are the ones some money rule reads or
      writes; free text, dates and user stamps are left out.
    - What a view shows (flash messages, redirects, debug prints) is reduced to
      a response tag. *)

From Stdlib Require Import QArith Qminmax Lqa ZArith Lia Bool List String Ascii.
Import ListNotations.
Open Scope Q_scope.

(** ** Decimal arithmetic as the code uses it *)

Definition Decimal := Q.

Definition Qltb (a b : Decimal) : bool := negb (Qle_bool b a).
Definition Qleb (a b : Decimal) : bool := Qle_bool a b.

(** Python's [min(a, b)] returns [a] unless [b < a]; [max(a, b)] returns [a]
    unless [b > a]. *)
Definition py_min (a b : Decimal) : Decimal := if Qltb b a then b else a.
Definition py_max (a b : Decimal) : Decimal := if Qltb a b then b else a.

(** Truth value of a [Decimal]: zero is falsy. *)
Definition truthy (d : Decimal) : bool := negb (Qeq_bool d 0).

(** [x or y] for an optional Decimal [x]: [None] and zero fall through. *)
Definition or_else (x : option Decimal) (y : Decimal) : Decimal :=
  match x with
  | Some d => if truthy d then d else y
  | None => y
  end.

(** Python's built-in [sum] over Decimals (start value 0). *)
Definition py_sum (l : list Decimal) : Decimal := fold_left Qplus l 0.

(** SQL [SUM] as Django's [aggregate(total=Sum(col))] returns it: NULLs are
    skipped and the result is [None] when no value is left. *)
Definition Sum (col : list (option Decimal)) : option Decimal :=
  fold_left (fun acc v =>
               match v, acc with
               | None, _ => acc
               | Some d, None => Some d
               | Some d, Some s => Some (s + d)
               end) col None.

(** [Decimal.quantize(Decimal('0.01'))] under the default rounding of the
    decimal context, ROUND_HALF_EVEN: what a [DecimalField] with
    [decimal_places=2] holds for a value that is written to it. *)
Definition quantize (d : Decimal) : Decimal :=
  let n := (Qnum d * 100)%Z in
  let q := (n / Zpos (Qden d))%Z in
  let r := (n mod Zpos (Qden d))%Z in
  let round_up :=
    match (2 * r ?= Zpos (Qden d))%Z with
    | Lt => false
    | Gt => true
    | Eq => Z.odd q
    end in
  Qred ((if round_up then q + 1 else q)%Z # 100).

(** An amount of two decimal places, as a money column holds it. *)
Definition two_places (d : Decimal) : Prop := quantize d == d.

(** ** Data model *)

Inductive LoanStatus :=
| pending | under_review | approved | rejected | disbursed
| active | completed | defaulted | written_off.

Definition LoanStatus_eqb (a b : LoanStatus) : bool :=
  match a, b with
  | pending, pending | under_review, under_review | approved, approved
  | rejected, rejected | disbursed, disbursed | active, active
  | completed, completed | defaulted, defaulted | written_off, written_off => true
  | _, _ => false
  end.

Inductive RowStatus := row_pending | row_completed | row_failed | row_cancelled.

Definition RowStatus_eqb (a b : RowStatus) : bool :=
  match a, b with
  | row_pending, row_pending | row_completed, row_completed
  | row_failed, row_failed | row_cancelled, row_cancelled => true
  | _, _ => false
  end.

Inductive SavingsType :=
| compulsory | voluntary | withdrawal | interest | penalty
| loan_repayment | collateral.

Definition SavingsType_eqb (a b : SavingsType) : bool :=
  match a, b with
  | compulsory, compulsory | voluntary, voluntary | withdrawal, withdrawal
  | interest, interest | penalty, penalty | loan_repayment, loan_repayment
  | collateral, collateral => true
  | _, _ => false
  end.

Module Member.
Record t := mk {
  pk : nat;
  monthly_savings : Decimal;
  registration_fee_amount : Decimal;
  is_superuser : bool;
  is_staff : bool
}.
End Member.

Module SavingsAccount.
(** One account per member (a one-to-one field): the member key identifies
    the row. *)
Record t := mk {
  member : nat;
  balance : Decimal;
  collateral_amount : Decimal;
  available_balance : Decimal;
  has_active_loan : bool
}.
End SavingsAccount.

Module SavingsTransaction.
Record t := mk {
  pk : nat;
  savings_account : nat;
  transaction_type : SavingsType;
  amount : Decimal;
  balance_before : Decimal;
  balance_after : Decimal;
  status : RowStatus;
  related_loan : option nat;
  is_loan_repayment : bool;
  repayment_principal : Decimal;
  repayment_interest : Decimal
}.
End SavingsTransaction.

Module Loan.
Record t := mk {
  pk : nat;
  member : nat;
  requested_amount : Decimal;
  approved_amount : option Decimal;
  status : LoanStatus;
  application_date : nat;
  principal_balance : Decimal;
  interest_balance : Decimal;
  total_balance : Decimal
}.
End Loan.

Module LoanRepayment.
Record t := mk {
  loan : nat;
  amount : Decimal;
  principal_amount : Decimal;
  interest_amount : Decimal;
  balance_before : Decimal;
  balance_after : Decimal;
  status : RowStatus
}.
End LoanRepayment.

(** General ledger. *)
Inductive TransactionType := income | expense | transfer.
Inductive TransactionStatus := t_draft | t_pending | t_completed | t_cancelled.
Inductive EntryType := debit | credit.

Module Transaction.
Record t := mk {
  transaction_type : TransactionType;
  description : string;
  amount : Decimal;
  status : TransactionStatus
}.
End Transaction.

Module AccountCategory.
Record t := mk { code : string; name : string; category_type : string }.
End AccountCategory.

Module Account.
Record t := mk { code : string; name : string; category : string; balance : Decimal }.
End Account.

Module TransactionEntry.
Record t := mk {
  transaction : nat;        (* position of the Transaction row *)
  account : string;         (* code of the Account row *)
  entry_type : EntryType;
  amount : Decimal
}.
End TransactionEntry.

(** The database: one list per table. *)
Record DB := mkDB {
  Member_objects : list Member.t;
  SavingsAccount_objects : list SavingsAccount.t;
  SavingsTransaction_objects : list SavingsTransaction.t;
  Loan_objects : list Loan.t;
  LoanRepayment_objects : list LoanRepayment.t;
  Transaction_objects : list Transaction.t;
  AccountCategory_objects : list AccountCategory.t;
  Account_objects : list Account.t;
  TransactionEntry_objects : list TransactionEntry.t
}.

Definition empty_db : DB := mkDB [] [] [] [] [] [] [] [] [].

(** ** ORM access *)

Module ORM.

(** [SavingsAccount.objects.get(member=m)]; [None] stands for
    [SavingsAccount.DoesNotExist]. *)
Definition get_savings_account (db : DB) (m : nat) : option SavingsAccount.t :=
  find (fun a => Nat.eqb (SavingsAccount.member a) m) (SavingsAccount_objects db).

Fixpoint put_savings_account (a : SavingsAccount.t) (rows : list SavingsAccount.t)
  : list SavingsAccount.t :=
  match rows with
  | [] => [a]
  | r :: rows' =>
      if Nat.eqb (SavingsAccount.member r) (SavingsAccount.member a)
      then a :: rows'
      else r :: put_savings_account a rows'
  end.

(** [savings_account.save()] *)
Definition save_savings_account (db : DB) (a : SavingsAccount.t) : DB :=
  mkDB (Member_objects db) (put_savings_account a (SavingsAccount_objects db))
       (SavingsTransaction_objects db) (Loan_objects db) (LoanRepayment_objects db)
       (Transaction_objects db) (AccountCategory_objects db) (Account_objects db) (TransactionEntry_objects db).

Fixpoint put_savings_transaction (t : SavingsTransaction.t)
         (rows : list SavingsTransaction.t) : list SavingsTransaction.t :=
  match rows with
  | [] => [t]
  | r :: rows' =>
      if Nat.eqb (SavingsTransaction.pk r) (SavingsTransaction.pk t)
      then t :: rows'
      else r :: put_savings_transaction t rows'
  end.

(** [transaction.save()] of an instance that already has its key, and
    [SavingsTransaction.objects.create(...)] with the key the database
    hands out. *)
Definition save_savings_transaction (db : DB) (t : SavingsTransaction.t) : DB :=
  mkDB (Member_objects db) (SavingsAccount_objects db)
       (put_savings_transaction t (SavingsTransaction_objects db))
       (Loan_objects db) (LoanRepayment_objects db)
       (Transaction_objects db) (AccountCategory_objects db) (Account_objects db) (TransactionEntry_objects db).

Definition next_savings_transaction_pk (db : DB) : nat :=
  S (fold_right (fun r m => Nat.max (SavingsTransaction.pk r) m) O
                (SavingsTransaction_objects db)).

Fixpoint put_loan (l : Loan.t) (rows : list Loan.t) : list Loan.t :=
  match rows with
  | [] => [l]
  | r :: rows' =>
      if Nat.eqb (Loan.pk r) (Loan.pk l) then l :: rows'
      else r :: put_loan l rows'
  end.

(** [loan.save()] *)
Definition save_loan (db : DB) (l : Loan.t) : DB :=
  mkDB (Member_objects db) (SavingsAccount_objects db) (SavingsTransaction_objects db)
       (put_loan l (Loan_objects db)) (LoanRepayment_objects db)
       (Transaction_objects db) (AccountCategory_objects db) (Account_objects db) (TransactionEntry_objects db).

(** [get_object_or_404(Loan, pk=pk)] *)
Definition get_loan (db : DB) (pk : nat) : option Loan.t :=
  find (fun l => Nat.eqb (Loan.pk l) pk) (Loan_objects db).

(** [LoanRepayment.objects.create(...)] and [repayment.save()] of a new
    instance. *)
Definition create_loan_repayment (db : DB) (r : LoanRepayment.t) : DB :=
  mkDB (Member_objects db) (SavingsAccount_objects db) (SavingsTransaction_objects db)
       (Loan_objects db) (LoanRepayment_objects db ++ [r])
       (Transaction_objects db) (AccountCategory_objects db) (Account_objects db) (TransactionEntry_objects db).

(** [Loan.objects.filter(member=m, status__in=[...])] *)
Definition filter_loans (db : DB) (m : nat) (sts : list LoanStatus) : list Loan.t :=
  filter (fun l => Nat.eqb (Loan.member l) m
                   && existsb (LoanStatus_eqb (Loan.status l)) sts)
         (Loan_objects db).

(** [.first()] under [Meta.ordering = ['-application_date']]: the row with
    the latest application date, the earlier row on a tie. *)
Fixpoint first_by_application_date (rows : list Loan.t) : option Loan.t :=
  match rows with
  | [] => None
  | l :: rows' =>
      match first_by_application_date rows' with
      | None => Some l
      | Some l' => if Nat.ltb (Loan.application_date l) (Loan.application_date l')
                   then Some l' else Some l
      end
  end.

End ORM.

(** ** savings/models.py *)

(** [SavingsAccount.get_total_savings] *)
Definition get_total_savings (db : DB) (a : SavingsAccount.t) : Decimal :=
  or_else
    (Sum (map (fun t => Some (SavingsTransaction.amount t))
              (filter (fun t =>
                         Nat.eqb (SavingsTransaction.savings_account t)
                                 (SavingsAccount.member a)
                         && existsb (SavingsType_eqb (SavingsTransaction.transaction_type t))
                                    [compulsory; voluntary])
                      (SavingsTransaction_objects db))))
    0.

(** [SavingsAccount.update_available_balance]; the partial
    [save(update_fields=['available_balance'])] inside it is always followed
    by the caller's full [save()] of the same instance. *)
Definition update_available_balance (a : SavingsAccount.t) : SavingsAccount.t :=
  SavingsAccount.mk (SavingsAccount.member a) (SavingsAccount.balance a)
    (SavingsAccount.collateral_amount a)
    (SavingsAccount.balance a - SavingsAccount.collateral_amount a)
    (SavingsAccount.has_active_loan a).

(** [SavingsAccount.set_collateral] *)
Definition set_collateral (db : DB) (a : SavingsAccount.t) (amount : Decimal)
  : DB * SavingsAccount.t :=
  let a1 := SavingsAccount.mk (SavingsAccount.member a) (SavingsAccount.balance a)
              amount (SavingsAccount.available_balance a) true in
  let a2 := update_available_balance a1 in
  (ORM.save_savings_account db a2, a2).

(** [SavingsAccount.clear_collateral] *)
Definition clear_collateral (db : DB) (a : SavingsAccount.t) : DB * SavingsAccount.t :=
  let a1 := SavingsAccount.mk (SavingsAccount.member a) (SavingsAccount.balance a)
              0 (SavingsAccount.available_balance a) false in
  let a2 := update_available_balance a1 in
  (ORM.save_savings_account db a2, a2).

(** [SavingsAccount.get_loan_repayment_amount] *)
Definition get_loan_repayment_amount (a : SavingsAccount.t) : Decimal :=
  if negb (SavingsAccount.has_active_loan a) then 0
  else py_max 0 (SavingsAccount.balance a - SavingsAccount.collateral_amount a).

(** ** members/models.py and loans/models.py: eligibility *)

(** [Loan.outstanding_balance] *)
Definition outstanding_balance (l : Loan.t) : Decimal :=
  if negb (existsb (LoanStatus_eqb (Loan.status l)) [active; approved]) then 0
  else Loan.total_balance l.

(** [Member.maximum_loan_amount]: twice the total deposits, zero without a
    savings account. *)
Definition maximum_loan_amount (db : DB) (self : Member.t) : Decimal :=
  match ORM.get_savings_account db (Member.pk self) with
  | Some a => get_total_savings db a * 2
  | None => 0
  end.

(** [Member.get_outstanding_loan_amount] *)
Definition get_outstanding_loan_amount (db : DB) (self : Member.t) : Decimal :=
  py_sum (map outstanding_balance
              (ORM.filter_loans db (Member.pk self) [active; approved])).

(** [Member.can_repay_within_22_months] *)
Definition can_repay_within_22_months (self : Member.t) (loan_amount : Decimal) : bool :=
  if Qleb (Member.monthly_savings self) 0 then false
  else
    let total_to_repay := loan_amount * (110 # 100) in
    let required_monthly_payment := total_to_repay / 22 in
    Qleb required_monthly_payment (Member.monthly_savings self).

(** The reasons [can_apply_for_loan] gives; the three rejections are
    f-strings around the value kept here. *)
Inductive Reason :=
| exceeds_maximum (maximum : Decimal)
| cannot_repay_in_22_months (monthly_savings : Decimal)
| must_pay_85_percent (paid_percentage : Decimal)
| literal (s : string).

(** [Member.can_apply_for_loan] *)
Definition can_apply_for_loan (db : DB) (self : Member.t) (requested_amount : Decimal)
  : bool * Reason :=
  let outstanding_amount := get_outstanding_loan_amount db self in
  let total_after_loan := outstanding_amount + requested_amount in
  if Qltb (maximum_loan_amount db self) total_after_loan then
    (false, exceeds_maximum (maximum_loan_amount db self))
  else if negb (can_repay_within_22_months self requested_amount) then
    (false, cannot_repay_in_22_months (Member.monthly_savings self))
  else if Qltb 0 outstanding_amount then
    let total_borrowed :=
      py_sum (map (fun l => or_else (Loan.approved_amount l) (Loan.requested_amount l))
                  (ORM.filter_loans db (Member.pk self) [active; approved])) in
    let total_paid := total_borrowed - outstanding_amount in
    let paid_percentage :=
      if Qltb 0 total_borrowed then (total_paid / total_borrowed) * 100 else 0 in
    if Qltb paid_percentage 85 then
      (false, must_pay_85_percent paid_percentage)
    else
      (true, literal "Loan application approved")
  else
    (true, literal "Loan application approved").

(** ** loans/views.py: collateral and the repayment paths *)

(** [set_loan_collateral] *)
Definition set_loan_collateral (db : DB) (member : nat) (loan : Loan.t) : DB * bool :=
  match ORM.get_savings_account db member with
  | Some savings_account =>
      if Qltb 0 (SavingsAccount.balance savings_account) then
        let '(db1, savings_account1) :=
          set_collateral db savings_account (SavingsAccount.balance savings_account) in
        let db2 :=
          ORM.save_savings_transaction db1
            (SavingsTransaction.mk (ORM.next_savings_transaction_pk db1)
               (SavingsAccount.member savings_account1) collateral
               (SavingsAccount.balance savings_account1)
               (SavingsAccount.balance savings_account1)
               (SavingsAccount.balance savings_account1)
               row_completed (Some (Loan.pk loan)) false 0 0) in
        (db2, true)
      else (db, false)
  | None => (db, false)
  end.

(** The messages of the repayment helpers; the successful ones are f-strings
    around the amounts kept here. *)
Inductive RepaymentMessage :=
| no_active_loan
| invalid_deposit_amount
| no_savings_account
| no_new_savings
| insufficient_new_savings
| repaid_and_added (loan_repayment_amount remaining_for_savings : Decimal)
| repaid_to_loan (loan_repayment_amount : Decimal)
| added_to_savings (remaining_for_savings : Decimal)
| repaid_from_savings (repayment_amount : Decimal) (interest_phase : bool).

(** What a repayment helper leaves behind: the database, the caller's loan
    and deposit instances as mutated in place, the [LoanRepayment] it created
    and the pair it returns. *)
Record RepaymentResult := mkResult {
  r_db : DB;
  r_loan : Loan.t;
  r_deposit : option SavingsTransaction.t;
  r_repayment : option LoanRepayment.t;
  r_success : bool;
  r_message : RepaymentMessage
}.

Definition with_balances (l : Loan.t) (st : LoanStatus) (p i t : Decimal) : Loan.t :=
  Loan.mk (Loan.pk l) (Loan.member l) (Loan.requested_amount l)
          (Loan.approved_amount l) st (Loan.application_date l) p i t.

(** The in-place rewrite of the deposit's own row (lines 93-99). *)
Definition adjust_deposit (db : DB) (deposit_transaction : option SavingsTransaction.t)
           (remaining_for_savings : Decimal) : DB * option SavingsTransaction.t :=
  match deposit_transaction with
  | Some d =>
      if existsb (SavingsType_eqb (SavingsTransaction.transaction_type d))
                 [compulsory; voluntary]
      then
        let original_before := SavingsTransaction.balance_before d in
        let d' :=
          SavingsTransaction.mk (SavingsTransaction.pk d)
            (SavingsTransaction.savings_account d)
            (SavingsTransaction.transaction_type d)
            remaining_for_savings
            (SavingsTransaction.balance_before d)
            (original_before + remaining_for_savings)
            (SavingsTransaction.status d) (SavingsTransaction.related_loan d)
            (SavingsTransaction.is_loan_repayment d)
            (SavingsTransaction.repayment_principal d)
            (SavingsTransaction.repayment_interest d) in
        (ORM.save_savings_transaction db d', Some d')
      else (db, Some d)
  | None => (db, None)
  end.

(** [process_loan_repayment_from_deposit(member, loan, amount,
    deposit_transaction)].  The four consecutive
    [if loan_repayment_amount > 0:] blocks of the source are one branch
    here. *)
Definition process_loan_repayment_from_deposit
           (db : DB) (member : nat) (loan : Loan.t) (amount : Decimal)
           (deposit_transaction : option SavingsTransaction.t) : RepaymentResult :=
  match ORM.get_savings_account db member with
  | None => mkResult db loan deposit_transaction None false no_savings_account
  | Some savings_account =>
      if negb (SavingsAccount.has_active_loan savings_account) then
        mkResult db loan deposit_transaction None false no_active_loan
      else if Qleb amount 0 then
        mkResult db loan deposit_transaction None false invalid_deposit_amount
      else
        let interest_remaining := Loan.interest_balance loan in
        let principal_remaining := Loan.principal_balance loan in
        let total_outstanding := interest_remaining + principal_remaining in
        let loan_repayment_amount := py_min amount total_outstanding in
        let remaining_for_savings := amount - loan_repayment_amount in
        let interest_payment := py_min loan_repayment_amount interest_remaining in
        let principal_payment :=
          py_min (loan_repayment_amount - interest_payment) principal_remaining in
        if Qltb 0 loan_repayment_amount then
          let db1 :=
            ORM.save_savings_transaction db
              (SavingsTransaction.mk (ORM.next_savings_transaction_pk db)
                 (SavingsAccount.member savings_account) loan_repayment
                 loan_repayment_amount
                 (SavingsAccount.balance savings_account)
                 (SavingsAccount.balance savings_account - loan_repayment_amount)
                 row_completed (Some (Loan.pk loan)) true
                 principal_payment interest_payment) in
          let savings_account1 :=
            update_available_balance
              (SavingsAccount.mk (SavingsAccount.member savings_account)
                 (SavingsAccount.balance savings_account - loan_repayment_amount)
                 (SavingsAccount.collateral_amount savings_account)
                 (SavingsAccount.available_balance savings_account)
                 (SavingsAccount.has_active_loan savings_account)) in
          let db2 := ORM.save_savings_account db1 savings_account1 in
          let '(db3, deposit1) := adjust_deposit db2 deposit_transaction remaining_for_savings in
          let repayment :=
            LoanRepayment.mk (Loan.pk loan) loan_repayment_amount
              principal_payment interest_payment
              (Loan.total_balance loan)
              (Loan.total_balance loan - loan_repayment_amount)
              row_completed in
          let db4 := ORM.create_loan_repayment db3 repayment in
          let principal1 := Loan.principal_balance loan - principal_payment in
          let interest1 := Loan.interest_balance loan - interest_payment in
          let total1 := Loan.total_balance loan - loan_repayment_amount in
          let message :=
            if Qltb 0 remaining_for_savings
            then repaid_and_added loan_repayment_amount remaining_for_savings
            else repaid_to_loan loan_repayment_amount in
          if Qleb total1 0 then
            let loan1 := with_balances loan completed principal1 interest1 total1 in
            let db5 := ORM.save_loan db4 loan1 in
            let '(db6, _) := clear_collateral db5 savings_account1 in
            mkResult db6 loan1 deposit1 (Some repayment) true message
          else
            let loan1 := with_balances loan (Loan.status loan) principal1 interest1 total1 in
            let db5 := ORM.save_loan db4 loan1 in
            mkResult db5 loan1 deposit1 (Some repayment) true message
        else
          mkResult db loan deposit_transaction None true
                   (added_to_savings remaining_for_savings)
  end.

(** [process_loan_repayment_from_savings(member, loan, amount)], the helper of
    line 149. *)
Definition process_loan_repayment_from_savings
           (db : DB) (member : nat) (loan : Loan.t) (amount : Decimal) : RepaymentResult :=
  match ORM.get_savings_account db member with
  | None => mkResult db loan None None false no_savings_account
  | Some savings_account =>
      if negb (SavingsAccount.has_active_loan savings_account) then
        mkResult db loan None None false no_active_loan
      else
        let available_for_repayment := get_loan_repayment_amount savings_account in
        if Qleb available_for_repayment 0 then
          mkResult db loan None None false no_new_savings
        else
          let repayment_amount := py_min amount available_for_repayment in
          if Qleb repayment_amount 0 then
            mkResult db loan None None false insufficient_new_savings
          else
            let interest_remaining := Loan.interest_balance loan in
            let principal_remaining := Loan.principal_balance loan in
            let interest_payment := py_min repayment_amount interest_remaining in
            let principal_payment :=
              py_min (repayment_amount - interest_payment) principal_remaining in
            let db1 :=
              ORM.save_savings_transaction db
                (SavingsTransaction.mk (ORM.next_savings_transaction_pk db)
                   (SavingsAccount.member savings_account) loan_repayment
                   repayment_amount
                   (SavingsAccount.balance savings_account)
                   (SavingsAccount.balance savings_account - repayment_amount)
                   row_completed (Some (Loan.pk loan)) true
                   principal_payment interest_payment) in
            let savings_account1 :=
              update_available_balance
                (SavingsAccount.mk (SavingsAccount.member savings_account)
                   (SavingsAccount.balance savings_account - repayment_amount)
                   (SavingsAccount.collateral_amount savings_account)
                   (SavingsAccount.available_balance savings_account)
                   (SavingsAccount.has_active_loan savings_account)) in
            let db2 := ORM.save_savings_account db1 savings_account1 in
            let repayment :=
              LoanRepayment.mk (Loan.pk loan) repayment_amount
                principal_payment interest_payment
                (Loan.total_balance loan)
                (Loan.total_balance loan - repayment_amount)
                row_completed in
            let db3 := ORM.create_loan_repayment db2 repayment in
            let principal1 := Loan.principal_balance loan - principal_payment in
            let interest1 := Loan.interest_balance loan - interest_payment in
            let total1 := Loan.total_balance loan - repayment_amount in
            let message := repaid_from_savings repayment_amount (Qltb 0 interest_remaining) in
            if Qleb total1 0 then
              let loan1 := with_balances loan completed principal1 interest1 total1 in
              let db4 := ORM.save_loan db3 loan1 in
              let '(db5, _) := clear_collateral db4 savings_account1 in
              mkResult db5 loan1 None (Some repayment) true message
            else
              let loan1 := with_balances loan (Loan.status loan) principal1 interest1 total1 in
              let db4 := ORM.save_loan db3 loan1 in
              mkResult db4 loan1 None (Some repayment) true message
  end.

(** ** loans/forms.py and loans/views.py: manual repayment *)

(** [LoanRepaymentForm.is_valid()]: the loan is chosen among the active ones
    and [clean_amount] refuses an amount that is not above zero. *)
Definition LoanRepaymentForm_is_valid (db : DB) (loan_pk : nat) (amount : Decimal)
  : option Loan.t :=
  match ORM.get_loan db loan_pk with
  | Some l =>
      if LoanStatus_eqb (Loan.status l) active && negb (Qleb amount 0)
      then Some l else None
  | None => None
  end.

(** [LoanRepaymentForm.save(commit=False)]: the unsaved instance, with the
    form's own principal-first split. *)
Definition LoanRepaymentForm_save (loan : Loan.t) (amount : Decimal) : LoanRepayment.t :=
  let principal_amount := py_min amount (Loan.principal_balance loan) in
  let interest_amount := py_min (amount - principal_amount) (Loan.interest_balance loan) in
  LoanRepayment.mk (Loan.pk loan) amount principal_amount interest_amount
    (Loan.total_balance loan) (Loan.total_balance loan - amount) row_completed.

Inductive RepaymentResponse :=
| repayment_form_invalid        (* the form is rendered again *)
| repayment_error.              (* 'Error processing repayment: ...' *)

(** [allocate_savings_to_loan(member, loan)] calls
    [process_loan_repayment_from_savings(member, loan, Decimal('999999999'))].
    The module defines that name twice; when the call runs the name is bound
    to the later definition, the login-protected function of line 759 with
    the parameters [(request, pk)], so the three-argument call raises
    [TypeError] before anything is read or written; [None] is that exception.
    The helper of line 149 is therefore run by no caller. *)
Definition allocate_savings_to_loan (db : DB) (member : nat) (loan : Loan.t)
  : option RepaymentResult := None.

(** [loan_repayments(request)] for a POST.  The view takes the unsaved
    instance of the form, sets its split (interest first) and its two balance
    snapshots, and calls [repayment.save()] (line 803).  The instance has no
    [due_date]: models.py declares the column [models.DateField()], not null
    and without a default, the form's fields are loan, amount, payment_method
    and notes, and neither the form nor the view assigns it.  The INSERT
    therefore raises [IntegrityError]; nothing was written before it, and the
    [except Exception] of line 889 reports the error and renders the form.
    Lines 805 to 887 (the update of the loan, the call of
    [allocate_savings_to_loan], the ledger postings) are reached by no
    request.  The result carries the instance whose insert failed. *)
Definition loan_repayments (db : DB) (loan_pk : nat) (amount : Decimal)
  : RepaymentResponse * DB * option LoanRepayment.t :=
  match LoanRepaymentForm_is_valid db loan_pk amount with
  | None => (repayment_form_invalid, db, None)
  | Some loan =>
      let repayment0 := LoanRepaymentForm_save loan amount in
      let interest_remaining := Loan.interest_balance loan in
      let principal_remaining := Loan.principal_balance loan in
      let interest_amount := py_min (LoanRepayment.amount repayment0) interest_remaining in
      let principal_amount :=
        py_min (LoanRepayment.amount repayment0 - interest_amount) principal_remaining in
      let repayment :=
        LoanRepayment.mk (LoanRepayment.loan repayment0) (LoanRepayment.amount repayment0)
          principal_amount interest_amount
          (Loan.total_balance loan)
          (Loan.total_balance loan - LoanRepayment.amount repayment0)
          (LoanRepayment.status repayment0) in
      (repayment_error, db, Some repayment)
  end.

(** ** savings/forms.py: deposits *)

(** [SavingsAccount.objects.get_or_create(member=member, defaults={'balance': 0})] *)
Definition get_or_create_savings_account (db : DB) (member : nat)
  : DB * SavingsAccount.t :=
  match ORM.get_savings_account db member with
  | Some a => (db, a)
  | None =>
      let a := SavingsAccount.mk member 0 0 0 false in
      (ORM.save_savings_account db a, a)
  end.

(** [SavingsDepositForm.save(commit=True)] on cleaned data; returns the
    deposit's transaction instance. *)
Definition SavingsDepositForm_save (db : DB) (member : nat)
           (transaction_type : SavingsType) (amount : Decimal)
  : DB * SavingsTransaction.t :=
  let '(db0, savings_account) := get_or_create_savings_account db member in
  let transaction :=
    SavingsTransaction.mk (ORM.next_savings_transaction_pk db0) member transaction_type
      amount (SavingsAccount.balance savings_account)
      (SavingsAccount.balance savings_account + amount)
      row_completed None false 0 0 in
  let db1 := ORM.save_savings_transaction db0 transaction in
  let savings_account1 :=
    update_available_balance
      (SavingsAccount.mk (SavingsAccount.member savings_account)
         (SavingsTransaction.balance_after transaction)
         (SavingsAccount.collateral_amount savings_account)
         (SavingsAccount.available_balance savings_account)
         (SavingsAccount.has_active_loan savings_account)) in
  let db2 := ORM.save_savings_account db1 savings_account1 in
  if SavingsAccount.has_active_loan savings_account1 then
    match ORM.first_by_application_date (ORM.filter_loans db2 member [active]) with
    | Some active_loan =>
        if Qltb 0 (Loan.total_balance active_loan) then
          let r := process_loan_repayment_from_deposit
                     db2 member active_loan (SavingsTransaction.amount transaction)
                     (Some transaction) in
          if r_success r then
            match r_deposit r with
            | Some transaction1 =>
                (ORM.save_savings_transaction (r_db r) transaction1, transaction1)
            | None => (r_db r, transaction)
            end
          else (r_db r, transaction)
        else (db2, transaction)
    | None => (db2, transaction)
    end
  else (db2, transaction).

(** [SavingsDepositForm.clean_amount] *)
Definition clean_amount (amount : Decimal) : option Decimal :=
  if Qleb amount 0 then None else Some amount.

(** ** Balance reconciliation: the three computations *)

Definition lower_ascii (c : ascii) : ascii :=
  let n := nat_of_ascii c in
  if Nat.leb 65 n && Nat.leb n 90 then ascii_of_nat (n + 32) else c.

Fixpoint lower (s : string) : string :=
  match s with
  | EmptyString => EmptyString
  | String c s' => String (lower_ascii c) (lower s')
  end.

Fixpoint contains (needle hay : string) : bool :=
  String.prefix needle hay ||
  match hay with
  | EmptyString => false
  | String _ hay' => contains needle hay'
  end.

(** The [description__icontains=needle] lookup. *)
Definition icontains (needle hay : string) : bool :=
  contains (lower needle) (lower hay).

(** [Member.regular_members()] *)
Definition regular_members (db : DB) : list Member.t :=
  filter (fun m => negb (Member.is_staff m))
         (filter (fun m => negb (Member.is_superuser m)) (Member_objects db)).

Definition is_income (t : Transaction.t) : bool :=
  match Transaction.transaction_type t with income => true | _ => false end.

Definition is_completed_expense (t : Transaction.t) : bool :=
  match Transaction.transaction_type t, Transaction.status t with
  | expense, t_completed => true
  | _, _ => false
  end.

Definition active_loans (db : DB) : list Loan.t :=
  filter (fun l => LoanStatus_eqb (Loan.status l) active) (Loan_objects db).

Section Aggregates.

Variable db : DB.

Definition sum_savings_balances : option Decimal :=
  Sum (map (fun a => Some (SavingsAccount.balance a)) (SavingsAccount_objects db)).

Definition sum_repaid_interest : option Decimal :=
  Sum (map (fun r => Some (LoanRepayment.interest_amount r)) (LoanRepayment_objects db)).

Definition sum_registration_fees : option Decimal :=
  Sum (map (fun m => Some (Member.registration_fee_amount m)) (regular_members db)).

Definition sum_completed_expenses : option Decimal :=
  Sum (map (fun t => Some (Transaction.amount t))
           (filter is_completed_expense (Transaction_objects db))).

Definition sum_active_approved_amounts : option Decimal :=
  Sum (map Loan.approved_amount (active_loans db)).

Definition sum_savings_interest : option Decimal :=
  Sum (map (fun t => Some (SavingsTransaction.amount t))
           (filter (fun t =>
                      SavingsType_eqb (SavingsTransaction.transaction_type t) interest
                      && RowStatus_eqb (SavingsTransaction.status t) row_completed)
                   (SavingsTransaction_objects db))).

(** [calculate_cooperative_balance()] of transactions/views.py *)
Definition calculate_cooperative_balance : Decimal :=
  let total_member_savings := or_else sum_savings_balances 0 in
  let loan_interest_earned := or_else sum_repaid_interest 0 in
  let registration_fees := or_else sum_registration_fees 0 in
  let other_income :=
    or_else
      (Sum (map (fun t => Some (Transaction.amount t))
                (filter (fun t => negb (icontains "loan interest" (Transaction.description t)))
                   (filter (fun t => negb (icontains "registration" (Transaction.description t)))
                      (filter is_income (Transaction_objects db))))))
      0 in
  let savings_interest_income := or_else sum_savings_interest 0 in
  let other_income := other_income + savings_interest_income in
  let total_expenses := or_else sum_completed_expenses 0 in
  total_member_savings + loan_interest_earned + registration_fees
  + other_income - total_expenses.

(** The part of [amount_breakdown] of [dashboard_home] that the financial
    summary shows. *)
Record Breakdown := mkBreakdown {
  total_cooperative_balance : Decimal;
  outstanding_loans : Decimal;
  disbursed_loans : Decimal;
  available_balance : Decimal
}.

(** [dashboard_home], "ACCURATE FINANCIAL CALCULATIONS" *)
Definition dashboard_home : Breakdown :=
  let total_member_savings := or_else sum_savings_balances 0 in
  let total_outstanding_loans := py_sum (map Loan.principal_balance (active_loans db)) in
  let total_disbursed_loans := or_else sum_active_approved_amounts 0 in
  let repaid_interest := or_else sum_repaid_interest 0 in
  let loan_interest_earned := repaid_interest in
  let registration_fees := or_else sum_registration_fees 0 in
  let other_income :=
    or_else
      (Sum (map (fun t => Some (Transaction.amount t))
                (filter (fun t => negb (icontains "loan interest" (Transaction.description t)))
                   (filter (fun t => negb (icontains "registration" (Transaction.description t)))
                      (filter is_income (Transaction_objects db))))))
      0 in
  let savings_income := or_else sum_savings_interest 0 in
  let other_income := other_income + savings_income in
  let total_expenses := or_else sum_completed_expenses 0 in
  let total_cooperative_balance :=
    total_member_savings + loan_interest_earned + registration_fees
    + other_income - total_expenses in
  let available_balance := total_cooperative_balance - total_outstanding_loans in
  mkBreakdown total_cooperative_balance total_outstanding_loans
              total_disbursed_loans available_balance.

(** The pre-check inside [disburse_loan] (lines 513-555), commented in the
    source as "same as dashboard". *)
Definition disburse_loan_available_balance : Decimal :=
  let total_member_savings := or_else sum_savings_balances 0 in
  let total_disbursed_loans := or_else sum_active_approved_amounts 0 in
  let loan_interest_earned := or_else sum_repaid_interest 0 in
  let registration_fees := or_else sum_registration_fees 0 in
  let other_income :=
    or_else
      (Sum (map (fun t => Some (Transaction.amount t))
                (filter (fun t => negb (icontains "registration" (Transaction.description t)))
                   (filter is_income (Transaction_objects db)))))
      0 in
  let total_expenses := or_else sum_completed_expenses 0 in
  total_member_savings - total_disbursed_loans + loan_interest_earned
  + registration_fees + other_income - total_expenses.

End Aggregates.

(** The formula of section 4.4 of the specification, written from its
    words: member savings + loan interest earned from completed repayments +
    registration fees + other income - completed expenses, and the available
    balance as that total less the outstanding principal of active loans. *)
Definition spec_cooperative_balance (db : DB) : Decimal :=
  or_else (sum_savings_balances db) 0
  + or_else (Sum (map (fun r => Some (LoanRepayment.interest_amount r))
                      (filter (fun r => RowStatus_eqb (LoanRepayment.status r) row_completed)
                              (LoanRepayment_objects db)))) 0
  + or_else (sum_registration_fees db) 0
  + (or_else
       (Sum (map (fun t => Some (Transaction.amount t))
                 (filter (fun t => negb (icontains "loan interest" (Transaction.description t)))
                    (filter (fun t => negb (icontains "registration" (Transaction.description t)))
                       (filter is_income (Transaction_objects db)))))) 0
     + or_else (sum_savings_interest db) 0)
  - or_else (sum_completed_expenses db) 0.

Definition spec_available_balance (db : DB) : Decimal :=
  spec_cooperative_balance db - py_sum (map Loan.principal_balance (active_loans db)).

(** ** loans/views.py: disbursement *)

(** The row writes of the ledger block of [disburse_loan], in program order.
    Each is a [Model.save()] and can fail in the database; [fault] below names
    the one that does. *)
Inductive LedgerStep :=
| create_disbursement_transaction
| create_debit_entry
| create_credit_entry
| save_loan_account
| save_cooperative_account.

Definition LedgerStep_eqb (a b : LedgerStep) : bool :=
  match a, b with
  | create_disbursement_transaction, create_disbursement_transaction
  | create_debit_entry, create_debit_entry
  | create_credit_entry, create_credit_entry
  | save_loan_account, save_loan_account
  | save_cooperative_account, save_cooperative_account => true
  | _, _ => false
  end.

Inductive Exception :=
| TypeError
| IntegrityError
| DatabaseError (step : LedgerStep).

(** The database connection of the request: the data and Django's
    [needs_rollback] mark. *)
Record Connection := mkConnection {
  conn_db : DB;
  needs_rollback : bool
}.

(** Computations over the connection that may raise.  A raised exception
    keeps the writes made so far: nothing is undone unless a transaction block
    sees to it. *)
Inductive Outcome (A : Type) :=
| Returned (a : A) (c : Connection)
| Raised (e : Exception) (c : Connection).
Arguments Returned {A} a c.
Arguments Raised {A} e c.

Definition M (A : Type) := Connection -> Outcome A.

Definition ret {A} (a : A) : M A := fun c => Returned a c.
Definition raise {A} (e : Exception) : M A := fun c => Raised e c.
Definition bind {A B} (m : M A) (k : A -> M B) : M B :=
  fun c => match m c with
           | Returned a c' => k a c'
           | Raised e c' => Raised e c'
           end.
Definition get_db : M DB := fun c => Returned (conn_db c) c.
Definition write (f : DB -> DB) : M unit :=
  fun c => Returned tt (mkConnection (f (conn_db c)) (needs_rollback c)).

Notation "x <- m ;; k" := (bind m (fun x => k))
  (at level 61, m at next level, right associativity).
Notation "m ;;; k" := (bind m (fun _ => k))
  (at level 61, right associativity).

(** [transaction.mark_for_rollback_on_error], which [Model.save()] wraps
    around its queries: an exception that passes sets [needs_rollback]. *)
Definition mark_for_rollback_on_error {A} (m : M A) : M A :=
  fun c => match m c with
           | Returned a c' => Returned a c'
           | Raised e c' => Raised e (mkConnection (conn_db c') true)
           end.

(** The outermost [with transaction.atomic(): body].  Leaving the block by an
    exception, or with [needs_rollback] set, restores the database of the
    entry; leaving it in any other way, a [return] included, commits. *)
Definition atomic {A} (body : M A) : M A :=
  fun c => match body c with
           | Returned a c' =>
               if needs_rollback c' then Returned a (mkConnection (conn_db c) false)
               else Returned a c'
           | Raised e _ => Raised e (mkConnection (conn_db c) false)
           end.

(** A nested [transaction.atomic()], as inside [get_or_create]: a savepoint.
    An exception rolls back to it and clears the mark. *)
Definition savepoint {A} (body : M A) : M A :=
  fun c => match body c with
           | Returned a c' => Returned a c'
           | Raised e _ => Raised e (mkConnection (conn_db c) false)
           end.

(** [try: body except Exception: handler] *)
Definition try_except {A} (body : M A) (handler : Exception -> M A) : M A :=
  fun c => match body c with
           | Returned a c' => Returned a c'
           | Raised e c' => handler e c'
           end.

Module Ledger.

Definition get_category (db : DB) (code : string) : option AccountCategory.t :=
  find (fun c => String.eqb (AccountCategory.code c) code) (AccountCategory_objects db).

(** [AccountCategory.name] is unique. *)
Definition category_name_taken (db : DB) (name : string) : bool :=
  existsb (fun c => String.eqb (AccountCategory.name c) name) (AccountCategory_objects db).

Definition get_account (db : DB) (code : string) : option Account.t :=
  find (fun a => String.eqb (Account.code a) code) (Account_objects db).

Definition add_category (c : AccountCategory.t) (db : DB) : DB :=
  mkDB (Member_objects db) (SavingsAccount_objects db) (SavingsTransaction_objects db)
       (Loan_objects db) (LoanRepayment_objects db) (Transaction_objects db)
       (AccountCategory_objects db ++ [c]) (Account_objects db)
       (TransactionEntry_objects db).

Fixpoint put_account (a : Account.t) (rows : list Account.t) : list Account.t :=
  match rows with
  | [] => [a]
  | r :: rows' =>
      if String.eqb (Account.code r) (Account.code a) then a :: rows'
      else r :: put_account a rows'
  end.

Definition save_account (a : Account.t) (db : DB) : DB :=
  mkDB (Member_objects db) (SavingsAccount_objects db) (SavingsTransaction_objects db)
       (Loan_objects db) (LoanRepayment_objects db) (Transaction_objects db)
       (AccountCategory_objects db) (put_account a (Account_objects db))
       (TransactionEntry_objects db).

Definition add_transaction (t : Transaction.t) (db : DB) : DB :=
  mkDB (Member_objects db) (SavingsAccount_objects db) (SavingsTransaction_objects db)
       (Loan_objects db) (LoanRepayment_objects db) (Transaction_objects db ++ [t])
       (AccountCategory_objects db) (Account_objects db)
       (TransactionEntry_objects db).

Definition add_entry (e : TransactionEntry.t) (db : DB) : DB :=
  mkDB (Member_objects db) (SavingsAccount_objects db) (SavingsTransaction_objects db)
       (Loan_objects db) (LoanRepayment_objects db) (Transaction_objects db)
       (AccountCategory_objects db) (Account_objects db)
       (TransactionEntry_objects db ++ [e]).

End Ledger.

Section Disbursement.

(** The ledger write that fails in the database, if any. *)
Variable fault : option LedgerStep.

(** A [save()] or [objects.create(...)] of the ledger block. *)
Definition step {A} (s : LedgerStep) (m : M A) : M A :=
  mark_for_rollback_on_error
    (match fault with
     | Some s' => if LedgerStep_eqb s s' then raise (DatabaseError s) else m
     | None => m
     end).

(** [AccountCategory.objects.get_or_create(code=..., defaults=...)[0]]: the
    row with the code, else a new row created under a savepoint; the insert
    violates the unique name when another category carries it, and the
    [IntegrityError] is raised again once the second lookup has failed
    too. *)
Definition get_or_create_category (code name category_type : string)
  : M AccountCategory.t :=
  db <- get_db ;;
  match Ledger.get_category db code with
  | Some c => ret c
  | None =>
      let c := AccountCategory.mk code name category_type in
      try_except
        (savepoint
           (mark_for_rollback_on_error
              (if Ledger.category_name_taken db name then raise IntegrityError
               else write (Ledger.add_category c) ;;; ret c)))
        (fun e =>
           db' <- get_db ;;
           match e, Ledger.get_category db' code with
           | IntegrityError, Some c' => ret c'
           | _, _ => raise e
           end)
  end.

(** [Account.objects.get_or_create(code=..., defaults=...)[0]]; the code is
    the only unique column, so the insert that follows a failed lookup goes
    through. *)
Definition get_or_create_account (code name : string) (category : AccountCategory.t)
  : M Account.t :=
  db <- get_db ;;
  match Ledger.get_account db code with
  | Some a => ret a
  | None =>
      let a := Account.mk code name (AccountCategory.code category) 0 in
      write (Ledger.save_account a) ;;; ret a
  end.

(** The block "Create transaction entries for disbursement"
    (lines 632-709), without its [except].  The f-string description of the
    transaction is cut down to its fixed words.  The [post_save] receiver of
    transactions/signals.py is left out: where it is connected is not in the
    sources, and for a 'transfer' transaction it posts no entry. *)
Definition post_disbursement (loan : Loan.t) (approved_amount : Decimal) : M unit :=
  cash_category <- get_or_create_category "1000" "Cash and Bank" "asset" ;;
  cooperative_account <- get_or_create_account
                           "COOP001" "Cooperative Main Account" cash_category ;;
  receivable_category <- get_or_create_category "1200" "Loans Receivable" "asset" ;;
  loan_account <- get_or_create_account "1200" "Loans Receivable" receivable_category ;;
  disbursement_transaction <-
    step create_disbursement_transaction
      (db <- get_db ;;
       write (Ledger.add_transaction
                (Transaction.mk transfer "Loan disbursement" approved_amount t_completed)) ;;;
       ret (List.length (Transaction_objects db))) ;;
  step create_debit_entry
    (write (Ledger.add_entry
              (TransactionEntry.mk disbursement_transaction (Account.code loan_account)
                                   debit approved_amount))) ;;;
  step create_credit_entry
    (write (Ledger.add_entry
              (TransactionEntry.mk disbursement_transaction
                                   (Account.code cooperative_account)
                                   credit approved_amount))) ;;;
  step save_loan_account
    (write (Ledger.save_account
              (Account.mk (Account.code loan_account) (Account.name loan_account)
                          (Account.category loan_account)
                          (Account.balance loan_account + approved_amount)))) ;;;
  step save_cooperative_account
    (write (Ledger.save_account
              (Account.mk (Account.code cooperative_account)
                          (Account.name cooperative_account)
                          (Account.category cooperative_account)
                          (Account.balance cooperative_account - approved_amount)))).

Inductive DisburseResponse :=
| disburse_form                    (* GET: the disbursement page *)
| not_found                        (* Http404 *)
| cannot_be_disbursed              (* 'This loan cannot be disbursed.' *)
| insufficient_available_balance (available required : Decimal)
| no_approved_amount               (* 'Loan must have an approved amount ...' *)
| ledger_error (e : Exception)     (* 'Error creating transaction entries: ...' *)
| disbursing_error (e : Exception) (* 'Error disbursing loan: ...' *)
| disbursed_successfully (savings_grew : bool). (* '... disbursed successfully!' *)

(** The body of the [with transaction.atomic():] block of [disburse_loan]. *)
Definition disburse_loan_body (loan : Loan.t) : M DisburseResponse :=
  db <- get_db ;;
  let available_balance := disburse_loan_available_balance db in
  match Loan.approved_amount loan with
  | None =>
      (* formatting and comparing [None] raises *)
      raise TypeError
  | Some approved_amount =>
      if Qltb available_balance approved_amount then
        ret (insufficient_available_balance available_balance approved_amount)
      else if negb (truthy approved_amount) then
        ret no_approved_amount
      else
        let principal_balance := approved_amount in
        let interest_balance := principal_balance * (10 # 100) in
        let total_balance := principal_balance + interest_balance in
        (* [loan.save()]: the row takes the approved amount as its own column
           holds it and the two computed balances rounded to two places;
           the instance is read for its keys only from here on *)
        let loan1 := with_balances loan active principal_balance
                                   (quantize interest_balance)
                                   (quantize total_balance) in
        write (fun db => ORM.save_loan db loan1) ;;;
        db1 <- get_db ;;
        let savings_account := ORM.get_savings_account db1 (Loan.member loan1) in
        let balance_before :=
          match savings_account with
          | Some a => SavingsAccount.balance a
          | None => 0
          end in
        collateral_set <-
          (db <- get_db ;;
           write (fun db => fst (set_loan_collateral db (Loan.member loan1) loan1)) ;;;
           ret (snd (set_loan_collateral db (Loan.member loan1) loan1))) ;;
        db2 <- get_db ;;
        let savings_grew :=
          match savings_account with
          | Some a =>
              match ORM.get_savings_account db2 (SavingsAccount.member a) with
              | Some a' => Qltb balance_before (SavingsAccount.balance a')
              | None => false
              end
          | None => false
          end in
        try_except
          (post_disbursement loan1 approved_amount ;;; ret (disbursed_successfully savings_grew))
          (fun e => ret (ledger_error e))
  end.

(** [disburse_loan(request, pk)]; [post] tells a POST from a GET.  The
    request starts on a connection in autocommit mode. *)
Definition disburse_loan (post : bool) (pk : nat) (db : DB) : DisburseResponse * DB :=
  match ORM.get_loan db pk with
  | None => (not_found, db)
  | Some loan =>
      if post then
        if negb (LoanStatus_eqb (Loan.status loan) approved) then
          (cannot_be_disbursed, db)
        else
          match try_except (atomic (disburse_loan_body loan))
                           (fun e => ret (disbursing_error e))
                           (mkConnection db false) with
          | Returned r c => (r, conn_db c)
          | Raised e c => (disbursing_error e, conn_db c)
          end
      else (disburse_form, db)
  end.

End Disbursement.

(** ** Quantities the eligibility rules speak of *)

(** Total historic deposits of the member: what [maximum_loan_amount]
    doubles. *)
Definition total_deposits (db : DB) (self : Member.t) : Decimal :=
  match ORM.get_savings_account db (Member.pk self) with
  | Some a => get_total_savings db a
  | None => 0
  end.

(** What the member borrowed on the loans that are still open. *)
Definition total_borrowed (db : DB) (self : Member.t) : Decimal :=
  py_sum (map (fun l => or_else (Loan.approved_amount l) (Loan.requested_amount l))
              (ORM.filter_loans db (Member.pk self) [active; approved])).

(** ** Repayment events *)

(** A repayment event: one of the two helpers ran on [db] against the loan
    instance [l], saved the [LoanRepayment] [r] and left the loan instance
    [l'] and the database [db'].  The manual view saves none. *)
Inductive repayment_event : DB -> Loan.t -> LoanRepayment.t -> Loan.t -> DB -> Prop :=
| repayment_from_savings db member l amount r :
    r_repayment (process_loan_repayment_from_savings db member l amount) = Some r ->
    repayment_event db l r
      (r_loan (process_loan_repayment_from_savings db member l amount))
      (r_db (process_loan_repayment_from_savings db member l amount))
| repayment_from_deposit db member l amount deposit r :
    r_repayment (process_loan_repayment_from_deposit db member l amount deposit) = Some r ->
    repayment_event db l r
      (r_loan (process_loan_repayment_from_deposit db member l amount deposit))
      (r_db (process_loan_repayment_from_deposit db member l amount deposit)).

(** The ways into a repayment that the program has: the manual repayment by
    staff, the allocation of savings to a loan, and the deposit of a member
    through the deposit form. *)
Inductive RepaymentPath :=
| staff_repayment (loan_pk : nat) (amount : Decimal)
| savings_allocation (member : nat) (loan : Loan.t)
| member_deposit (member : nat) (transaction_type : SavingsType) (amount : Decimal).

(** The database a repayment path leaves. *)
Definition run_repayment_path (p : RepaymentPath) (db : DB) : DB :=
  match p with
  | staff_repayment loan_pk amount => snd (fst (loan_repayments db loan_pk amount))
  | savings_allocation member loan =>
      match allocate_savings_to_loan db member loan with
      | Some r => r_db r
      | None => db
      end
  | member_deposit member transaction_type amount =>
      fst (SavingsDepositForm_save db member transaction_type amount)
  end.

(** The two parts of a repayment add up to its amount. *)
Definition parts_sum (r : LoanRepayment.t) : Prop :=
  LoanRepayment.principal_amount r + LoanRepayment.interest_amount r
  == LoanRepayment.amount r.

(** No loan of the database has a principal balance below zero. *)
Definition principal_not_negative (db : DB) : Prop :=
  forall l, In l (Loan_objects db) -> 0 <= Loan.principal_balance l.

(** Interest-first allocation of the repayment [r] against the balances of
    [before], and the balances of [after]. *)
Definition interest_first (r : LoanRepayment.t) (before after : Loan.t) : Prop :=
  LoanRepayment.interest_amount r
  == Qmin (LoanRepayment.amount r) (Loan.interest_balance before)
  /\ LoanRepayment.principal_amount r
     == Qmin (LoanRepayment.amount r - LoanRepayment.interest_amount r)
             (Loan.principal_balance before)
  /\ Loan.interest_balance after
     == Loan.interest_balance before - LoanRepayment.interest_amount r
  /\ Loan.principal_balance after
     == Loan.principal_balance before - LoanRepayment.principal_amount r.

(** A sequence of deposits of one member through the deposit form. *)
Fixpoint deposits (db : DB) (member : nat) (ds : list (SavingsType * Decimal)) : DB :=
  match ds with
  | [] => db
  | (ty, amount) :: ds' => deposits (fst (SavingsDepositForm_save db member ty amount)) member ds'
  end.

(** ** Scenario data (section 8 of the specification) *)

Module Scenario.

Definition member : Member.t := Member.mk 1 150000 0 false false.

(** The member's loan of 100000, approved and not yet disbursed. *)
Definition approved_loan : Loan.t :=
  Loan.mk 1 1 120000 (Some 100000) approved 0 0 0 0.

(** The same loan after disbursement. *)
Definition active_loan : Loan.t :=
  Loan.mk 1 1 120000 (Some 100000) active 0 100000 10000 110000.

(** The same loan once the interest is paid. *)
Definition principal_phase_loan : Loan.t :=
  Loan.mk 1 1 120000 (Some 100000) active 0 100000 0 100000.

Definition first_deposit : SavingsTransaction.t :=
  SavingsTransaction.mk 1 1 compulsory 200000 0 200000 row_completed None false 0 0.

Definition collateral_row : SavingsTransaction.t :=
  SavingsTransaction.mk 2 1 collateral 200000 200000 200000 row_completed (Some 1%nat) false 0 0.

(** Before disbursement: 200000 deposited, nothing locked; a second member
    keeps enough savings in the cooperative to fund the loan. *)
Definition db_approved : DB :=
  mkDB [member; Member.mk 2 50000 0 false false]
       [SavingsAccount.mk 1 200000 0 200000 false;
        SavingsAccount.mk 2 500000 0 500000 false]
       [first_deposit] [approved_loan] [] [] [] [] [].

(** The member alone, before any loan. *)
Definition db_deposited : DB :=
  mkDB [member] [SavingsAccount.mk 1 200000 0 200000 false]
       [first_deposit] [] [] [] [] [] [].

(** After disbursement: the 200000 are collateral. *)
Definition db_active : DB :=
  mkDB [member; Member.mk 2 50000 0 false false]
       [SavingsAccount.mk 1 200000 200000 0 true;
        SavingsAccount.mk 2 500000 0 500000 false]
       [first_deposit; collateral_row] [active_loan] [] [] [] [] [].

(** The loan with 60000 left, all of it principal, after a deposit of 50000
    went to the loan. *)
Definition loan_60000 : Loan.t :=
  Loan.mk 1 1 120000 (Some 100000) active 0 60000 0 60000.

Definition db_60000 : DB :=
  mkDB [member; Member.mk 2 50000 0 false false]
       [SavingsAccount.mk 1 200000 200000 0 true;
        SavingsAccount.mk 2 500000 0 500000 false]
       [first_deposit; collateral_row;
        SavingsTransaction.mk 3 1 compulsory 0 200000 200000 row_completed
                              None false 0 0;
        SavingsTransaction.mk 4 1 loan_repayment 50000 250000 200000 row_completed
                              (Some 1%nat) true 40000 10000]
       [loan_60000]
       [LoanRepayment.mk 1 50000 40000 10000 110000 60000 row_completed]
       [] [] [] [].

(** Before disbursement, with a ledger category that an administrator
    named 'Loans Receivable' under a code of its own. *)
Definition db_named_category : DB :=
  mkDB [member; Member.mk 2 50000 0 false false]
       [SavingsAccount.mk 1 200000 0 200000 false;
        SavingsAccount.mk 2 500000 0 500000 false]
       [first_deposit] [approved_loan] [] []
       [AccountCategory.mk "12" "Loans Receivable" "asset"] [] [].

(** The active loan of 110000 once the member holds 400000, of which
    200000 are collateral. *)
Definition db_new_savings : DB :=
  mkDB [member; Member.mk 2 50000 0 false false]
       [SavingsAccount.mk 1 400000 200000 200000 true;
        SavingsAccount.mk 2 500000 0 500000 false]
       [first_deposit; collateral_row] [active_loan] [] [] [] [] [].



(** A member without a savings account whose loan is approved; the other
    member's savings fund it. *)
Definition db_no_savings : DB :=
  mkDB [member; Member.mk 2 50000 0 false false]
       [SavingsAccount.mk 2 500000 0 500000 false]
       [] [approved_loan] [] [] [] [] [].

End Scenario.

(** ** Frames *)

(** The tables outside the general ledger are the same in [db] and [db']. *)
Definition same_core (db db' : DB) : Prop :=
  Member_objects db' = Member_objects db
  /\ SavingsAccount_objects db' = SavingsAccount_objects db
  /\ SavingsTransaction_objects db' = SavingsTransaction_objects db
  /\ Loan_objects db' = Loan_objects db
  /\ LoanRepayment_objects db' = LoanRepayment_objects db.

(** Whatever way [m] ends, the database it leaves is related to the one it
    started from. *)
Definition frame {A} (P : DB -> DB -> Prop) (m : M A) : Prop :=
  forall c, match m c with
            | Returned _ c' => P (conn_db c) (conn_db c')
            | Raised _ c' => P (conn_db c) (conn_db c')
            end.

(** The ledger block cannot create its 'Loans Receivable' category: none has
    the code 1200 and another one has the name. *)
Definition receivable_clash (cats : list AccountCategory.t) : bool :=
  match find (fun c => String.eqb (AccountCategory.code c) "1200") cats with
  | Some _ => false
  | None => existsb (fun c => String.eqb (AccountCategory.name c) "Loans Receivable") cats
  end.

(** The same for either of the two categories of the ledger block, 'Cash and
    Bank' under the code 1000 being looked up first. *)
Definition categories_clash (db : DB) : bool :=
  match find (fun c => String.eqb (AccountCategory.code c) "1000")
             (AccountCategory_objects db) with
  | Some _ => receivable_clash (AccountCategory_objects db)
  | None =>
      if existsb (fun c => String.eqb (AccountCategory.name c) "Cash and Bank")
                 (AccountCategory_objects db)
      then true
      else receivable_clash
             (AccountCategory_objects db
              ++ [AccountCategory.mk "1000" "Cash and Bank" "asset"])
  end.

(** The loan row as [disburse_loan] saves it. *)
Definition disbursed_loan (loan : Loan.t) (approved_amount : Decimal) : Loan.t :=
  with_balances loan active approved_amount
                (quantize (approved_amount * (10 # 100)))
                (quantize (approved_amount + approved_amount * (10 # 100))).

(** The database once the loan is saved and the collateral set, before the
    ledger block. *)
Definition disbursed_core (db : DB) (loan : Loan.t) (approved_amount : Decimal) : DB :=
  fst (set_loan_collateral (ORM.save_loan db (disbursed_loan loan approved_amount))
                           (Loan.member loan) (disbursed_loan loan approved_amount)).


(** ** Ordinary deposits *)

Definition balance_of (db : DB) (member : nat) : Decimal :=
  match ORM.get_savings_account db member with
  | Some a => SavingsAccount.balance a
  | None => 0
  end.

Definition no_active_loan_flag (db : DB) (member : nat) : Prop :=
  match ORM.get_savings_account db member with
  | Some a => SavingsAccount.has_active_loan a = false
  | None => True
  end.

(** The deposit of [amount] that took [db] to [db'] and returned the
    transaction [t] went to savings in full: the whole amount is on the row
    and on the balance, the row is the only new savings transaction, and no
    loan or loan repayment was touched. *)
Definition ordinary_deposit (db db' : DB) (member : nat) (ty : SavingsType)
           (amount : Decimal) (t : SavingsTransaction.t) : Prop :=
  Loan_objects db' = Loan_objects db
  /\ LoanRepayment_objects db' = LoanRepayment_objects db
  /\ SavingsTransaction_objects db'
     = ORM.put_savings_transaction t (SavingsTransaction_objects db)
  /\ SavingsTransaction.transaction_type t = ty
  /\ SavingsTransaction.amount t = amount
  /\ SavingsTransaction.balance_before t = balance_of db member
  /\ SavingsTransaction.balance_after t = balance_of db member + amount
  /\ balance_of db' member = balance_of db member + amount.

(** Every deposit of the sequence is an ordinary one. *)
Fixpoint all_ordinary (db : DB) (member : nat) (ds : list (SavingsType * Decimal)) : Prop :=
  match ds with
  | [] => True
  | (ty, amount) :: ds' =>
      ordinary_deposit db (fst (SavingsDepositForm_save db member ty amount)) member
                       ty amount (snd (SavingsDepositForm_save db member ty amount))
      /\ all_ordinary (fst (SavingsDepositForm_save db member ty amount)) member ds'
  end.

(** ** The auto-split of a deposit *)

(** The deposit row as [process_loan_repayment_from_deposit] rewrites it. *)
Definition rewritten_deposit (d : SavingsTransaction.t) (remaining_for_savings : Decimal)
  : SavingsTransaction.t :=
  SavingsTransaction.mk (SavingsTransaction.pk d) (SavingsTransaction.savings_account d)
    (SavingsTransaction.transaction_type d) remaining_for_savings
    (SavingsTransaction.balance_before d)
    (SavingsTransaction.balance_before d + remaining_for_savings)
    (SavingsTransaction.status d) (SavingsTransaction.related_loan d)
    (SavingsTransaction.is_loan_repayment d) (SavingsTransaction.repayment_principal d)
    (SavingsTransaction.repayment_interest d).

Definition is_savings_deposit (ty : SavingsType) : bool :=
  existsb (SavingsType_eqb ty) [compulsory; voluntary].

(** The situation of a deposit under an active loan: the member's account
    carries the flag, [l] is the active loan the form picks, its total is
    above zero, which is what the form asks before it calls the helper, and
    something is owed on its two balances. *)
Definition deposit_under_active_loan (db : DB) (member : nat) (a : SavingsAccount.t)
           (l : Loan.t) : Prop :=
  ORM.get_savings_account db member = Some a
  /\ SavingsAccount.has_active_loan a = true
  /\ ORM.first_by_application_date (ORM.filter_loans db member [active]) = Some l
  /\ 0 < Loan.total_balance l
  /\ 0 < Loan.interest_balance l + Loan.principal_balance l.

(** The deposit of the specification's last scenario, as an 'interest'
    payment. *)
Definition interest_deposit_result : DB * SavingsTransaction.t :=
  SavingsDepositForm_save Scenario.db_60000 1 interest 50000.
(** ** savings/models.py, savings/forms.py, savings/views.py: withdrawals *)

(** [SavingsAccount.can_withdraw] *)
Definition can_withdraw (a : SavingsAccount.t) (amount : Decimal) : bool :=
  Qleb amount (SavingsAccount.available_balance a).

(** The [ValidationError]s of [SavingsWithdrawalForm.clean]; the first and
    the third are f-strings around the values kept here. *)
Inductive WithdrawalError :=
| insufficient_available_balance_for_withdrawal (available held_as_collateral : Decimal)
| insufficient_balance_for_withdrawal
| less_than_minimum_balance (minimum : Decimal)
| member_has_no_savings_account.

Inductive WithdrawalResponse :=
| withdrawal_form_invalid (e : WithdrawalError)   (* the form is rendered again *)
| withdrawal_failed                               (* 'Withdrawal failed: ...' *)
| withdrawal_processed (amount : Decimal).        (* 'Withdrawal of ... processed successfully!' *)

Section Withdrawal.

(** The column [minimum_balance] of the member's savings account, which the
    record above does not keep: no modelled code writes it. *)
Variable minimum_balance : nat -> Decimal.

(** [SavingsWithdrawalForm.clean] on a chosen member and a parsed amount;
    [None] when the form is valid.  The checks sit under
    [if member and amount:], so a zero amount skips them. *)
Definition SavingsWithdrawalForm_clean (db : DB) (member : nat) (amount : Decimal)
  : option WithdrawalError :=
  if truthy amount then
    match ORM.get_savings_account db member with
    | Some savings_account =>
        if negb (can_withdraw savings_account amount) then
          if SavingsAccount.has_active_loan savings_account then
            Some (insufficient_available_balance_for_withdrawal
                    (SavingsAccount.available_balance savings_account)
                    (SavingsAccount.collateral_amount savings_account))
          else Some insufficient_balance_for_withdrawal
        else if Qltb amount (minimum_balance member) then
          Some (less_than_minimum_balance (minimum_balance member))
        else None
    | None => Some member_has_no_savings_account
    end
  else None.

(** [SavingsWithdrawalForm.save(commit=True)]; [None] stands for the
    [SavingsAccount.DoesNotExist] of its lookup.  The ledger row is the
    'expense' transaction the form creates; its f-string description is cut
    down to its fixed words, and the [post_save] receiver is left out as in
    the disbursement. *)
Definition SavingsWithdrawalForm_save (db : DB) (member : nat) (amount : Decimal)
  : option (DB * SavingsTransaction.t) :=
  match ORM.get_savings_account db member with
  | None => None
  | Some savings_account =>
      let transaction :=
        SavingsTransaction.mk (ORM.next_savings_transaction_pk db) member withdrawal
          amount (SavingsAccount.balance savings_account)
          (SavingsAccount.balance savings_account - amount)
          row_completed None false 0 0 in
      let db1 := ORM.save_savings_transaction db transaction in
      let savings_account1 :=
        update_available_balance
          (SavingsAccount.mk (SavingsAccount.member savings_account)
             (SavingsTransaction.balance_after transaction)
             (SavingsAccount.collateral_amount savings_account)
             (SavingsAccount.available_balance savings_account)
             (SavingsAccount.has_active_loan savings_account)) in
      let db2 := ORM.save_savings_account db1 savings_account1 in
      let db3 :=
        Ledger.add_transaction
          (Transaction.mk expense "Member withdrawal"
                          (SavingsTransaction.amount transaction) t_completed) db2 in
      Some (db3, transaction)
  end.

(** [process_withdrawal(request)] for a POST *)
Definition process_withdrawal (db : DB) (member : nat) (amount : Decimal)
  : WithdrawalResponse * DB :=
  match SavingsWithdrawalForm_clean db member amount with
  | Some e => (withdrawal_form_invalid e, db)
  | None =>
      match SavingsWithdrawalForm_save db member amount with
      | Some (db', transaction) =>
          (withdrawal_processed (SavingsTransaction.amount transaction), db')
      | None => (withdrawal_failed, db)
      end
  end.

End Withdrawal.

(** [get_object_or_404(SavingsTransaction, pk=pk)] *)
Definition get_savings_transaction (db : DB) (pk : nat) : option SavingsTransaction.t :=
  find (fun t => Nat.eqb (SavingsTransaction.pk t) pk) (SavingsTransaction_objects db).

(** [transaction.delete()] *)
Definition delete_savings_transaction (db : DB) (pk : nat) : DB :=
  mkDB (Member_objects db) (SavingsAccount_objects db)
       (filter (fun t => negb (Nat.eqb (SavingsTransaction.pk t) pk))
               (SavingsTransaction_objects db))
       (Loan_objects db) (LoanRepayment_objects db)
       (Transaction_objects db) (AccountCategory_objects db) (Account_objects db)
       (TransactionEntry_objects db).

Inductive UndoResponse :=
| undo_method_not_allowed      (* 'Method not allowed' *)
| undo_exception               (* the [except Exception] branch *)
| undo_too_old                 (* 'Transaction is too old to undo' *)
| undo_incomplete              (* 'Cannot undo incomplete transaction' *)
| undo_done.                   (* 'Transaction undone successfully' *)

(** [undo_savings_transaction(request, pk)]; [post] tells a POST from any
    other method and [older_than_24_hours] is the outcome of comparing the
    row's [transaction_date] with the clock.  The type 'deposit' of the
    source's first list is not among the choices of the model and has no
    constructor here. *)
Definition undo_savings_transaction (post older_than_24_hours : bool) (pk : nat) (db : DB)
  : UndoResponse * DB :=
  if negb post then (undo_method_not_allowed, db)
  else
    match get_savings_transaction db pk with
    | None => (undo_exception, db)
    | Some transaction =>
        if older_than_24_hours then (undo_too_old, db)
        else if negb (RowStatus_eqb (SavingsTransaction.status transaction) row_completed)
        then (undo_incomplete, db)
        else
          match ORM.get_savings_account db (SavingsTransaction.savings_account transaction) with
          | None => (undo_exception, db)
          | Some savings_account =>
              let balance :=
                if existsb (SavingsType_eqb (SavingsTransaction.transaction_type transaction))
                           [compulsory; voluntary]
                then SavingsAccount.balance savings_account
                     - SavingsTransaction.amount transaction
                else if SavingsType_eqb (SavingsTransaction.transaction_type transaction)
                                        withdrawal
                then SavingsAccount.balance savings_account
                     + SavingsTransaction.amount transaction
                else SavingsAccount.balance savings_account in
              let savings_account1 :=
                update_available_balance
                  (SavingsAccount.mk (SavingsAccount.member savings_account) balance
                     (SavingsAccount.collateral_amount savings_account)
                     (SavingsAccount.available_balance savings_account)
                     (SavingsAccount.has_active_loan savings_account)) in
              let db1 := ORM.save_savings_account db savings_account1 in
              (undo_done, delete_savings_transaction db1 pk)
          end
    end.

(** ** loans/views.py: approval and rejection *)

(** The POST of [loan_applications]: the action and, for an approval, the
    text of [approved_amount] as [Decimal(...)] reads it ([None] when it
    raises; a missing field reads as 0). *)
Inductive ApplicationAction :=
| approve (approved_amount : option Decimal)
| reject
| no_action.

Inductive ApplicationResponse :=
| application_approved (approved_amount : Decimal)  (* 'Loan ... approved for ...!' *)
| invalid_approved_amount             (* 'Please provide a valid approved amount.' *)
| cannot_be_approved                  (* 'This loan cannot be approved.' *)
| application_rejected                (* 'Loan ... rejected!' *)
| cannot_be_rejected                  (* 'This loan cannot be rejected.' *)
| application_error                   (* 'Error processing loan application: ...' *)
| application_redirect.               (* no message *)

Definition with_status (l : Loan.t) (approved_amount : option Decimal) (st : LoanStatus)
  : Loan.t :=
  Loan.mk (Loan.pk l) (Loan.member l) (Loan.requested_amount l) approved_amount st
          (Loan.application_date l) (Loan.principal_balance l)
          (Loan.interest_balance l) (Loan.total_balance l).

(** [loan_applications(request)] for a POST.  The approved amount is the
    text of the request read by [Decimal(...)]; it is taken as typed, an
    amount of two places. *)
Definition loan_applications (db : DB) (action : ApplicationAction) (loan_id : nat)
  : ApplicationResponse * DB :=
  match ORM.get_loan db loan_id with
  | None => (application_error, db)
  | Some loan =>
      match action with
      | approve text =>
          if LoanStatus_eqb (Loan.status loan) pending then
            match text with
            | None => (application_error, db)
            | Some approved_amount =>
                if Qltb 0 approved_amount then
                  (application_approved approved_amount,
                   ORM.save_loan db (with_status loan (Some approved_amount) approved))
                else (invalid_approved_amount, db)
            end
          else (cannot_be_approved, db)
      | reject =>
          if LoanStatus_eqb (Loan.status loan) pending then
            (application_rejected,
             ORM.save_loan db (with_status loan (Loan.approved_amount loan) rejected))
          else (cannot_be_rejected, db)
      | no_action => (application_redirect, db)
      end
  end.



(** ** loans/models.py: the repayment schedule *)

(** [self.approved_amount or self.requested_amount] *)
Definition principal (self : Loan.t) : Decimal :=
  or_else (Loan.approved_amount self) (Loan.requested_amount self).

(** [Loan.total_interest] *)
Definition total_interest (self : Loan.t) : Decimal := principal self * (10 # 100).

(** [Loan.total_amount_payable] *)
Definition total_amount_payable (self : Loan.t) : Decimal :=
  let interest_amount := principal self * (10 # 100) in
  principal self + interest_amount.

Module ScheduleRow.
(** One dictionary of the schedule; [interest_phase] is the key 'phase',
    'Interest Phase' or 'Principal Phase'. *)
Record t := mk {
  month : nat;
  principal_payment : Decimal;
  interest_payment : Decimal;
  total_payment : Decimal;
  remaining_balance : Decimal;
  interest_phase : bool
}.
End ScheduleRow.

(** The state of the two loops of [get_repayment_schedule]. *)
Record ScheduleState := mkScheduleState {
  schedule : list ScheduleRow.t;
  remaining_interest : Decimal;
  remaining_principal : Decimal;
  current_month : nat
}.

(** One turn of "Phase 1": pay interest, and principal with what the
    deposit leaves. *)
Definition interest_phase_turn (member_monthly_deposit : Decimal) (s : ScheduleState)
  : ScheduleState :=
  let interest_payment := py_min member_monthly_deposit (remaining_interest s) in
  let principal_payment :=
    if Qltb (remaining_interest s) member_monthly_deposit
    then py_min (member_monthly_deposit - remaining_interest s) (remaining_principal s)
    else 0 in
  let remaining_interest1 := remaining_interest s - interest_payment in
  let remaining_principal1 := remaining_principal s - principal_payment in
  mkScheduleState
    (schedule s
     ++ [ScheduleRow.mk (current_month s) principal_payment interest_payment
           (interest_payment + principal_payment)
           (remaining_interest1 + remaining_principal1)
           (Qltb 0 remaining_interest1)])
    remaining_interest1 remaining_principal1 (S (current_month s)).

(** "Phase 1": [while remaining_interest > 0 and current_month <= 22].
    [fuel] bounds the number of turns. *)
Fixpoint interest_phase_loop (fuel : nat) (member_monthly_deposit : Decimal)
         (s : ScheduleState) : ScheduleState :=
  match fuel with
  | O => s
  | S fuel' =>
      if Qltb 0 (remaining_interest s) && Nat.leb (current_month s) 22 then
        interest_phase_loop fuel' member_monthly_deposit
          (interest_phase_turn member_monthly_deposit s)
      else s
  end.

(** One turn of "Phase 2": pay principal. *)
Definition principal_phase_turn (member_monthly_deposit : Decimal) (s : ScheduleState)
  : ScheduleState :=
  let principal_payment := py_min member_monthly_deposit (remaining_principal s) in
  let remaining_principal1 := remaining_principal s - principal_payment in
  mkScheduleState
    (schedule s
     ++ [ScheduleRow.mk (current_month s) principal_payment 0
           principal_payment remaining_principal1 false])
    (remaining_interest s) remaining_principal1 (S (current_month s)).

(** "Phase 2": [while remaining_principal > 0 and current_month <= 22]. *)
Fixpoint principal_phase_loop (fuel : nat) (member_monthly_deposit : Decimal)
         (s : ScheduleState) : ScheduleState :=
  match fuel with
  | O => s
  | S fuel' =>
      if Qltb 0 (remaining_principal s) && Nat.leb (current_month s) 22 then
        principal_phase_loop fuel' member_monthly_deposit
          (principal_phase_turn member_monthly_deposit s)
      else s
  end.

(** The state when the second loop is left.  The month counter starts at 1
    and each turn of either loop needs it at 22 or below, so 22 turns are all
    a loop can take. *)
Definition run_repayment_schedule (fuel : nat) (member : Member.t) (self : Loan.t)
  : ScheduleState :=
  let total_interest := total_interest self in
  let member_monthly_deposit := Member.monthly_savings member in
  principal_phase_loop fuel member_monthly_deposit
    (interest_phase_loop fuel member_monthly_deposit
       (mkScheduleState [] total_interest (principal self) 1)).

(** [Loan.get_repayment_schedule]; [member] is the row [self.member]. *)
Definition get_repayment_schedule (member : Member.t) (self : Loan.t)
  : list ScheduleRow.t :=
  schedule (run_repayment_schedule 22 member self).

(** What is still owed in a state of the schedule. *)
Definition owed (s : ScheduleState) : Decimal :=
  remaining_interest s + remaining_principal s.

(** What every row of a schedule satisfies: the total is the sum of the two
    payments and is not above the monthly deposit, and principal is paid only
    by a row that leaves no interest. *)
Definition row_ok (member_monthly_deposit : Decimal) (row : ScheduleRow.t) : Prop :=
  ScheduleRow.total_payment row
  == ScheduleRow.interest_payment row + ScheduleRow.principal_payment row
  /\ ScheduleRow.total_payment row <= member_monthly_deposit
  /\ (0 < ScheduleRow.principal_payment row -> ScheduleRow.interest_phase row = false).

(** ** Sums *)

(** The sum of a list of amounts, right to left. *)
Definition total (l : list Decimal) : Decimal := fold_right Qplus 0 l.

(** The value of a nullable column in a sum. *)
Definition or_zero (v : option Decimal) : Decimal :=
  match v with Some d => d | None => 0 end.

(** ** Further scenario data *)

(** The database of the scenario while the member's application for 120000
    is still pending. *)
Definition pending_application : DB :=
  mkDB [Scenario.member; Member.mk 2 50000 0 false false]
       [SavingsAccount.mk 1 200000 0 200000 false;
        SavingsAccount.mk 2 500000 0 500000 false]
       [Scenario.first_deposit]
       [Loan.mk 1 1 120000 None pending 0 0 0 0] [] [] [] [] [].

(** A member with two approved loans, of 100000 and of 50000, and 200000 of
    savings from one deposit. *)
Definition second_loan : Loan.t :=
  Loan.mk 2 1 50000 (Some 50000) approved 1 0 0 0.

Definition two_approved_loans : DB :=
  mkDB [Scenario.member; Member.mk 2 50000 0 false false]
       [SavingsAccount.mk 1 200000 0 200000 false;
        SavingsAccount.mk 2 500000 0 500000 false]
       [Scenario.first_deposit] [Scenario.approved_loan; second_loan] [] [] [] [] [].

(** The first loan is disbursed, which sets the flag on the member's account,
    and the deposit is undone within its 24 hours: the balance is zero, the
    flag stays. *)
Definition stale_flag : DB :=
  snd (undo_savings_transaction true false 1
         (snd (disburse_loan None true 1 two_approved_loans))).

(** The loan approved for 100000.15 and disbursed: its row holds interest
    10000.02 and total 110000.16, one cent less than principal and interest
    together. *)
Definition loan_of_odd_cents : Loan.t :=
  Loan.mk 1 1 120000 (Some (10000015 # 100)) approved 0 0 0 0.

Definition odd_cents_active : DB :=
  snd (disburse_loan None true 1
         (mkDB [Scenario.member; Member.mk 2 50000 0 false false]
               [SavingsAccount.mk 1 200000 0 200000 false;
                SavingsAccount.mk 2 500000 0 500000 false]
               [Scenario.first_deposit] [loan_of_odd_cents] [] [] [] [] [])).

(** ** The ledger after a disbursement *)

(** The balance of the ledger account with the code, zero when there is
    none. *)
Definition account_balance (db : DB) (code : string) : Decimal :=
  or_zero (option_map Account.balance (Ledger.get_account db code)).

(** The ledger of [db'] is the ledger of [db] with the disbursement of
    [amount] posted: one completed transfer, a debit of the receivable account
    1200 and a credit of the main account COOP001 for it, and the two
    balances moved accordingly. *)
Definition ledger_posted (db db' : DB) (amount : Decimal) : Prop :=
  Transaction_objects db'
  = Transaction_objects db
    ++ [Transaction.mk transfer "Loan disbursement" amount t_completed]
  /\ TransactionEntry_objects db'
     = TransactionEntry_objects db
       ++ [TransactionEntry.mk (List.length (Transaction_objects db)) "1200" debit amount;
           TransactionEntry.mk (List.length (Transaction_objects db)) "COOP001" credit
                               amount]
  /\ account_balance db' "1200" == account_balance db "1200" + amount
  /\ account_balance db' "COOP001" == account_balance db "COOP001" - amount
  /\ forall code, code <> "1200"%string -> code <> "COOP001"%string ->
                  Ledger.get_account db' code = Ledger.get_account db code.

(** ** transactions/signals.py and the setup_accounts command *)

(** [for x in xs: body] *)
Fixpoint for_each {A} (xs : list A) (body : A -> M unit) : M unit :=
  match xs with
  | [] => ret tt
  | x :: xs' => body x ;;; for_each xs' body
  end.

Definition is_asset_or_expense (category_type : string) : bool :=
  existsb (String.eqb category_type) ["asset"%string; "expense"%string].

(** One turn of the loop of [update_account_balances]: [entry.account] is
    read from the database, moved by the entry's amount and saved.  The
    foreign keys see to it that the account and its category are there; a
    lookup that failed would end the turn with its exception, which stands
    here as [IntegrityError]. *)
Definition update_account_balance (entry : TransactionEntry.t) : M unit :=
  db <- get_db ;;
  match Ledger.get_account db (TransactionEntry.account entry) with
  | None => raise IntegrityError
  | Some account =>
      match Ledger.get_category db (Account.category account) with
      | None => raise IntegrityError
      | Some category =>
          let balance :=
            match TransactionEntry.entry_type entry with
            | debit =>
                if is_asset_or_expense (AccountCategory.category_type category)
                then Account.balance account + TransactionEntry.amount entry
                else Account.balance account - TransactionEntry.amount entry
            | credit =>
                if is_asset_or_expense (AccountCategory.category_type category)
                then Account.balance account - TransactionEntry.amount entry
                else Account.balance account + TransactionEntry.amount entry
            end in
          write (Ledger.save_account
                   (Account.mk (Account.code account) (Account.name account)
                               (Account.category account) balance))
      end
  end.

(** [update_account_balances(transaction)]; the entries come newest first
    ([Meta.ordering = ['-created_at']]). *)
Definition update_account_balances (transaction : nat) : M unit :=
  db <- get_db ;;
  for_each (rev (filter (fun e => Nat.eqb (TransactionEntry.transaction e) transaction)
                        (TransactionEntry_objects db)))
           update_account_balance.

(** [create_transaction_entries(sender, instance, created, **kwargs)], the
    [post_save] receiver of [Transaction]; [instance_pk] is the position of
    the instance's row.  The block is taken as the outermost transaction of a
    connection in autocommit mode.  The category of each [get_or_create] of an
    account is an argument and is looked up or created first.  Database
    failures of the writes are not modelled. *)
Definition create_transaction_entries (instance_pk : nat) (instance : Transaction.t)
           (created : bool) : M unit :=
  if created && match Transaction.status instance with t_completed => true | _ => false end
  then
    atomic
      (cash_category <- get_or_create_category "1000" "Cash and Bank" "asset" ;;
       cooperative_account <- get_or_create_account
                                "COOP001" "Cooperative Main Account" cash_category ;;
       match Transaction.transaction_type instance with
       | income =>
           income_category <- get_or_create_category "4000" "Income" "income" ;;
           income_account <- get_or_create_account
                               "INC001" "General Income" income_category ;;
           write (Ledger.add_entry
                    (TransactionEntry.mk instance_pk (Account.code cooperative_account)
                                         debit (Transaction.amount instance))) ;;;
           write (Ledger.add_entry
                    (TransactionEntry.mk instance_pk (Account.code income_account)
                                         credit (Transaction.amount instance)))
       | expense =>
           expense_category <- get_or_create_category "5000" "Expenses" "expense" ;;
           expense_account <- get_or_create_account
                                "EXP001" "General Expenses" expense_category ;;
           write (Ledger.add_entry
                    (TransactionEntry.mk instance_pk (Account.code expense_account)
                                         debit (Transaction.amount instance))) ;;;
           write (Ledger.add_entry
                    (TransactionEntry.mk instance_pk (Account.code cooperative_account)
                                         credit (Transaction.amount instance)))
       | transfer => ret tt
       end ;;;
       update_account_balances instance_pk)
  else ret tt.

(** [Command.handle] of setup_accounts: the five categories, then the
    sixteen accounts, each under the category of its type.  The command runs
    in autocommit mode, outside any transaction block. *)
Definition setup_accounts_handle : M unit :=
  asset <- get_or_create_category "1" "Assets" "asset" ;;
  liability <- get_or_create_category "2" "Liabilities" "liability" ;;
  equity <- get_or_create_category "3" "Equity" "equity" ;;
  income_category <- get_or_create_category "4" "Income" "income" ;;
  expense_category <- get_or_create_category "5" "Expenses" "expense" ;;
  for_each
    [("1000", "Cash", asset); ("1100", "Bank Account", asset);
     ("1200", "Loans Receivable", asset); ("1300", "Fixed Assets", asset);
     ("2000", "Member Savings", liability); ("2100", "Accounts Payable", liability);
     ("2200", "Accrued Expenses", liability);
     ("3000", "Share Capital", equity); ("3100", "Retained Earnings", equity);
     ("3200", "Reserves", equity);
     ("4000", "Interest Income", income_category);
     ("4100", "Service Charges", income_category);
     ("4200", "Other Income", income_category);
     ("5000", "Administrative Expenses", expense_category);
     ("5100", "Interest Expense", expense_category);
     ("5200", "Operating Expenses", expense_category)]%string
    (fun '(code, name, category) => get_or_create_account code name category ;;; ret tt).

(** [Transaction.objects.create(...)] once the receiver is connected to
    [post_save], as its decorator connects it when signals.py is imported:
    the row is inserted, and the receiver runs on it with the position of the
    row as its key. *)
Definition Transaction_objects_create (t : Transaction.t) : M unit :=
  db <- get_db ;;
  write (Ledger.add_transaction t) ;;;
  create_transaction_entries (List.length (Transaction_objects db)) t true.

Definition is_completed_income (t : Transaction.t) : bool :=
  match Transaction.transaction_type t, Transaction.status t with
  | income, t_completed => true
  | _, _ => false
  end.

(** What the completed income and the completed expense transactions of a
    list add up to. *)
Definition completed_income (ts : list Transaction.t) : Decimal :=
  total (map Transaction.amount (filter is_completed_income ts)).

Definition completed_expenses (ts : list Transaction.t) : Decimal :=
  total (map Transaction.amount (filter is_completed_expense ts)).

(** The three categories and the three kinds of account that the receiver
    creates. *)
Definition receiver_category (c : AccountCategory.t) : Prop :=
  c = AccountCategory.mk "1000" "Cash and Bank" "asset"
  \/ c = AccountCategory.mk "4000" "Income" "income"
  \/ c = AccountCategory.mk "5000" "Expenses" "expense".

Definition receiver_account (a : Account.t) : Prop :=
  (Account.code a = "COOP001"%string /\ Account.category a = "1000"%string)
  \/ (Account.code a = "INC001"%string /\ Account.category a = "4000"%string)
  \/ (Account.code a = "EXP001"%string /\ Account.category a = "5000"%string).

(** Categories of the receiver's making. *)
Definition categories_ok (db : DB) : Prop :=
  forall c, In c (AccountCategory_objects db) -> receiver_category c.

(** Accounts of the receiver's making, each with its category on file. *)
Definition accounts_ok (db : DB) : Prop :=
  forall a, In a (Account_objects db) ->
            receiver_account a /\ Ledger.get_category db (Account.category a) <> None.

(** A ledger that only the receiver has written to: its categories and
    accounts are of the receiver's making, every account has its category,
    and every entry belongs to a transaction on file. *)
Definition receiver_ledger (db : DB) : Prop :=
  categories_ok db
  /\ accounts_ok db
  /\ (forall e, In e (TransactionEntry_objects db) ->
                (TransactionEntry.transaction e < List.length (Transaction_objects db))%nat).

(** The balance an entry leaves on an account of the given category type. *)
Definition moved_balance (entry_type : EntryType) (category_type : string)
           (balance amount : Decimal) : Decimal :=
  match entry_type with
  | debit => if is_asset_or_expense category_type then balance + amount
             else balance - amount
  | credit => if is_asset_or_expense category_type then balance - amount
              else balance + amount
  end.

(** * Properties *)

(** ** Decimal comparisons *)

Lemma Qltb_lt (a b : Decimal) : Qltb a b = true <-> a < b.
Proof.
  unfold Qltb. rewrite negb_true_iff.
  split; intro H.
  - apply Qnot_le_lt. intro L. apply Qle_bool_iff in L. congruence.
  - destruct (Qle_bool b a) eqn:E; [|reflexivity].
    apply Qle_bool_iff in E. lra.
Qed.

Lemma Qltb_ge (a b : Decimal) : Qltb a b = false <-> b <= a.
Proof.
  unfold Qltb. rewrite negb_false_iff. apply Qle_bool_iff.
Qed.

Lemma Qleb_le (a b : Decimal) : Qleb a b = true <-> a <= b.
Proof. apply Qle_bool_iff. Qed.

Lemma Qleb_gt (a b : Decimal) : Qleb a b = false <-> b < a.
Proof.
  unfold Qleb. split; intro H.
  - apply Qnot_le_lt. intro L. apply Qle_bool_iff in L. congruence.
  - destruct (Qle_bool a b) eqn:E; [|reflexivity].
    apply Qle_bool_iff in E. lra.
Qed.

(** Case analysis on a comparison met in a goal or a hypothesis. *)
Ltac cmp_cases :=
  repeat match goal with
    | |- context [Qltb ?a ?b] =>
        let E := fresh "E" in
        destruct (Qltb a b) eqn:E;
        [apply Qltb_lt in E | apply Qltb_ge in E]
    | |- context [Qleb ?a ?b] =>
        let E := fresh "E" in
        destruct (Qleb a b) eqn:E;
        [apply Qleb_le in E | apply Qleb_gt in E]
    end.

Lemma py_min_spec (a b : Decimal) :
  (b < a /\ py_min a b = b) \/ (a <= b /\ py_min a b = a).
Proof. unfold py_min. cmp_cases; auto. Qed.

Lemma py_min_le_l (a b : Decimal) : py_min a b <= a.
Proof. destruct (py_min_spec a b) as [[H ->]|[H ->]]; lra. Qed.

Lemma py_min_le_r (a b : Decimal) : py_min a b <= b.
Proof. destruct (py_min_spec a b) as [[H ->]|[H ->]]; lra. Qed.

(** ** Rounding to two places *)

(** The stored value is within half a cent of the value written. *)
Lemma quantize_near (d : Decimal) :
  d - (1 # 200) <= quantize d /\ quantize d <= d + (1 # 200).
Proof.
  unfold quantize. cbv zeta.
  destruct d as [n p]. cbn [Qnum Qden].
  pose proof (Z.div_mod (n * 100) (Zpos p) ltac:(lia)) as Hdm.
  pose proof (Z.mod_pos_bound (n * 100) (Zpos p) ltac:(lia)) as Hr.
  set (q := (n * 100 / Zpos p)%Z) in *.
  set (r := ((n * 100) mod Zpos p)%Z) in *.
  rewrite Qred_correct.
  assert (Hup : forall b : bool,
             (b = true -> Zpos p <= 2 * r)%Z -> (b = false -> 2 * r <= Zpos p)%Z ->
             (n # p) - (1 # 200) <= (if b then q + 1 else q)%Z # 100
             /\ (if b then q + 1 else q)%Z # 100 <= (n # p) + (1 # 200)).
  { intros b Ht Hf. unfold Qle, Qminus, Qplus, Qopp. cbn [Qnum Qden].
    destruct b.
    - specialize (Ht eq_refl). split; nia.
    - specialize (Hf eq_refl). split; nia. }
  destruct (Z.compare_spec (2 * r) (Zpos p)) as [E|E|E].
  - apply (Hup (Z.odd q)); intros; lia.
  - apply (Hup false); intros; try discriminate; lia.
  - apply (Hup true); intros; try discriminate; lia.
Qed.

(** An amount of two places is stored as it is. *)
Lemma quantize_exact (d : Decimal) (z : Z) : d == z # 100 -> quantize d == d.
Proof.
  intro H. unfold quantize. cbv zeta. rewrite Qred_correct.
  destruct d as [n p]. cbn [Qnum Qden] in *.
  unfold Qeq in H. cbn [Qnum Qden] in H.
  assert (Hn : (n * 100 = z * Zpos p)%Z) by lia.
  rewrite Hn. rewrite Z.div_mul by lia. rewrite Z.mod_mul by lia.
  cbn [Z.mul Z.compare]. unfold Qeq. cbn [Qnum Qden]. lia.
Qed.

(** What is stored is an amount of two places. *)
Lemma quantize_two_places (d : Decimal) : two_places (quantize d).
Proof.
  assert (H : exists z, quantize d == z # 100).
  { unfold quantize. cbv zeta. eexists. apply Qred_correct. }
  destruct H as (z & Hz). unfold two_places.
  exact (quantize_exact (quantize d) z Hz).
Qed.

Lemma quantize_nonneg (d : Decimal) : 0 <= d -> 0 <= quantize d.
Proof.
  intro H. unfold quantize. cbv zeta. rewrite Qred_correct.
  destruct d as [n p]. cbn [Qnum Qden].
  unfold Qle in H. cbn [Qnum Qden] in H.
  assert (Hq : (0 <= n * 100 / Zpos p)%Z) by (apply Z.div_pos; lia).
  unfold Qle. cbn [Qnum Qden].
  destruct (match (2 * ((n * 100) mod Z.pos p) ?= Z.pos p)%Z with
            | Eq => Z.odd (n * 100 / Z.pos p) | Lt => false | Gt => true end); lia.
Qed.

(** ** Eligibility (members/models.py) *)

Section Eligibility.

Variable db : DB.
Variable self : Member.t.

Lemma maximum_loan_amount_twice_deposits :
  maximum_loan_amount db self == 2 * total_deposits db self.
Proof.
  unfold maximum_loan_amount, total_deposits.
  destruct (ORM.get_savings_account db (Member.pk self)); lra.
Qed.

Lemma can_repay_within_22_months_iff (amount : Decimal) :
  0 < amount ->
  (can_repay_within_22_months self amount = true
   <-> amount * (110 # 100) / 22 <= Member.monthly_savings self).
Proof.
  intro Hpos. unfold can_repay_within_22_months.
  assert (Hq : 0 < amount * (110 # 100) / 22).
  { apply Qlt_shift_div_l; lra. }
  destruct (Qleb (Member.monthly_savings self) 0) eqn:E.
  - apply Qleb_le in E. split; [discriminate | intro; lra].
  - apply Qleb_le.
Qed.

(** The percentage test of the third rule says that the repaid part is
    under 85% of what was borrowed. *)
Lemma paid_percentage_below_85 (out : Decimal) :
  0 < out ->
  (Qltb (if Qltb 0 (total_borrowed db self)
         then (((total_borrowed db self) - out) / (total_borrowed db self)) * 100 else 0) 85 = true
   <-> (total_borrowed db self) - out < (85 # 100) * (total_borrowed db self)).
Proof.
  intro Hout.
  destruct (Qltb 0 (total_borrowed db self)) eqn:E.
  - apply Qltb_lt in E. rewrite Qltb_lt.
    assert (Hd : ((total_borrowed db self) - out) / (total_borrowed db self) * (total_borrowed db self)
                 == (total_borrowed db self) - out).
    { field. lra. }
    split; intro H.
    + nra.
    + assert (((total_borrowed db self) - out) / (total_borrowed db self) < 85 # 100).
      { apply Qlt_shift_div_r; lra. }
      lra.
  - apply Qltb_ge in E. rewrite Qltb_lt. split; intro; lra.
Qed.

End Eligibility.

(** C7. For a requested amount above zero, [can_apply_for_loan] applies the
    three rules in order and the first one that fails decides: it rejects when
    outstanding + requested exceeds twice the total deposits; otherwise it
    rejects unless monthly_savings >= requested * 1.10 / 22; otherwise, when
    something is outstanding on a prior loan, it rejects unless at least 85% of
    the total borrowed has been repaid; otherwise it returns
    (True, "Loan application approved"). *)
Theorem can_apply_for_loan_rules (db : DB) (self : Member.t) (requested_amount : Decimal) :
  0 < requested_amount ->
  let outstanding := get_outstanding_loan_amount db self in
  let borrowed := total_borrowed db self in
  let rule1 := outstanding + requested_amount <= 2 * total_deposits db self in
  let rule2 := requested_amount * (110 # 100) / 22 <= Member.monthly_savings self in
  let rule3 := 0 < outstanding -> (85 # 100) * borrowed <= borrowed - outstanding in
  (~ rule1 ->
   can_apply_for_loan db self requested_amount
   = (false, exceeds_maximum (maximum_loan_amount db self)))
  /\ (rule1 -> ~ rule2 ->
      can_apply_for_loan db self requested_amount
      = (false, cannot_repay_in_22_months (Member.monthly_savings self)))
  /\ (rule1 -> rule2 -> ~ rule3 ->
      exists pct, can_apply_for_loan db self requested_amount
                  = (false, must_pay_85_percent pct))
  /\ (rule1 -> rule2 -> rule3 ->
      can_apply_for_loan db self requested_amount
      = (true, literal "Loan application approved")).
Proof.
  intros Hpos. cbv zeta.
  pose proof (maximum_loan_amount_twice_deposits db self) as Hmax.
  pose proof (can_repay_within_22_months_iff self requested_amount Hpos) as Hrep.
  unfold can_apply_for_loan. cbv zeta.
  fold (total_borrowed db self).
  set (outstanding := get_outstanding_loan_amount db self).
  set (borrowed := total_borrowed db self).
  destruct (Qltb (maximum_loan_amount db self) (outstanding + requested_amount)) eqn:E1.
  { apply Qltb_lt in E1.
    split; [reflexivity|].
    split; [|split]; intros R1; exfalso; lra. }
  apply Qltb_ge in E1.
  split; [intros NR1; exfalso; apply NR1; lra|].
  destruct (can_repay_within_22_months self requested_amount) eqn:E2; cbn [negb].
  2:{ split; [reflexivity|].
      split; intros _ R2; apply Hrep in R2; congruence. }
  assert (R2 : requested_amount * (110 # 100) / 22 <= Member.monthly_savings self)
    by (apply Hrep; reflexivity).
  split; [intros _ NR2; exfalso; exact (NR2 R2)|].
  destruct (Qltb 0 outstanding) eqn:E3.
  - apply Qltb_lt in E3.
    pose proof (paid_percentage_below_85 db self outstanding E3) as H85.
    fold borrowed in H85.
    match goal with
    | |- context [if ?c then (false, must_pay_85_percent _) else _] =>
        destruct c eqn:E4
    end.
    + assert (borrowed - outstanding < (85 # 100) * borrowed) by (apply H85; exact E4).
      split.
      * intros _ _ _. eexists; reflexivity.
      * intros _ _ R3. specialize (R3 E3). exfalso; lra.
    + assert (N : ~ borrowed - outstanding < (85 # 100) * borrowed).
      { intro C. apply H85 in C. generalize (eq_trans (eq_sym C) E4). discriminate. }
      split.
      * intros _ _ NR3. exfalso. apply NR3. intros _. lra.
      * reflexivity.
  - apply Qltb_ge in E3.
    split.
    + intros _ _ NR3. exfalso. apply NR3. intro. lra.
    + reflexivity.
Qed.

(** The scenario of the specification: 200000 deposited, 150000 a month,
    300000 requested. *)
Lemma can_apply_for_loan_rules_witness :
  0 < 300000
  /\ can_apply_for_loan Scenario.db_deposited Scenario.member 300000
     = (true, literal "Loan application approved").
Proof.
  assert (Hpos : 0 < 300000) by reflexivity.
  split; [exact Hpos|].
  apply (proj2 (proj2 (proj2
           (can_apply_for_loan_rules Scenario.db_deposited Scenario.member 300000 Hpos)))).
  - vm_compute; discriminate.
  - vm_compute; discriminate.
  - intro H; vm_compute in H; discriminate.
Defined.

(** ** Rows after a save *)

Lemma py_min_Qmin (a b : Decimal) : py_min a b == Qmin a b.
Proof.
  destruct (py_min_spec a b) as [[H ->]|[H ->]];
    destruct (Q.min_spec a b) as [[H' ->]|[H' ->]]; lra.
Qed.

Lemma find_put_loan (l : Loan.t) (rows : list Loan.t) :
  find (fun x => Nat.eqb (Loan.pk x) (Loan.pk l)) (ORM.put_loan l rows) = Some l.
Proof.
  induction rows as [|r rows IH]; cbn.
  - now rewrite Nat.eqb_refl.
  - destruct (Nat.eqb (Loan.pk r) (Loan.pk l)) eqn:E; cbn.
    + now rewrite Nat.eqb_refl.
    + now rewrite E.
Qed.

Lemma get_loan_pk (db : DB) (pk : nat) (l : Loan.t) :
  ORM.get_loan db pk = Some l -> Loan.pk l = pk.
Proof.
  unfold ORM.get_loan. intro H. apply find_some in H.
  now apply Nat.eqb_eq.
Qed.

Lemma find_put_savings_account (a : SavingsAccount.t) (rows : list SavingsAccount.t) :
  find (fun x => Nat.eqb (SavingsAccount.member x) (SavingsAccount.member a))
       (ORM.put_savings_account a rows) = Some a.
Proof.
  induction rows as [|r rows IH]; cbn.
  - now rewrite Nat.eqb_refl.
  - destruct (Nat.eqb (SavingsAccount.member r) (SavingsAccount.member a)) eqn:E; cbn.
    + now rewrite Nat.eqb_refl.
    + now rewrite E.
Qed.

Lemma find_put_savings_account_at (a : SavingsAccount.t) (m : nat)
      (rows : list SavingsAccount.t) :
  SavingsAccount.member a = m ->
  find (fun x => Nat.eqb (SavingsAccount.member x) m) (ORM.put_savings_account a rows)
  = Some a.
Proof. intros <-. apply find_put_savings_account. Qed.

Lemma find_put_savings_account_other (a : SavingsAccount.t) (m : nat)
      (rows : list SavingsAccount.t) :
  m <> SavingsAccount.member a ->
  find (fun x => Nat.eqb (SavingsAccount.member x) m) (ORM.put_savings_account a rows)
  = find (fun x => Nat.eqb (SavingsAccount.member x) m) rows.
Proof.
  intro Hm.
  assert (Ha : Nat.eqb (SavingsAccount.member a) m = false)
    by (apply Nat.eqb_neq; congruence).
  induction rows as [|r rows IH]; cbn.
  - now rewrite Ha.
  - destruct (Nat.eqb (SavingsAccount.member r) (SavingsAccount.member a)) eqn:E; cbn.
    + rewrite Ha. apply Nat.eqb_eq in E.
      destruct (Nat.eqb (SavingsAccount.member r) m) eqn:E'; [|reflexivity].
      apply Nat.eqb_eq in E'. congruence.
    + now rewrite IH.
Qed.

Lemma get_savings_account_member (db : DB) (m : nat) (a : SavingsAccount.t) :
  ORM.get_savings_account db m = Some a -> SavingsAccount.member a = m.
Proof.
  unfold ORM.get_savings_account. intro H. apply find_some in H.
  now apply Nat.eqb_eq.
Qed.

(** ** What the two repayment helpers store *)

Lemma adjust_deposit_frame (db : DB) (d : option SavingsTransaction.t) (s : Decimal) :
  SavingsAccount_objects (fst (adjust_deposit db d s)) = SavingsAccount_objects db
  /\ Loan_objects (fst (adjust_deposit db d s)) = Loan_objects db
  /\ LoanRepayment_objects (fst (adjust_deposit db d s)) = LoanRepayment_objects db.
Proof.
  unfold adjust_deposit. destruct d as [d|]; [|repeat split].
  destruct (existsb _ _); repeat split.
Qed.

(** The deposit helper on a flagged account, for an amount above zero and a
    loan with something owed: the repayment it stores, the loan it saves and
    the account it leaves. *)
Lemma process_loan_repayment_from_deposit_stores (db : DB) (member : nat)
      (a : SavingsAccount.t) (l : Loan.t) (amount : Decimal)
      (deposit : option SavingsTransaction.t) :
  ORM.get_savings_account db member = Some a ->
  SavingsAccount.has_active_loan a = true ->
  0 < amount ->
  0 < Loan.interest_balance l + Loan.principal_balance l ->
  let res := process_loan_repayment_from_deposit db member l amount deposit in
  let loan_repayment_amount :=
    py_min amount (Loan.interest_balance l + Loan.principal_balance l) in
  let interest_payment := py_min loan_repayment_amount (Loan.interest_balance l) in
  let principal_payment :=
    py_min (loan_repayment_amount - interest_payment) (Loan.principal_balance l) in
  let total1 := Loan.total_balance l - loan_repayment_amount in
  let r := LoanRepayment.mk (Loan.pk l) loan_repayment_amount principal_payment
             interest_payment (Loan.total_balance l) total1 row_completed in
  r_repayment res = Some r
  /\ r_loan res
     = with_balances l (if Qleb total1 0 then completed else Loan.status l)
         (Loan.principal_balance l - principal_payment)
         (Loan.interest_balance l - interest_payment) total1
  /\ LoanRepayment_objects (r_db res) = LoanRepayment_objects db ++ [r]
  /\ ORM.get_loan (r_db res) (Loan.pk l) = Some (r_loan res)
  /\ exists a',
      ORM.get_savings_account (r_db res) member = Some a'
      /\ SavingsAccount.balance a' = SavingsAccount.balance a - loan_repayment_amount
      /\ (if Qleb total1 0
          then SavingsAccount.collateral_amount a' = 0
               /\ SavingsAccount.has_active_loan a' = false
          else SavingsAccount.collateral_amount a' = SavingsAccount.collateral_amount a
               /\ SavingsAccount.has_active_loan a' = true).
Proof.
  intros Hget Hflag Hpos Hout. cbv zeta.
  pose proof (get_savings_account_member _ _ _ Hget) as Hm.
  assert (Hlp : 0 < py_min amount (Loan.interest_balance l + Loan.principal_balance l)).
  { destruct (py_min_spec amount (Loan.interest_balance l + Loan.principal_balance l))
      as [[_ ->]|[_ ->]]; assumption. }
  unfold process_loan_repayment_from_deposit.
  rewrite Hget, Hflag. cbn [negb].
  assert (E0 : Qleb amount 0 = false) by (apply Qleb_gt; exact Hpos).
  rewrite E0. cbv zeta.
  assert (E1 : Qltb 0 (py_min amount (Loan.interest_balance l + Loan.principal_balance l))
               = true) by (apply Qltb_lt; exact Hlp).
  rewrite E1.
  match goal with
  | |- context [adjust_deposit ?d0 deposit ?s] =>
      pose proof (adjust_deposit_frame d0 deposit s) as (Hacc & Hloans & Hreps);
      destruct (adjust_deposit d0 deposit s) as [db3 deposit1]
  end.
  cbn [fst] in Hacc, Hloans, Hreps.
  cbn [ORM.save_savings_account ORM.save_savings_transaction SavingsAccount_objects
       Loan_objects LoanRepayment_objects] in Hacc, Hloans, Hreps.
  match goal with
  | |- context [if Qleb ?t 0 then _ else _] => destruct (Qleb t 0)
  end;
    cbn [r_repayment r_loan r_db clear_collateral fst snd];
    (split; [reflexivity|]); (split; [reflexivity|]);
    (split; [cbn [ORM.save_savings_account ORM.save_loan ORM.create_loan_repayment
                  LoanRepayment_objects]; rewrite Hreps; reflexivity|]);
    (split; [unfold ORM.get_loan;
             cbn [ORM.save_savings_account ORM.save_loan ORM.create_loan_repayment
                  Loan_objects];
             apply (find_put_loan (with_balances l _ _ _ _))|]);
    eexists;
    (split; [unfold ORM.get_savings_account;
             cbn [ORM.save_savings_account ORM.save_loan ORM.create_loan_repayment
                  SavingsAccount_objects update_available_balance
                  SavingsAccount.member];
             rewrite ?Hacc;
             cbn [ORM.save_savings_account ORM.save_loan ORM.create_loan_repayment
                  SavingsAccount_objects update_available_balance
                  SavingsAccount.member];
             rewrite <- Hm;
             apply (find_put_savings_account
                      (SavingsAccount.mk (SavingsAccount.member a) _ _ _ _))|]);
    cbn [update_available_balance SavingsAccount.balance SavingsAccount.collateral_amount
         SavingsAccount.has_active_loan SavingsAccount.member];
    (split; [reflexivity|]); split; (reflexivity || exact Hflag).
Qed.

(** The helper of line 149 on a flagged account with new savings, for an
    amount above zero. *)
Lemma process_loan_repayment_from_savings_stores (db : DB) (member : nat)
      (a : SavingsAccount.t) (l : Loan.t) (amount : Decimal) :
  ORM.get_savings_account db member = Some a ->
  SavingsAccount.has_active_loan a = true ->
  0 < get_loan_repayment_amount a ->
  0 < amount ->
  let res := process_loan_repayment_from_savings db member l amount in
  let repayment_amount := py_min amount (get_loan_repayment_amount a) in
  let interest_payment := py_min repayment_amount (Loan.interest_balance l) in
  let principal_payment :=
    py_min (repayment_amount - interest_payment) (Loan.principal_balance l) in
  let total1 := Loan.total_balance l - repayment_amount in
  let r := LoanRepayment.mk (Loan.pk l) repayment_amount principal_payment
             interest_payment (Loan.total_balance l) total1 row_completed in
  r_repayment res = Some r
  /\ r_loan res
     = with_balances l (if Qleb total1 0 then completed else Loan.status l)
         (Loan.principal_balance l - principal_payment)
         (Loan.interest_balance l - interest_payment) total1
  /\ LoanRepayment_objects (r_db res) = LoanRepayment_objects db ++ [r]
  /\ ORM.get_loan (r_db res) (Loan.pk l) = Some (r_loan res)
  /\ exists a',
      ORM.get_savings_account (r_db res) member = Some a'
      /\ SavingsAccount.balance a' = SavingsAccount.balance a - repayment_amount
      /\ (if Qleb total1 0
          then SavingsAccount.collateral_amount a' = 0
               /\ SavingsAccount.has_active_loan a' = false
          else SavingsAccount.collateral_amount a' = SavingsAccount.collateral_amount a
               /\ SavingsAccount.has_active_loan a' = true).
Proof.
  intros Hget Hflag Hnew Hpos. cbv zeta.
  pose proof (get_savings_account_member _ _ _ Hget) as Hm.
  assert (Hrp : 0 < py_min amount (get_loan_repayment_amount a)).
  { destruct (py_min_spec amount (get_loan_repayment_amount a))
      as [[_ ->]|[_ ->]]; assumption. }
  unfold process_loan_repayment_from_savings.
  rewrite Hget, Hflag. cbn [negb].
  assert (E0 : Qleb (get_loan_repayment_amount a) 0 = false)
    by (apply Qleb_gt; exact Hnew).
  rewrite E0. cbv zeta.
  assert (E1 : Qleb (py_min amount (get_loan_repayment_amount a)) 0 = false)
    by (apply Qleb_gt; exact Hrp).
  rewrite E1.
  match goal with
  | |- context [if Qleb ?t 0 then _ else _] => destruct (Qleb t 0)
  end;
    cbn [r_repayment r_loan r_db clear_collateral fst snd];
    (split; [reflexivity|]); (split; [reflexivity|]);
    (split; [reflexivity|]);
    (split; [unfold ORM.get_loan;
             cbn [ORM.save_savings_account ORM.save_loan ORM.create_loan_repayment
                  Loan_objects];
             apply (find_put_loan (with_balances l _ _ _ _))|]);
    eexists;
    (split; [unfold ORM.get_savings_account;
             cbn [ORM.save_savings_account ORM.save_loan ORM.create_loan_repayment
                  ORM.save_savings_transaction
                  SavingsAccount_objects update_available_balance
                  SavingsAccount.member];
             rewrite <- Hm;
             apply (find_put_savings_account
                      (SavingsAccount.mk (SavingsAccount.member a) _ _ _ _))|]);
    cbn [update_available_balance SavingsAccount.balance SavingsAccount.collateral_amount
         SavingsAccount.has_active_loan SavingsAccount.member];
    (split; [reflexivity|]); split; (reflexivity || exact Hflag).
Qed.

(** The manual view stores nothing: the insert of its repayment fails. *)
Lemma loan_repayments_stores_nothing (db : DB) (pk : nat) (amount : Decimal) :
  snd (fst (loan_repayments db pk amount)) = db.
Proof.
  unfold loan_repayments.
  destruct (LoanRepaymentForm_is_valid db pk amount); reflexivity.
Qed.

Lemma in_put_loan (x l : Loan.t) (rows : list Loan.t) :
  In x (ORM.put_loan l rows) -> x = l \/ In x rows.
Proof.
  induction rows as [|r rows IH]; cbn.
  - intros [H|[]]. left. congruence.
  - destruct (Nat.eqb (Loan.pk r) (Loan.pk l)).
    + intros [H|H]; [left; congruence|right; right; exact H].
    + intros [H|H]; [right; left; exact H|].
      destruct (IH H) as [H'|H']; [left; exact H'|right; right; exact H'].
Qed.

Lemma first_by_application_date_In (rows : list Loan.t) (l : Loan.t) :
  ORM.first_by_application_date rows = Some l -> In l rows.
Proof.
  revert l. induction rows as [|r rows IH]; intros l H; [discriminate|].
  cbn [ORM.first_by_application_date] in H.
  destruct (ORM.first_by_application_date rows) as [l'|].
  - destruct (Nat.ltb (Loan.application_date r) (Loan.application_date l'));
      injection H as <-.
    + right. apply IH. reflexivity.
    + left. reflexivity.
  - injection H as <-. left. reflexivity.
Qed.

(** The split of the deposit helper against the amount: the amount is capped
    at what is owed, so the two parts add up to it. *)
Lemma deposit_split_sums (amount i p : Decimal) :
  0 <= p ->
  let loan_repayment_amount := py_min amount (i + p) in
  let interest_payment := py_min loan_repayment_amount i in
  let principal_payment := py_min (loan_repayment_amount - interest_payment) p in
  principal_payment + interest_payment == loan_repayment_amount.
Proof.
  intro Hp. cbv zeta.
  destruct (py_min_spec amount (i + p)) as [[H1 ->]|[H1 ->]];
    match goal with
    | |- context [py_min ?x i] => destruct (py_min_spec x i) as [[H2 ->]|[H2 ->]]
    end;
    match goal with
    | |- context [py_min ?x p] => destruct (py_min_spec x p) as [[H3 ->]|[H3 ->]]
    end; lra.
Qed.

(** What the deposit helper does to the loan tables, whatever it is called
    with. *)
Lemma process_loan_repayment_from_deposit_tables (db : DB) (member : nat) (l : Loan.t)
      (amount : Decimal) (deposit : option SavingsTransaction.t) :
  let res := process_loan_repayment_from_deposit db member l amount deposit in
  (r_repayment res = None
   /\ Loan_objects (r_db res) = Loan_objects db
   /\ LoanRepayment_objects (r_db res) = LoanRepayment_objects db)
  \/ (exists r,
         r_repayment res = Some r
         /\ LoanRepayment_objects (r_db res) = LoanRepayment_objects db ++ [r]
         /\ Loan_objects (r_db res) = ORM.put_loan (r_loan res) (Loan_objects db)
         /\ Loan.principal_balance l - Loan.principal_balance (r_loan res)
            <= Loan.principal_balance l
         /\ (0 <= Loan.principal_balance l ->
             0 <= Loan.principal_balance (r_loan res) /\ parts_sum r)).
Proof.
  cbv zeta. unfold process_loan_repayment_from_deposit.
  destruct (ORM.get_savings_account db member) as [a|]; [|left; repeat split].
  destruct (negb (SavingsAccount.has_active_loan a)); [left; repeat split|].
  destruct (Qleb amount 0); [left; repeat split|].
  cbv zeta.
  match goal with
  | |- context [if Qltb 0 ?x then _ else _] => destruct (Qltb 0 x) eqn:E1
  end; [|left; repeat split].
  apply Qltb_lt in E1.
  match goal with
  | |- context [adjust_deposit ?d0 deposit ?s] =>
      pose proof (adjust_deposit_frame d0 deposit s) as (_ & Hloans & Hreps);
      destruct (adjust_deposit d0 deposit s) as [db3 deposit1]
  end.
  cbn [fst] in Hloans, Hreps.
  cbn [ORM.save_savings_account ORM.save_savings_transaction
       Loan_objects LoanRepayment_objects] in Hloans, Hreps.
  pose proof (py_min_le_r
                (py_min amount (Loan.interest_balance l + Loan.principal_balance l)
                 - py_min (py_min amount (Loan.interest_balance l
                                          + Loan.principal_balance l))
                          (Loan.interest_balance l))
                (Loan.principal_balance l)) as Hle.
  right. eexists.
  match goal with
  | |- context [if Qleb ?t 0 then _ else _] => destruct (Qleb t 0)
  end;
    cbn [r_repayment r_loan r_db clear_collateral fst snd];
    (split; [reflexivity|]);
    cbn [ORM.save_savings_account ORM.save_loan ORM.create_loan_repayment
         LoanRepayment_objects Loan_objects];
    rewrite Hloans, Hreps;
    (split; [reflexivity|]); (split; [reflexivity|]);
    cbn [with_balances Loan.principal_balance];
    (split; [lra|]);
    intro Hp; (split; [lra|]);
    unfold parts_sum;
    cbn [LoanRepayment.principal_amount LoanRepayment.interest_amount
         LoanRepayment.amount];
    apply (deposit_split_sums amount (Loan.interest_balance l)
                              (Loan.principal_balance l) Hp).
Qed.

(** What a deposit through the form does to the loan tables. *)
Lemma SavingsDepositForm_save_tables (db : DB) (m : nat) (ty : SavingsType)
      (A : Decimal) :
  let db' := fst (SavingsDepositForm_save db m ty A) in
  (Loan_objects db' = Loan_objects db
   /\ LoanRepayment_objects db' = LoanRepayment_objects db)
  \/ (exists l l' r,
         In l (Loan_objects db)
         /\ LoanRepayment_objects db' = LoanRepayment_objects db ++ [r]
         /\ Loan_objects db' = ORM.put_loan l' (Loan_objects db)
         /\ (0 <= Loan.principal_balance l ->
             0 <= Loan.principal_balance l' /\ parts_sum r)).
Proof.
  cbv zeta. unfold SavingsDepositForm_save.
  destruct (get_or_create_savings_account db m) as [db0 a] eqn:Hgoc.
  assert (H0 : Loan_objects db0 = Loan_objects db
               /\ LoanRepayment_objects db0 = LoanRepayment_objects db).
  { unfold get_or_create_savings_account in Hgoc.
    destruct (ORM.get_savings_account db m); inversion Hgoc; subst; split; reflexivity. }
  destruct H0 as [Hl0 Hr0].
  cbv zeta.
  match goal with
  | |- context [if ?c then _ else _] => destruct c
  end; [|left; cbn; split; assumption].
  match goal with
  | |- context [ORM.filter_loans ?d m [active]] =>
      change (ORM.filter_loans d m [active]) with (ORM.filter_loans db0 m [active])
  end.
  destruct (ORM.first_by_application_date (ORM.filter_loans db0 m [active]))
    as [active_loan|] eqn:Hfirst; [|left; cbn; split; assumption].
  apply first_by_application_date_In in Hfirst.
  unfold ORM.filter_loans in Hfirst. apply filter_In in Hfirst.
  destruct Hfirst as [Hin _]. rewrite Hl0 in Hin.
  destruct (Qltb 0 (Loan.total_balance active_loan)); [|left; cbn; split; assumption].
  match goal with
  | |- context [process_loan_repayment_from_deposit ?d ?mm ?ll ?aa ?dd] =>
      pose proof (process_loan_repayment_from_deposit_tables d mm ll aa dd) as Ht;
      set (res := process_loan_repayment_from_deposit d mm ll aa dd) in *
  end.
  cbv zeta in Ht.
  cbn [ORM.save_savings_account ORM.save_savings_transaction
       Loan_objects LoanRepayment_objects] in Ht.
  rewrite Hl0, Hr0 in Ht.
  assert (Hsame : Loan_objects
                    (fst (if r_success res
                          then match r_deposit res with
                               | Some transaction1 =>
                                   (ORM.save_savings_transaction (r_db res) transaction1,
                                    transaction1)
                               | None => (r_db res, SavingsTransaction.mk
                                                      (ORM.next_savings_transaction_pk db0)
                                                      m ty A (SavingsAccount.balance a)
                                                      (SavingsAccount.balance a + A)
                                                      row_completed None false 0 0)
                               end
                          else (r_db res, SavingsTransaction.mk
                                            (ORM.next_savings_transaction_pk db0)
                                            m ty A (SavingsAccount.balance a)
                                            (SavingsAccount.balance a + A)
                                            row_completed None false 0 0)))
                  = Loan_objects (r_db res)
                  /\ LoanRepayment_objects
                       (fst (if r_success res
                             then match r_deposit res with
                                  | Some transaction1 =>
                                      (ORM.save_savings_transaction (r_db res) transaction1,
                                       transaction1)
                                  | None => (r_db res, SavingsTransaction.mk
                                                         (ORM.next_savings_transaction_pk db0)
                                                         m ty A (SavingsAccount.balance a)
                                                         (SavingsAccount.balance a + A)
                                                         row_completed None false 0 0)
                                  end
                             else (r_db res, SavingsTransaction.mk
                                               (ORM.next_savings_transaction_pk db0)
                                               m ty A (SavingsAccount.balance a)
                                               (SavingsAccount.balance a + A)
                                               row_completed None false 0 0)))
                     = LoanRepayment_objects (r_db res)).
  { destruct (r_success res); [|split; reflexivity].
    destruct (r_deposit res); split; reflexivity. }
  destruct Hsame as [Hs1 Hs2].
  cbn [SavingsTransaction.amount] in *.
  rewrite Hs1, Hs2.
  destruct Ht as [(_ & Hl & Hr)|(r & _ & Hr & Hl & _ & Hp)].
  - left. split; assumption.
  - right. exists active_loan, (r_loan res), r.
    split; [exact Hin|]. split; [exact Hr|]. split; [exact Hl|]. exact Hp.
Qed.

(** ** Interest-first allocation *)

(** C2. Every repayment that is saved is split interest first:
    interest_amount = min(amount, interest_balance before) and principal_amount
    = min(amount - interest_amount, principal_balance before), and the loan's
    interest_balance and principal_balance go down by exactly those amounts,
    in the instance and in its saved row.  The automatic repayment from a
    deposit saves such a repayment, of min(amount, interest + principal),
    whenever the account carries the flag, the amount is above zero and
    something is owed; so does the helper for the repayment from savings, of
    min(amount, new savings), as it is written; the manual path builds its
    instance with the same split and saves nothing. *)
Theorem interest_first_allocation :
  (forall db l r l' db',
      repayment_event db l r l' db' ->
      interest_first r l l'
      /\ In r (LoanRepayment_objects db')
      /\ ORM.get_loan db' (Loan.pk l) = Some l')
  /\ (forall db member a l amount deposit,
         ORM.get_savings_account db member = Some a ->
         SavingsAccount.has_active_loan a = true ->
         0 < amount ->
         0 < Loan.interest_balance l + Loan.principal_balance l ->
         exists r,
           r_repayment (process_loan_repayment_from_deposit db member l amount deposit)
           = Some r
           /\ LoanRepayment.amount r
              == Qmin amount (Loan.interest_balance l + Loan.principal_balance l))
  /\ (forall db member a l amount,
         ORM.get_savings_account db member = Some a ->
         SavingsAccount.has_active_loan a = true ->
         0 < get_loan_repayment_amount a ->
         0 < amount ->
         exists r,
           r_repayment (process_loan_repayment_from_savings db member l amount) = Some r
           /\ LoanRepayment.amount r == Qmin amount (get_loan_repayment_amount a))
  /\ (forall db pk amount,
         snd (fst (loan_repayments db pk amount)) = db
         /\ forall l u,
             ORM.get_loan db pk = Some l ->
             snd (loan_repayments db pk amount) = Some u ->
             LoanRepayment.amount u = amount
             /\ LoanRepayment.interest_amount u == Qmin amount (Loan.interest_balance l)
             /\ LoanRepayment.principal_amount u
                == Qmin (amount - LoanRepayment.interest_amount u)
                        (Loan.principal_balance l)).
Proof.
  split; [|split; [|split]].
  - intros db l r l' db' Hev. destruct Hev as
        [db member l amount r Hrep
        | db member l amount deposit r Hrep].
    + (* from savings *)
      unfold process_loan_repayment_from_savings in *.
      destruct (ORM.get_savings_account db member) as [a|]; [|discriminate].
      destruct (negb (SavingsAccount.has_active_loan a)); [discriminate|].
      destruct (Qleb (get_loan_repayment_amount a) 0); [discriminate|].
      cbv zeta in *.
      destruct (Qleb (py_min amount (get_loan_repayment_amount a)) 0); [discriminate|].
      match goal with
      | H : r_repayment (if ?c then _ else _) = _ |- _ => destruct c
      end; cbn in Hrep; inversion Hrep; subst; clear Hrep;
        (split; [|split]);
        try (unfold interest_first; cbn;
             repeat split; try reflexivity; apply py_min_Qmin);
        try (cbn; apply in_or_app; right; left; reflexivity);
        try (unfold ORM.get_loan; cbn; apply (find_put_loan (with_balances l _ _ _ _))).
    + (* from a deposit *)
      unfold process_loan_repayment_from_deposit in *.
      destruct (ORM.get_savings_account db member) as [a|]; [|discriminate].
      destruct (negb (SavingsAccount.has_active_loan a)); [discriminate|].
      destruct (Qleb amount 0); [discriminate|].
      cbv zeta in *.
      match goal with
      | H : r_repayment (if ?c then _ else _) = _ |- _ => destruct c
      end; [|discriminate].
      destruct (adjust_deposit _ deposit _) as [db3 deposit1] eqn:Hadj.
      assert (Hloans : Loan_objects db3 = Loan_objects db
                       /\ LoanRepayment_objects db3 = LoanRepayment_objects db).
      { unfold adjust_deposit in Hadj.
        destruct deposit as [d|]; [|inversion Hadj; subst; split; reflexivity].
        destruct (existsb _ _); inversion Hadj; subst; split; reflexivity. }
      destruct Hloans as [Hloans Hreps].
      match goal with
      | H : r_repayment (if ?c then _ else _) = _ |- _ => destruct c
      end; cbn in Hrep; inversion Hrep; subst; clear Hrep;
        (split; [|split]);
        try (unfold interest_first; cbn;
             repeat split; try reflexivity; apply py_min_Qmin);
        try (cbn; apply in_or_app; right; left; reflexivity);
        try (unfold ORM.get_loan; cbn; rewrite ?Hloans;
             apply (find_put_loan (with_balances l _ _ _ _))).
  - intros db member a l amount deposit Hget Hflag Hpos Hout.
    destruct (process_loan_repayment_from_deposit_stores
                db member a l amount deposit Hget Hflag Hpos Hout) as (Hr & _).
    eexists. split; [exact Hr|]. cbn [LoanRepayment.amount]. apply py_min_Qmin.
  - intros db member a l amount Hget Hflag Hnew Hpos.
    destruct (process_loan_repayment_from_savings_stores
                db member a l amount Hget Hflag Hnew Hpos) as (Hr & _).
    eexists. split; [exact Hr|]. cbn [LoanRepayment.amount]. apply py_min_Qmin.
  - intros db pk amount. split; [apply loan_repayments_stores_nothing|].
    intros l u Hget Hu. unfold loan_repayments, LoanRepaymentForm_is_valid in Hu.
    rewrite Hget in Hu.
    destruct (LoanStatus_eqb (Loan.status l) active && negb (Qleb amount 0));
      [|discriminate].
    cbv zeta in Hu. cbn [snd] in Hu. injection Hu as <-.
    cbn [LoanRepaymentForm_save LoanRepayment.amount LoanRepayment.interest_amount
         LoanRepayment.principal_amount].
    split; [reflexivity|]. split; apply py_min_Qmin.
Qed.

Lemma interest_first_allocation_witness :
  exists r,
    r_repayment (process_loan_repayment_from_deposit
                   Scenario.db_active 1 Scenario.active_loan 50000 None) = Some r
    /\ LoanRepayment.amount r == 50000
    /\ LoanRepayment.interest_amount r == 10000
    /\ LoanRepayment.principal_amount r == 40000
    /\ interest_first r Scenario.active_loan
         (r_loan (process_loan_repayment_from_deposit
                    Scenario.db_active 1 Scenario.active_loan 50000 None)).
Proof.
  destruct interest_first_allocation as (Hev & Hdep & _ & _).
  destruct (Hdep Scenario.db_active 1%nat (SavingsAccount.mk 1 200000 200000 0 true)
                 Scenario.active_loan 50000 None)
    as (r & Hr & Hamt); try reflexivity.
  exists r. split; [exact Hr|].
  pose proof (Hev _ _ _ _ _
                (repayment_from_deposit Scenario.db_active 1 Scenario.active_loan
                                        50000 None r Hr)) as (Hif & _ & _).
  split; [rewrite Hamt; vm_compute; reflexivity|].
  assert (Hr' := Hr). vm_compute in Hr'. injection Hr' as <-.
  split; [vm_compute; reflexivity|]. split; [vm_compute; reflexivity|].
  exact Hif.
Defined.

(** ** The split against the amount *)

(** C9. Every LoanRepayment record that a repayment path stores has
    principal_amount + interest_amount equal to its amount.  The manual path
    stores none (its insert fails), the allocation of savings stores none (its
    call raises TypeError), and the deposit path caps the amount at what is
    owed, interest_balance + principal_balance, before it splits it: when the
    deposit exceeds what is owed the record is one of what is owed.  The
    principal balances, not below zero before, are not below zero after. *)
Theorem stored_repayment_parts_sum :
  (forall p db,
      principal_not_negative db ->
      principal_not_negative (run_repayment_path p db)
      /\ forall r,
          In r (LoanRepayment_objects (run_repayment_path p db)) ->
          In r (LoanRepayment_objects db) \/ parts_sum r)
  /\ (forall db m ty A a l,
         deposit_under_active_loan db m a l ->
         0 <= Loan.principal_balance l ->
         0 < A ->
         exists r,
           LoanRepayment_objects (fst (SavingsDepositForm_save db m ty A))
           = LoanRepayment_objects db ++ [r]
           /\ LoanRepayment.amount r
              == Qmin A (Loan.interest_balance l + Loan.principal_balance l)
           /\ parts_sum r).
Proof.
  split.
  - intros p db Hnn. destruct p as [pk amount | member loan | m ty A];
      cbn [run_repayment_path allocate_savings_to_loan].
    + rewrite loan_repayments_stores_nothing. split; [exact Hnn|]. intros r Hr. left. exact Hr.
    + split; [exact Hnn|]. intros r Hr. left. exact Hr.
    + destruct (SavingsDepositForm_save_tables db m ty A)
        as [(Hl & Hr)|(l & l' & r0 & Hin & Hr & Hl & Hp)].
      * split.
        { intros x Hx. rewrite Hl in Hx. exact (Hnn x Hx). }
        { intros r Hin. rewrite Hr in Hin. left. exact Hin. }
      * destruct (Hp (Hnn l Hin)) as [Hp' Hsum]. split.
        { intros x Hx. rewrite Hl in Hx. apply in_put_loan in Hx.
          destruct Hx as [->|Hx]; [exact Hp'|exact (Hnn x Hx)]. }
        { intros r Hr0. rewrite Hr in Hr0. apply in_app_or in Hr0.
          destruct Hr0 as [Hr0|[<-|[]]]; [left; exact Hr0|right; exact Hsum]. }
  - intros db m ty A a l (Hget & Hflag & Hfirst & Htot & Hout) Hp HA.
    pose proof (get_savings_account_member _ _ _ Hget) as Hm.
    unfold SavingsDepositForm_save, get_or_create_savings_account.
    rewrite Hget. cbv beta iota zeta.
    set (t0 := SavingsTransaction.mk (ORM.next_savings_transaction_pk db) m ty A
                 (SavingsAccount.balance a) (SavingsAccount.balance a + A)
                 row_completed None false 0 0).
    set (a1 := update_available_balance _).
    set (db2 := ORM.save_savings_account (ORM.save_savings_transaction db t0) a1).
    assert (Hf1 : SavingsAccount.has_active_loan a1 = true) by exact Hflag.
    rewrite Hf1.
    change (ORM.filter_loans db2 m [active]) with (ORM.filter_loans db m [active]).
    rewrite Hfirst.
    assert (E : Qltb 0 (Loan.total_balance l) = true) by (apply Qltb_lt; exact Htot).
    rewrite E.
    assert (Hget2 : ORM.get_savings_account db2 m = Some a1).
    { unfold ORM.get_savings_account, db2.
      cbn [ORM.save_savings_account SavingsAccount_objects].
      apply find_put_savings_account_at. exact Hm. }
    change (SavingsTransaction.amount t0) with A.
    destruct (process_loan_repayment_from_deposit_stores db2 m a1 l A (Some t0)
                Hget2 Hf1 HA Hout) as (Hrep & _ & Hrows & _).
    set (res := process_loan_repayment_from_deposit db2 m l A (Some t0)) in *.
    eexists. split.
    { assert (Hsame : forall x y : DB * SavingsTransaction.t,
                 LoanRepayment_objects (fst x) = LoanRepayment_objects (r_db res) ->
                 LoanRepayment_objects (fst y) = LoanRepayment_objects (r_db res) ->
                 LoanRepayment_objects (fst (if r_success res then x else y))
                 = LoanRepayment_objects (r_db res))
        by (intros x y Hx Hy; destruct (r_success res); assumption).
      rewrite Hsame; [exact Hrows| |reflexivity].
      destruct (r_deposit res); reflexivity. }
    cbn [LoanRepayment.amount]. split; [apply py_min_Qmin|].
    unfold parts_sum.
    cbn [LoanRepayment.principal_amount LoanRepayment.interest_amount
         LoanRepayment.amount].
    apply (deposit_split_sums A (Loan.interest_balance l) (Loan.principal_balance l) Hp).
Qed.

(** A deposit of 200000 against the loan that owes 110000: the record is one
    of 110000, split into 100000 and 10000. *)
Lemma stored_repayment_parts_sum_witness :
  exists r,
    LoanRepayment_objects (fst (SavingsDepositForm_save Scenario.db_active 1 compulsory 200000))
    = LoanRepayment_objects Scenario.db_active ++ [r]
    /\ LoanRepayment.amount r == 110000
    /\ parts_sum r.
Proof.
  destruct stored_repayment_parts_sum as (_ & Hdep).
  destruct (Hdep Scenario.db_active 1%nat compulsory 200000
                 (SavingsAccount.mk 1 200000 200000 0 true) Scenario.active_loan)
    as (r & Hrows & Hamt & Hsum).
  - repeat split; vm_compute; reflexivity.
  - vm_compute. discriminate.
  - reflexivity.
  - exists r. split; [exact Hrows|]. split; [rewrite Hamt; vm_compute; reflexivity|exact Hsum].
Defined.

(** The helper of line 149, which no caller runs, caps the amount at the new
    savings only: with 200000 of new savings against 110000 owed it would
    record a repayment of 200000 whose parts are 100000 and 10000. *)
Lemma savings_helper_split_falls_short :
  exists r,
    r_repayment (process_loan_repayment_from_savings
                   Scenario.db_new_savings 1 Scenario.active_loan 999999999) = Some r
    /\ LoanRepayment.amount r == 200000
    /\ LoanRepayment.principal_amount r + LoanRepayment.interest_amount r == 110000.
Proof.
  eexists. split; [vm_compute; reflexivity|].
  split; vm_compute; reflexivity.
Qed.

(** ** Completion and collateral *)

(** C6. A repayment of an active loan completes it exactly when its
    total_balance is not above zero afterwards, and exactly then the member's
    collateral is released: collateral_amount 0 and has_active_loan False;
    otherwise collateral and flag stay as they are.  This is what the
    automatic repayment from a deposit does whenever it runs (flag set, amount
    above zero, something owed), and what the helper for the repayment from
    savings does as it is written; the manual path changes neither a loan nor
    an account, its insert failing before its own completion test. *)
Theorem completion_releases_collateral :
  (forall db member a l amount deposit,
      ORM.get_savings_account db member = Some a ->
      SavingsAccount.has_active_loan a = true ->
      0 < amount ->
      0 < Loan.interest_balance l + Loan.principal_balance l ->
      Loan.status l = active ->
      let res := process_loan_repayment_from_deposit db member l amount deposit in
      exists r a',
        r_repayment res = Some r
        /\ ORM.get_loan (r_db res) (Loan.pk l) = Some (r_loan res)
        /\ Loan.total_balance (r_loan res) == Loan.total_balance l - LoanRepayment.amount r
        /\ (Loan.status (r_loan res) = completed <-> Loan.total_balance (r_loan res) <= 0)
        /\ ORM.get_savings_account (r_db res) member = Some a'
        /\ (Loan.total_balance (r_loan res) <= 0 ->
            SavingsAccount.collateral_amount a' == 0
            /\ SavingsAccount.has_active_loan a' = false)
        /\ (~ Loan.total_balance (r_loan res) <= 0 ->
            Loan.status (r_loan res) = active
            /\ SavingsAccount.collateral_amount a' = SavingsAccount.collateral_amount a
            /\ SavingsAccount.has_active_loan a' = true))
  /\ (forall db member a l amount,
         ORM.get_savings_account db member = Some a ->
         SavingsAccount.has_active_loan a = true ->
         0 < get_loan_repayment_amount a ->
         0 < amount ->
         Loan.status l = active ->
         let res := process_loan_repayment_from_savings db member l amount in
         exists r a',
           r_repayment res = Some r
           /\ ORM.get_loan (r_db res) (Loan.pk l) = Some (r_loan res)
           /\ Loan.total_balance (r_loan res)
              == Loan.total_balance l - LoanRepayment.amount r
           /\ (Loan.status (r_loan res) = completed
               <-> Loan.total_balance (r_loan res) <= 0)
           /\ ORM.get_savings_account (r_db res) member = Some a'
           /\ (Loan.total_balance (r_loan res) <= 0 ->
               SavingsAccount.collateral_amount a' == 0
               /\ SavingsAccount.has_active_loan a' = false)
           /\ (~ Loan.total_balance (r_loan res) <= 0 ->
               Loan.status (r_loan res) = active
               /\ SavingsAccount.collateral_amount a' = SavingsAccount.collateral_amount a
               /\ SavingsAccount.has_active_loan a' = true))
  /\ (forall db pk amount,
         Loan_objects (snd (fst (loan_repayments db pk amount))) = Loan_objects db
         /\ SavingsAccount_objects (snd (fst (loan_repayments db pk amount)))
            = SavingsAccount_objects db
         /\ LoanRepayment_objects (snd (fst (loan_repayments db pk amount)))
            = LoanRepayment_objects db).
Proof.
  assert (Hcase : forall (l : Loan.t) (t p i : Decimal) (a a' : SavingsAccount.t),
             Loan.status l = active ->
             (if Qleb t 0
              then SavingsAccount.collateral_amount a' = 0
                   /\ SavingsAccount.has_active_loan a' = false
              else SavingsAccount.collateral_amount a' = SavingsAccount.collateral_amount a
                   /\ SavingsAccount.has_active_loan a' = true) ->
             let l' := with_balances l (if Qleb t 0 then completed else Loan.status l)
                                     p i t in
             (Loan.status l' = completed <-> Loan.total_balance l' <= 0)
             /\ (Loan.total_balance l' <= 0 ->
                 SavingsAccount.collateral_amount a' == 0
                 /\ SavingsAccount.has_active_loan a' = false)
             /\ (~ Loan.total_balance l' <= 0 ->
                 Loan.status l' = active
                 /\ SavingsAccount.collateral_amount a'
                    = SavingsAccount.collateral_amount a
                 /\ SavingsAccount.has_active_loan a' = true)).
  { intros l t p i a a' Hact Hacc. cbv zeta.
    cbn [with_balances Loan.status Loan.total_balance].
    destruct (Qleb t 0) eqn:E; [apply Qleb_le in E | apply Qleb_gt in E].
    - destruct Hacc as [Hc Hf].
      split; [split; [intros _; exact E|reflexivity]|].
      split; [intros _; split; [rewrite Hc; reflexivity|exact Hf]|].
      intro N. exfalso. exact (N E).
    - destruct Hacc as [Hc Hf].
      split; [split; [rewrite Hact; discriminate|intro; exfalso; lra]|].
      split; [intro; exfalso; lra|].
      intros _. split; [exact Hact|]. split; assumption. }
  split; [|split].
  - intros db member a l amount deposit Hget Hflag Hpos Hout Hact. cbv zeta.
    destruct (process_loan_repayment_from_deposit_stores
                db member a l amount deposit Hget Hflag Hpos Hout)
      as (Hr & Hl & _ & Hrow & a' & Ha' & _ & Hacc).
    eexists. exists a'. split; [exact Hr|]. split; [exact Hrow|].
    rewrite Hl.
    split; [cbn [with_balances Loan.total_balance LoanRepayment.amount]; reflexivity|].
    destruct (Hcase l _ (Loan.principal_balance l
                         - py_min (py_min amount (Loan.interest_balance l
                                                  + Loan.principal_balance l)
                                   - py_min (py_min amount (Loan.interest_balance l
                                                            + Loan.principal_balance l))
                                            (Loan.interest_balance l))
                                  (Loan.principal_balance l))
                    (Loan.interest_balance l
                     - py_min (py_min amount (Loan.interest_balance l
                                              + Loan.principal_balance l))
                              (Loan.interest_balance l))
                    a a' Hact Hacc) as (H1 & H2 & H3).
    split; [exact H1|]. split; [exact Ha'|]. split; assumption.
  - intros db member a l amount Hget Hflag Hnew Hpos Hact. cbv zeta.
    destruct (process_loan_repayment_from_savings_stores
                db member a l amount Hget Hflag Hnew Hpos)
      as (Hr & Hl & _ & Hrow & a' & Ha' & _ & Hacc).
    eexists. exists a'. split; [exact Hr|]. split; [exact Hrow|].
    rewrite Hl.
    split; [cbn [with_balances Loan.total_balance LoanRepayment.amount]; reflexivity|].
    destruct (Hcase l _ (Loan.principal_balance l
                         - py_min (py_min amount (get_loan_repayment_amount a)
                                   - py_min (py_min amount (get_loan_repayment_amount a))
                                            (Loan.interest_balance l))
                                  (Loan.principal_balance l))
                    (Loan.interest_balance l
                     - py_min (py_min amount (get_loan_repayment_amount a))
                              (Loan.interest_balance l))
                    a a' Hact Hacc) as (H1 & H2 & H3).
    split; [exact H1|]. split; [exact Ha'|]. split; assumption.
  - intros db pk amount. rewrite loan_repayments_stores_nothing. repeat split.
Qed.

(** The deposit of 150000 that clears the loan of 110000: the loan is
    completed with nothing owed and the account is released. *)
Lemma completion_releases_collateral_witness :
  let res := process_loan_repayment_from_deposit
               Scenario.db_active 1 Scenario.active_loan 150000 None in
  exists a',
    Loan.status (r_loan res) = completed
    /\ Loan.total_balance (r_loan res) == 0
    /\ ORM.get_savings_account (r_db res) 1 = Some a'
    /\ SavingsAccount.collateral_amount a' == 0
    /\ SavingsAccount.has_active_loan a' = false.
Proof.
  cbv zeta.
  destruct completion_releases_collateral as (Hdep & _ & _).
  destruct (Hdep Scenario.db_active 1%nat (SavingsAccount.mk 1 200000 200000 0 true)
                 Scenario.active_loan 150000 None)
    as (r & a' & Hr & _ & _ & Hst & Ha' & Hrel & _); try reflexivity.
  assert (Hz : Loan.total_balance
                 (r_loan (process_loan_repayment_from_deposit
                            Scenario.db_active 1 Scenario.active_loan 150000 None)) == 0)
    by (vm_compute; reflexivity).
  assert (Hle : Loan.total_balance
                  (r_loan (process_loan_repayment_from_deposit
                             Scenario.db_active 1 Scenario.active_loan 150000 None)) <= 0)
    by (rewrite Hz; apply Qle_refl).
  exists a'. split; [apply Hst; exact Hle|]. split; [exact Hz|].
  split; [exact Ha'|]. exact (Hrel Hle).
Defined.




(** ** Disbursement *)

Lemma same_core_refl (db : DB) : same_core db db.
Proof. repeat split. Qed.

Lemma same_core_trans (a b c : DB) : same_core a b -> same_core b c -> same_core a c.
Proof.
  unfold same_core. intros (?&?&?&?&?) (?&?&?&?&?).
  repeat split; congruence.
Qed.

Section Frames.

Variable fault : option LedgerStep.

Lemma frame_ret {A} (a : A) : frame same_core (ret a).
Proof. intro c. apply same_core_refl. Qed.

Lemma frame_raise {A} (e : Exception) : frame same_core (@raise A e).
Proof. intro c. apply same_core_refl. Qed.

Lemma frame_bind {A B} (m : M A) (k : A -> M B) :
  frame same_core m -> (forall a, frame same_core (k a)) ->
  frame same_core (bind m k).
Proof.
  intros Hm Hk c. unfold bind. specialize (Hm c).
  destruct (m c) as [a c1|e c1]; [|exact Hm].
  specialize (Hk a c1).
  destruct (k a c1); eapply same_core_trans; eauto.
Qed.

Lemma frame_get_db : frame same_core get_db.
Proof. intro c. apply same_core_refl. Qed.

Lemma frame_write (f : DB -> DB) :
  (forall db, same_core db (f db)) -> frame same_core (write f).
Proof. intros Hf c. apply Hf. Qed.

Lemma frame_mark {A} (m : M A) :
  frame same_core m -> frame same_core (mark_for_rollback_on_error m).
Proof.
  intros Hm c. unfold mark_for_rollback_on_error. specialize (Hm c).
  destruct (m c); exact Hm.
Qed.

Lemma frame_savepoint {A} (m : M A) :
  frame same_core m -> frame same_core (savepoint m).
Proof.
  intros Hm c. unfold savepoint. specialize (Hm c).
  destruct (m c); [exact Hm | apply same_core_refl].
Qed.

Lemma frame_step {A} (s : LedgerStep) (m : M A) :
  frame same_core m -> frame same_core (step fault s m).
Proof.
  intros Hm. unfold step. apply frame_mark.
  destruct fault as [s'|]; [|exact Hm].
  destruct (LedgerStep_eqb s s'); [apply frame_raise | exact Hm].
Qed.

Lemma frame_try_except {A} (m : M A) (h : Exception -> M A) :
  frame same_core m -> (forall e, frame same_core (h e)) ->
  frame same_core (try_except m h).
Proof.
  intros Hm Hh c. unfold try_except. specialize (Hm c).
  destruct (m c) as [a c1|e c1]; [exact Hm|].
  specialize (Hh e c1).
  destruct (h e c1); eapply same_core_trans; eauto.
Qed.

Ltac frame_tac :=
  repeat first
    [ apply frame_ret | apply frame_raise | apply frame_get_db
    | apply frame_step | apply frame_mark | apply frame_savepoint
    | apply frame_write; intro; repeat split
    | apply frame_bind; [|intro]
    | apply frame_try_except; [|intro]
    | match goal with
      | |- frame _ (match ?x with _ => _ end) => destruct x
      | |- frame _ (if ?x then _ else _) => destruct x
      end ].

Lemma frame_get_or_create_category (code name ty : string) :
  frame same_core (get_or_create_category code name ty).
Proof. unfold get_or_create_category. frame_tac. Qed.

Lemma frame_get_or_create_account (code name : string) (c : AccountCategory.t) :
  frame same_core (get_or_create_account code name c).
Proof. unfold get_or_create_account. frame_tac. Qed.

(** The ledger block writes to the ledger tables only, however it ends. *)
Lemma frame_post_disbursement (loan : Loan.t) (a : Decimal) :
  frame same_core (post_disbursement fault loan a).
Proof.
  unfold post_disbursement.
  repeat first
    [ apply frame_get_or_create_category | apply frame_get_or_create_account
    | apply frame_ret | apply frame_get_db
    | apply frame_step
    | apply frame_write; intro; repeat split
    | apply frame_bind; [|intro] ].
Qed.

End Frames.

(** How the ledger block ends: on the unique-name clash it raises the
    [IntegrityError] with no rollback mark; otherwise a failing write raises
    with the mark set; otherwise the block runs to its end. *)
Lemma post_disbursement_outcome (fault : option LedgerStep) (loan : Loan.t)
      (a : Decimal) (db : DB) :
  if categories_clash db then
    exists c', post_disbursement fault loan a (mkConnection db false)
               = Raised IntegrityError c'
               /\ needs_rollback c' = false
  else
    match fault with
    | Some s =>
        exists c', post_disbursement fault loan a (mkConnection db false)
                   = Raised (DatabaseError s) c'
                   /\ needs_rollback c' = true
    | None =>
        exists c', post_disbursement fault loan a (mkConnection db false)
                   = Returned tt c'
                   /\ needs_rollback c' = false
    end.
Proof.
  unfold categories_clash, receivable_clash.
  unfold post_disbursement, get_or_create_category, get_or_create_account,
    step, try_except, savepoint, mark_for_rollback_on_error,
    bind, get_db, write, ret, raise,
    Ledger.get_category, Ledger.category_name_taken, Ledger.get_account.
  repeat (cbv beta iota;
          cbn [conn_db needs_rollback Ledger.save_account Ledger.add_category
               AccountCategory_objects Account_objects];
          match goal with
          | H : find ?p ?rows = _ |- context [find ?p ?rows] => rewrite H
          | H : existsb ?p ?rows = _ |- context [existsb ?p ?rows] => rewrite H
          | |- context [match find ?p ?rows with _ => _ end] =>
              destruct (find p rows) eqn:?
          | |- context [if existsb ?p ?rows then _ else _] =>
              destruct (existsb p rows) eqn:?
          end);
    cbv beta iota;
    try (eexists; split; reflexivity);
    destruct fault as [[]|]; cbn; eexists; split; reflexivity.
Qed.

Lemma set_loan_collateral_loans (db : DB) (m : nat) (l : Loan.t) :
  Loan_objects (fst (set_loan_collateral db m l)) = Loan_objects db
  /\ LoanRepayment_objects (fst (set_loan_collateral db m l)) = LoanRepayment_objects db
  /\ AccountCategory_objects (fst (set_loan_collateral db m l)) = AccountCategory_objects db.
Proof.
  unfold set_loan_collateral.
  destruct (ORM.get_savings_account db m) as [a|]; [|repeat split].
  destruct (Qltb 0 (SavingsAccount.balance a)); repeat split.
Qed.

Lemma categories_clash_disbursed_core (db : DB) (loan : Loan.t) (a : Decimal) :
  categories_clash (disbursed_core db loan a) = categories_clash db.
Proof.
  unfold categories_clash, disbursed_core.
  now rewrite (proj2 (proj2 (set_loan_collateral_loans _ _ _))).
Qed.

(** How [disburse_loan] ends on a POST for an approved loan. *)
Lemma disburse_loan_cases (fault : option LedgerStep) (pk : nat) (db : DB) (loan : Loan.t) :
  ORM.get_loan db pk = Some loan ->
  Loan.status loan = approved ->
  match Loan.approved_amount loan with
  | None => disburse_loan fault true pk db = (disbursing_error TypeError, db)
  | Some a =>
      if Qltb (disburse_loan_available_balance db) a then
        disburse_loan fault true pk db
        = (insufficient_available_balance (disburse_loan_available_balance db) a, db)
      else if negb (truthy a) then
        disburse_loan fault true pk db = (no_approved_amount, db)
      else if categories_clash db then
        exists db',
          disburse_loan fault true pk db = (ledger_error IntegrityError, db')
          /\ same_core (disbursed_core db loan a) db'
      else
        match fault with
        | Some s =>
            disburse_loan fault true pk db = (ledger_error (DatabaseError s), db)
        | None =>
            exists g db',
              disburse_loan fault true pk db = (disbursed_successfully g, db')
              /\ same_core (disbursed_core db loan a) db'
        end
  end.
Proof.
  intros Hget Hst.
  assert (Hunf : disburse_loan fault true pk db
                 = match try_except (atomic (disburse_loan_body fault loan))
                                    (fun e => ret (disbursing_error e))
                                    (mkConnection db false) with
                   | Returned r c => (r, conn_db c)
                   | Raised e c => (disbursing_error e, conn_db c)
                   end).
  { unfold disburse_loan. now rewrite Hget, Hst. }
  destruct (Loan.approved_amount loan) as [a|] eqn:Ha.
  2:{ rewrite Hunf. unfold try_except, atomic, disburse_loan_body, bind, get_db, ret, raise.
      cbv beta iota. now rewrite Ha. }
  destruct (Qltb (disburse_loan_available_balance db) a) eqn:E1.
  { rewrite Hunf. unfold try_except, atomic, disburse_loan_body, bind, get_db, ret, raise.
    cbv beta iota. cbn [conn_db]. now rewrite Ha, E1. }
  destruct (negb (truthy a)) eqn:E2.
  { rewrite Hunf. unfold try_except, atomic, disburse_loan_body, bind, get_db, ret, raise.
    cbv beta iota. cbn [conn_db]. now rewrite Ha, E1, E2. }
  rewrite Hunf. clear Hunf.
  unfold try_except at 1. unfold atomic, disburse_loan_body.
  unfold bind, write, get_db, ret, try_except.
  cbv beta iota. cbn [conn_db needs_rollback].
  rewrite Ha, E1, E2. cbv zeta beta iota. cbn [conn_db needs_rollback].
  fold (disbursed_loan loan a).
  change (Loan.member (disbursed_loan loan a)) with (Loan.member loan).
  fold (disbursed_core db loan a).
  pose proof (post_disbursement_outcome fault (disbursed_loan loan a) a
                                        (disbursed_core db loan a)) as Hout.
  pose proof (frame_post_disbursement fault (disbursed_loan loan a) a
                (mkConnection (disbursed_core db loan a) false)) as Hfr.
  rewrite categories_clash_disbursed_core in Hout.
  destruct (categories_clash db).
  - destruct Hout as (c' & Hrun & Hnr). rewrite Hrun in Hfr |- *.
    cbn [conn_db] in Hfr. rewrite Hnr.
    eexists. split; [reflexivity | exact Hfr].
  - destruct fault as [s|].
    + destruct Hout as (c' & Hrun & Hnr). rewrite Hrun. rewrite Hnr. reflexivity.
    + destruct Hout as (c' & Hrun & Hnr). rewrite Hrun in Hfr |- *.
      cbn [conn_db] in Hfr. rewrite Hnr.
      eexists. eexists. split; [reflexivity | exact Hfr].
Qed.

Lemma get_loan_disbursed_core (db : DB) (pk : nat) (loan : Loan.t) (a : Decimal) (db' : DB) :
  ORM.get_loan db pk = Some loan ->
  same_core (disbursed_core db loan a) db' ->
  ORM.get_loan db' pk = Some (disbursed_loan loan a).
Proof.
  intros Hget (_ & _ & _ & Hloans & _).
  unfold ORM.get_loan. rewrite Hloans. unfold disbursed_core.
  rewrite (proj1 (set_loan_collateral_loans _ _ _)).
  rewrite <- (get_loan_pk _ _ _ Hget).
  apply (find_put_loan (disbursed_loan loan a)).
Qed.






(** What [disburse_loan] can have done to the tables outside the ledger. *)
Lemma disburse_loan_frame (fault : option LedgerStep) (post : bool) (pk : nat) (db : DB) :
  same_core db (snd (disburse_loan fault post pk db))
  \/ exists loan a,
      ORM.get_loan db pk = Some loan
      /\ Loan.approved_amount loan = Some a
      /\ same_core (disbursed_core db loan a) (snd (disburse_loan fault post pk db)).
Proof.
  destruct (ORM.get_loan db pk) as [loan|] eqn:Hget.
  2:{ left. unfold disburse_loan. rewrite Hget. apply same_core_refl. }
  destruct post.
  2:{ left. unfold disburse_loan. rewrite Hget. apply same_core_refl. }
  destruct (LoanStatus_eqb (Loan.status loan) approved) eqn:Hst.
  2:{ left. unfold disburse_loan. rewrite Hget, Hst. apply same_core_refl. }
  assert (Hap : Loan.status loan = approved)
    by (destruct (Loan.status loan); cbn in Hst; congruence).
  pose proof (disburse_loan_cases fault pk db loan Hget Hap) as Hc.
  destruct (Loan.approved_amount loan) as [a|] eqn:Ha.
  2:{ left. rewrite Hc. apply same_core_refl. }
  destruct (Qltb (disburse_loan_available_balance db) a).
  { left. rewrite Hc. apply same_core_refl. }
  destruct (negb (truthy a)).
  { left. rewrite Hc. apply same_core_refl. }
  destruct (categories_clash db).
  { destruct Hc as (db' & Hrun & Hcore).
    right. exists loan, a. rewrite Hrun.
    split; [reflexivity|]. split; [reflexivity || exact Ha|]. exact Hcore. }
  destruct fault as [s|].
  { left. rewrite Hc. apply same_core_refl. }
  destruct Hc as (g & db' & Hrun & Hcore).
  right. exists loan, a. rewrite Hrun.
  split; [reflexivity|]. split; [reflexivity || exact Ha|]. exact Hcore.
Qed.

Lemma in_put_savings_transaction (t t0 : SavingsTransaction.t)
      (rows : list SavingsTransaction.t) :
  In t (ORM.put_savings_transaction t0 rows) -> t = t0 \/ In t rows.
Proof.
  induction rows as [|r rows IH]; cbn.
  - intros [H|[]]; auto.
  - destruct (Nat.eqb (SavingsTransaction.pk r) (SavingsTransaction.pk t0)); cbn.
    + intros [H|H]; auto.
    + intros [H|H]; auto. destruct (IH H); auto.
Qed.

(** Setting the collateral leaves every balance as it is and records at most
    one 'collateral' row whose two balance snapshots agree. *)
Lemma set_loan_collateral_balance (db : DB) (m : nat) (l : Loan.t) :
  (forall m',
      option_map SavingsAccount.balance
                 (ORM.get_savings_account (fst (set_loan_collateral db m l)) m')
      = option_map SavingsAccount.balance (ORM.get_savings_account db m'))
  /\ (forall t,
         In t (SavingsTransaction_objects (fst (set_loan_collateral db m l))) ->
         In t (SavingsTransaction_objects db)
         \/ (SavingsTransaction.transaction_type t = collateral
             /\ SavingsTransaction.balance_before t = SavingsTransaction.balance_after t
             /\ SavingsTransaction.amount t = SavingsTransaction.balance_before t)).
Proof.
  unfold set_loan_collateral.
  destruct (ORM.get_savings_account db m) as [a|] eqn:Hget; [|split; auto].
  destruct (Qltb 0 (SavingsAccount.balance a)); [|split; auto].
  pose proof (get_savings_account_member _ _ _ Hget) as Hm.
  cbn. split.
  - intro m'. destruct (Nat.eq_dec m' m) as [->|Hne].
    + rewrite Hget. unfold ORM.get_savings_account. cbn.
      rewrite find_put_savings_account_at by exact Hm.
      reflexivity.
    + unfold ORM.get_savings_account. cbn.
      rewrite find_put_savings_account_other; [reflexivity|].
      cbn. congruence.
  - intros t Hin. apply in_put_savings_transaction in Hin.
    destruct Hin as [->|Hin]; [right; cbn; repeat split | left; exact Hin].
Qed.

(** C4. Whatever a disbursement request does, every member's savings balance
    is afterwards what it was before: the account rows keep their member and
    balance (only collateral_amount, available_balance and has_active_loan can
    differ), and every savings transaction the request adds is a 'collateral'
    record with balance_before = balance_after. *)
Theorem disbursement_keeps_savings_balance (fault : option LedgerStep) (post : bool)
        (pk : nat) (db : DB) :
  (forall m,
      option_map SavingsAccount.balance
                 (ORM.get_savings_account (snd (disburse_loan fault post pk db)) m)
      = option_map SavingsAccount.balance (ORM.get_savings_account db m))
  /\ (forall t,
         In t (SavingsTransaction_objects (snd (disburse_loan fault post pk db))) ->
         In t (SavingsTransaction_objects db)
         \/ (SavingsTransaction.transaction_type t = collateral
             /\ SavingsTransaction.balance_before t = SavingsTransaction.balance_after t)).
Proof.
  destruct (disburse_loan_frame fault post pk db)
    as [(_ & Hacc & Htx & _) | (loan & a & _ & _ & (_ & Hacc & Htx & _))].
  - split.
    + intro m. unfold ORM.get_savings_account. now rewrite Hacc.
    + intros t Hin. left. now rewrite Htx in Hin.
  - pose proof (set_loan_collateral_balance
                  (ORM.save_loan db (disbursed_loan loan a)) (Loan.member loan)
                  (disbursed_loan loan a)) as [Hbal Hrows].
    fold (disbursed_core db loan a) in Hbal, Hrows.
    split.
    + intro m. unfold ORM.get_savings_account at 1. rewrite Hacc.
      exact (Hbal m).
    + intros t Hin. rewrite Htx in Hin.
      destruct (Hrows t Hin) as [H|(H1 & H2 & _)]; [left; exact H | right; auto].
Qed.

Lemma disbursement_keeps_savings_balance_witness :
  option_map SavingsAccount.balance
             (ORM.get_savings_account
                (snd (disburse_loan None true 1 Scenario.db_approved)) 1)
  = Some 200000.
Proof.
  rewrite (proj1 (disbursement_keeps_savings_balance None true 1 Scenario.db_approved) 1%nat).
  reflexivity.
Defined.

(** ** A ledger failure inside the atomic block *)

(** A write of the ledger block that fails in the database marks the
    transaction, and the block is rolled back although the view has caught the
    exception: the database is the one of the entry. *)
Lemma ledger_write_failure_rolls_back (s : LedgerStep) (pk : nat) (db : DB) (loan : Loan.t)
      (a : Decimal) :
  ORM.get_loan db pk = Some loan ->
  Loan.status loan = approved ->
  Loan.approved_amount loan = Some a ->
  a <= disburse_loan_available_balance db ->
  ~ a == 0 ->
  categories_clash db = false ->
  disburse_loan (Some s) true pk db = (ledger_error (DatabaseError s), db).
Proof.
  intros Hget Hst Ha Havail Hnz Hclash.
  pose proof (disburse_loan_cases (Some s) pk db loan Hget Hst) as Hc.
  rewrite Ha in Hc.
  assert (E1 : Qltb (disburse_loan_available_balance db) a = false)
    by (apply Qltb_ge; exact Havail).
  assert (E2 : negb (truthy a) = false).
  { unfold truthy. rewrite negb_involutive.
    destruct (Qeq_bool a 0) eqn:E; [|reflexivity].
    apply Qeq_bool_iff in E. contradiction. }
  now rewrite E1, E2, Hclash in Hc.
Qed.

(** When the ledger block cannot create one of its categories, the view
    answers with the ledger error from inside the block and the block
    commits: the loan row is the disbursed one. *)
Lemma ledger_lookup_failure_commits_loan (fault : option LedgerStep) (pk : nat) (db : DB)
      (loan : Loan.t) (a : Decimal) :
  ORM.get_loan db pk = Some loan ->
  Loan.status loan = approved ->
  Loan.approved_amount loan = Some a ->
  a <= disburse_loan_available_balance db ->
  ~ a == 0 ->
  categories_clash db = true ->
  exists db',
    disburse_loan fault true pk db = (ledger_error IntegrityError, db')
    /\ ORM.get_loan db' pk = Some (disbursed_loan loan a).
Proof.
  intros Hget Hst Ha Havail Hnz Hclash.
  pose proof (disburse_loan_cases fault pk db loan Hget Hst) as Hc.
  rewrite Ha in Hc.
  assert (E1 : Qltb (disburse_loan_available_balance db) a = false)
    by (apply Qltb_ge; exact Havail).
  assert (E2 : negb (truthy a) = false).
  { unfold truthy. rewrite negb_involutive.
    destruct (Qeq_bool a 0) eqn:E; [|reflexivity].
    apply Qeq_bool_iff in E. contradiction. }
  rewrite E1, E2, Hclash in Hc.
  destruct Hc as (db' & Hrun & Hcore).
  exists db'. split; [exact Hrun|].
  eapply get_loan_disbursed_core; eassumption.
Qed.

(** C8, a disbursement whose ledger block fails: the approved loan of 100000
    is disbursed while a ledger category named 'Loans Receivable' exists under
    a code other than 1200, so that creating the block's own category
    violates the unique name.  The request answers with the ledger error, and
    the loan is left active with principal 100000, interest 10000 and total
    110000, the member's savings locked as collateral, and no ledger
    transaction or entry. *)
Theorem ledger_failure_leaves_loan_active :
  exists db',
    disburse_loan None true 1 Scenario.db_named_category
    = (ledger_error IntegrityError, db')
    /\ ORM.get_loan Scenario.db_named_category 1 = Some Scenario.approved_loan
    /\ (exists l', ORM.get_loan db' 1 = Some l'
                   /\ Loan.status l' = active
                   /\ Loan.principal_balance l' == 100000
                   /\ Loan.interest_balance l' == 10000
                   /\ Loan.total_balance l' == 110000)
    /\ ORM.get_savings_account db' 1 = Some (SavingsAccount.mk 1 200000 200000 0 true)
    /\ Transaction_objects db' = []
    /\ TransactionEntry_objects db' = [].
Proof.
  eexists. split; [vm_compute; reflexivity|].
  split; [reflexivity|].
  split; [eexists; split; [vm_compute; reflexivity|]; repeat split; vm_compute; reflexivity|].
  repeat split; vm_compute; reflexivity.
Qed.

(** ** Deposits of a member without the active-loan flag *)

Lemma deposit_is_ordinary (db : DB) (m : nat) (ty : SavingsType) (amount : Decimal) :
  no_active_loan_flag db m ->
  ordinary_deposit db (fst (SavingsDepositForm_save db m ty amount)) m ty amount
                   (snd (SavingsDepositForm_save db m ty amount))
  /\ no_active_loan_flag (fst (SavingsDepositForm_save db m ty amount)) m.
Proof.
  unfold no_active_loan_flag, ordinary_deposit, balance_of.
  unfold SavingsDepositForm_save, get_or_create_savings_account.
  destruct (ORM.get_savings_account db m) as [a|] eqn:Hget.
  - intro Hflag. pose proof (get_savings_account_member _ _ _ Hget) as Hm.
    cbn. rewrite Hflag. cbn. unfold ORM.get_savings_account. cbn.
    rewrite !find_put_savings_account_at by exact Hm.
    cbn. repeat split; reflexivity.
  - intros _. cbn. unfold ORM.get_savings_account. cbn.
    rewrite !find_put_savings_account_at by reflexivity.
    cbn. repeat split; reflexivity.
Qed.

Lemma deposits_are_ordinary (m : nat) (ds : list (SavingsType * Decimal)) :
  forall db, no_active_loan_flag db m ->
             all_ordinary db m ds
             /\ Loan_objects (deposits db m ds) = Loan_objects db
             /\ LoanRepayment_objects (deposits db m ds) = LoanRepayment_objects db.
Proof.
  induction ds as [|[ty amount] ds IH]; intros db Hflag; cbn.
  - repeat split.
  - destruct (deposit_is_ordinary db m ty amount Hflag) as [Hord Hflag'].
    destruct (IH _ Hflag') as (Hall & Hl & Hr).
    split; [split; assumption|].
    destruct Hord as (Hl0 & Hr0 & _).
    split; congruence.
Qed.

(** The auto-repayment helper itself refuses a member whose account does not
    carry the flag, and writes nothing. *)
Lemma helper_refuses_unflagged_member (db : DB) (m : nat) (l : Loan.t) (amount : Decimal)
      (d : option SavingsTransaction.t) (a : SavingsAccount.t) :
  ORM.get_savings_account db m = Some a ->
  SavingsAccount.has_active_loan a = false ->
  process_loan_repayment_from_deposit db m l amount d
  = mkResult db l d None false no_active_loan.
Proof.
  intros Hget Hflag. unfold process_loan_repayment_from_deposit.
  now rewrite Hget, Hflag.
Qed.

(** C10 as the code has it.  When the member of the loan has no savings
    account, or an account with a zero balance that carries no active-loan
    flag yet, a disbursement
    request does not set has_active_loan; every deposit the member makes
    afterwards goes to savings in full, and the loan rows and loan repayments
    stay as the disbursement left them, so a loan that was disbursed is still
    active and owes what it owed. *)
Theorem unflagged_member_deposits_bypass_loan (fault : option LedgerStep) (pk : nat)
        (db db' : DB) (loan : Loan.t) (resp : DisburseResponse) :
  ORM.get_loan db pk = Some loan ->
  (ORM.get_savings_account db (Loan.member loan) = None
   \/ exists a, ORM.get_savings_account db (Loan.member loan) = Some a
                /\ SavingsAccount.balance a == 0
                /\ SavingsAccount.has_active_loan a = false) ->
  disburse_loan fault true pk db = (resp, db') ->
  no_active_loan_flag db' (Loan.member loan)
  /\ forall ds : list (SavingsType * Decimal),
      all_ordinary db' (Loan.member loan) ds
      /\ LoanRepayment_objects (deposits db' (Loan.member loan) ds)
         = LoanRepayment_objects db'
      /\ ORM.get_loan (deposits db' (Loan.member loan) ds) pk = ORM.get_loan db' pk
      /\ forall g, resp = disbursed_successfully g ->
                   exists l', ORM.get_loan (deposits db' (Loan.member loan) ds) pk = Some l'
                              /\ Loan.status l' = active
                              /\ Loan.member l' = Loan.member loan.
Proof.
  intros Hget Hacc Hrun.
  assert (Hrows : SavingsAccount_objects db' = SavingsAccount_objects db).
  { pose proof (disburse_loan_frame fault true pk db) as Hfr.
    rewrite Hrun in Hfr. cbn [snd] in Hfr.
    destruct Hfr as [(_ & H & _) | (loan0 & a0 & Hget0 & _ & (_ & H & _))];
      [exact H|].
    rewrite Hget in Hget0. inversion Hget0; subst loan0.
    rewrite H. unfold disbursed_core, set_loan_collateral.
    change (ORM.get_savings_account (ORM.save_loan db (disbursed_loan loan a0))
                                    (Loan.member loan))
      with (ORM.get_savings_account db (Loan.member loan)).
    destruct Hacc as [-> | (a & -> & Hbal & _)]; [reflexivity|].
    assert (E : Qltb 0 (SavingsAccount.balance a) = false) by (apply Qltb_ge; lra).
    rewrite E. reflexivity. }
  assert (Hflag : no_active_loan_flag db' (Loan.member loan)).
  { unfold no_active_loan_flag, ORM.get_savings_account. rewrite Hrows.
    fold (ORM.get_savings_account db (Loan.member loan)).
    destruct Hacc as [-> | (a & -> & _ & Hf)]; [exact I | exact Hf]. }
  split; [exact Hflag|].
  intro ds.
  destruct (deposits_are_ordinary (Loan.member loan) ds db' Hflag) as (Hall & Hl & Hr).
  split; [exact Hall|]. split; [exact Hr|].
  assert (Hsame : ORM.get_loan (deposits db' (Loan.member loan) ds) pk = ORM.get_loan db' pk).
  { unfold ORM.get_loan. now rewrite Hl. }
  split; [exact Hsame|].
  intros g ->. rewrite Hsame.
  destruct (Loan.status loan) eqn:Hst;
    try (unfold disburse_loan in Hrun; rewrite Hget, Hst in Hrun; discriminate).
  pose proof (disburse_loan_cases fault pk db loan Hget Hst) as Hc.
  destruct (Loan.approved_amount loan) as [a|];
    [|rewrite Hrun in Hc; discriminate].
  destruct (Qltb (disburse_loan_available_balance db) a);
    [rewrite Hrun in Hc; discriminate|].
  destruct (negb (truthy a)); [rewrite Hrun in Hc; discriminate|].
  destruct (categories_clash db).
  { destruct Hc as (db1 & Hrun1 & _). rewrite Hrun in Hrun1. discriminate. }
  destruct fault as [s|]; [rewrite Hrun in Hc; discriminate|].
  destruct Hc as (g1 & db1 & Hrun1 & Hcore).
  rewrite Hrun in Hrun1. inversion Hrun1; subst g1 db1.
  exists (disbursed_loan loan a).
  split; [eapply get_loan_disbursed_core; eassumption|].
  split; reflexivity.
Qed.

(** ** Deposits under an active loan *)

Lemma pk_lt_next (db : DB) (r : SavingsTransaction.t) :
  In r (SavingsTransaction_objects db) ->
  (SavingsTransaction.pk r < ORM.next_savings_transaction_pk db)%nat.
Proof.
  unfold ORM.next_savings_transaction_pk.
  induction (SavingsTransaction_objects db) as [|x rows IH]; cbn; [tauto|].
  intros [->|Hin]; [lia|]. specialize (IH Hin). lia.
Qed.

Lemma put_fresh_savings_transaction (t : SavingsTransaction.t)
      (rows : list SavingsTransaction.t) :
  (forall r, In r rows -> SavingsTransaction.pk r <> SavingsTransaction.pk t) ->
  ORM.put_savings_transaction t rows = rows ++ [t].
Proof.
  induction rows as [|x rows IH]; cbn; intro Hfresh; [reflexivity|].
  destruct (Nat.eqb (SavingsTransaction.pk x) (SavingsTransaction.pk t)) eqn:E.
  - apply Nat.eqb_eq in E. exfalso. apply (Hfresh x); auto.
  - rewrite IH; auto.
Qed.

Lemma put_over_savings_transaction (t t' : SavingsTransaction.t)
      (rows rest : list SavingsTransaction.t) :
  (forall r, In r rows -> SavingsTransaction.pk r <> SavingsTransaction.pk t) ->
  SavingsTransaction.pk t' = SavingsTransaction.pk t ->
  ORM.put_savings_transaction t' (rows ++ t :: rest) = rows ++ t' :: rest.
Proof.
  intros Hfresh Hpk.
  induction rows as [|x rows IH]; cbn.
  - rewrite Hpk, Nat.eqb_refl. reflexivity.
  - destruct (Nat.eqb (SavingsTransaction.pk x) (SavingsTransaction.pk t')) eqn:E.
    + apply Nat.eqb_eq in E. exfalso. apply (Hfresh x); [left; reflexivity|congruence].
    + rewrite IH; [reflexivity|]. intros r Hr. apply Hfresh. right. exact Hr.
Qed.

(** A new row gets a key no row has. *)
Lemma create_savings_transaction_appends (db : DB) (t : SavingsTransaction.t) :
  SavingsTransaction.pk t = ORM.next_savings_transaction_pk db ->
  SavingsTransaction_objects (ORM.save_savings_transaction db t)
  = SavingsTransaction_objects db ++ [t].
Proof.
  intro Hpk. cbn. apply put_fresh_savings_transaction.
  intros r Hr. apply pk_lt_next in Hr. lia.
Qed.

(** The helper on a flagged account with something owed: what it returns and
    what it leaves in the savings tables. *)
Lemma process_loan_repayment_from_deposit_run (db : DB) (m : nat) (l : Loan.t)
      (amount : Decimal) (d : SavingsTransaction.t) (a : SavingsAccount.t) :
  ORM.get_savings_account db m = Some a ->
  SavingsAccount.has_active_loan a = true ->
  0 < amount ->
  0 < Loan.interest_balance l + Loan.principal_balance l ->
  let loan_portion :=
    py_min amount (Loan.interest_balance l + Loan.principal_balance l) in
  let res := process_loan_repayment_from_deposit db m l amount (Some d) in
  let d' := if is_savings_deposit (SavingsTransaction.transaction_type d)
            then rewritten_deposit d (amount - loan_portion) else d in
  0 < loan_portion
  /\ r_success res = true
  /\ r_deposit res = Some d'
  /\ balance_of (r_db res) m = SavingsAccount.balance a - loan_portion
  /\ exists rt,
      SavingsTransaction_objects (r_db res)
      = (if is_savings_deposit (SavingsTransaction.transaction_type d)
         then ORM.put_savings_transaction d'
                (ORM.put_savings_transaction rt (SavingsTransaction_objects db))
         else ORM.put_savings_transaction rt (SavingsTransaction_objects db))
      /\ SavingsTransaction.pk rt = ORM.next_savings_transaction_pk db
      /\ SavingsTransaction.transaction_type rt = loan_repayment
      /\ SavingsTransaction.amount rt = loan_portion
      /\ SavingsTransaction.related_loan rt = Some (Loan.pk l).
Proof.
  intros Hget Hflag Hpos Hout. cbv zeta.
  pose proof (get_savings_account_member _ _ _ Hget) as Hm.
  assert (Hlp : 0 < py_min amount (Loan.interest_balance l + Loan.principal_balance l)).
  { destruct (py_min_spec amount (Loan.interest_balance l + Loan.principal_balance l))
      as [[_ ->]|[_ ->]]; assumption. }
  split; [exact Hlp|].
  unfold process_loan_repayment_from_deposit.
  rewrite Hget, Hflag. cbn [negb].
  assert (E0 : Qleb amount 0 = false) by (apply Qleb_gt; exact Hpos).
  rewrite E0. cbv zeta.
  assert (E1 : Qltb 0 (py_min amount (Loan.interest_balance l + Loan.principal_balance l))
               = true) by (apply Qltb_lt; exact Hlp).
  rewrite E1.
  unfold adjust_deposit. fold (is_savings_deposit (SavingsTransaction.transaction_type d)).
  destruct (is_savings_deposit (SavingsTransaction.transaction_type d));
    match goal with
    | |- context [if Qleb ?t 0 then _ else _] => destruct (Qleb t 0)
    end;
    cbn [r_success r_deposit r_db clear_collateral fst snd];
    (split; [reflexivity|]); (split; [reflexivity|]);
    (split;
     [ unfold balance_of, ORM.get_savings_account;
       cbn [ORM.save_savings_account ORM.save_savings_transaction ORM.save_loan
            ORM.create_loan_repayment SavingsAccount_objects update_available_balance
            SavingsAccount.member SavingsAccount.balance];
       rewrite ?find_put_savings_account_at by (cbn; exact Hm);
       try reflexivity
     | eexists; split; [reflexivity|]; repeat split ]).
Qed.

(** C5 as the code has it.  A deposit of A > 0 by a member whose account has
    has_active_loan = True and whose active loan has total_balance > 0 and
    owes outstanding = interest_balance + principal_balance > 0 is split into loan_portion =
    min(A, outstanding) and savings_portion = A - loan_portion; loan_portion
    is above zero; the savings balance grows by exactly savings_portion; the
    savings transactions gain two rows, the deposit's own and a separate
    'loan_repayment' row of loan_portion; a compulsory or voluntary deposit's
    row is rewritten to amount = savings_portion and balance_after = original
    balance_before + savings_portion, and a deposit of any other type keeps
    the amount A and the balance_after it was recorded with. *)
Theorem deposit_auto_split (db : DB) (m : nat) (ty : SavingsType) (A : Decimal)
        (a : SavingsAccount.t) (l : Loan.t) :
  deposit_under_active_loan db m a l ->
  0 < A ->
  let outstanding := Loan.interest_balance l + Loan.principal_balance l in
  let loan_portion := Qmin A outstanding in
  let savings_portion := A - loan_portion in
  let db' := fst (SavingsDepositForm_save db m ty A) in
  let t := snd (SavingsDepositForm_save db m ty A) in
  0 < loan_portion
  /\ balance_of db' m == SavingsAccount.balance a + savings_portion
  /\ (exists rt,
         SavingsTransaction_objects db' = SavingsTransaction_objects db ++ [t; rt]
         /\ SavingsTransaction.transaction_type rt = loan_repayment
         /\ SavingsTransaction.amount rt == loan_portion
         /\ SavingsTransaction.related_loan rt = Some (Loan.pk l))
  /\ SavingsTransaction.transaction_type t = ty
  /\ SavingsTransaction.balance_before t = SavingsAccount.balance a
  /\ (is_savings_deposit ty = true ->
      SavingsTransaction.amount t == savings_portion
      /\ SavingsTransaction.balance_after t
         == SavingsTransaction.balance_before t + savings_portion)
  /\ (is_savings_deposit ty = false ->
      SavingsTransaction.amount t = A
      /\ SavingsTransaction.balance_after t = SavingsTransaction.balance_before t + A).
Proof.
  intros (Hget & Hflag & Hfirst & Hinv & Hout) HA. cbv zeta.
  pose proof (get_savings_account_member _ _ _ Hget) as Hm.
  pose proof (py_min_Qmin A (Loan.interest_balance l + Loan.principal_balance l)) as Hmin.
  unfold SavingsDepositForm_save, get_or_create_savings_account.
  rewrite Hget. cbv beta iota zeta.
  set (t0 := SavingsTransaction.mk (ORM.next_savings_transaction_pk db) m ty A
               (SavingsAccount.balance a) (SavingsAccount.balance a + A)
               row_completed None false 0 0).
  set (a1 := update_available_balance _).
  set (db2 := ORM.save_savings_account (ORM.save_savings_transaction db t0) a1).
  assert (Hf1 : SavingsAccount.has_active_loan a1 = true) by exact Hflag.
  rewrite Hf1.
  change (ORM.filter_loans db2 m [active]) with (ORM.filter_loans db m [active]).
  rewrite Hfirst.
  assert (E : Qltb 0 (Loan.total_balance l) = true) by (apply Qltb_lt; lra).
  rewrite E.
  assert (Hget2 : ORM.get_savings_account db2 m = Some a1).
  { unfold ORM.get_savings_account, db2. cbn [ORM.save_savings_account SavingsAccount_objects].
    apply find_put_savings_account_at. exact Hm. }
  change (SavingsTransaction.amount t0) with A.
  destruct (process_loan_repayment_from_deposit_run db2 m l A t0 a1 Hget2 Hf1 HA Hout)
    as (Hlp & Hok & Hdep & Hbal & rt & Hrows & Hpk & Hty & Hamt & Hrel).
  rewrite Hok, Hdep.
  cbn [fst snd].
  assert (Hrows0 : SavingsTransaction_objects db2 = SavingsTransaction_objects db ++ [t0]).
  { apply (create_savings_transaction_appends db t0). reflexivity. }
  assert (Hfresh : forall r, In r (SavingsTransaction_objects db) ->
                             SavingsTransaction.pk r <> SavingsTransaction.pk t0).
  { intros r Hr. apply pk_lt_next in Hr. cbn. lia. }
  assert (Hrt : ORM.put_savings_transaction rt (SavingsTransaction_objects db2)
                = SavingsTransaction_objects db ++ [t0; rt]).
  { rewrite put_fresh_savings_transaction.
    - rewrite Hrows0, <- app_assoc. reflexivity.
    - intros r Hr. apply (pk_lt_next db2) in Hr. lia. }
  set (lp := py_min A (Loan.interest_balance l + Loan.principal_balance l)) in *.
  split; [lra|].
  split.
  { unfold balance_of in Hbal |- *. unfold ORM.get_savings_account in Hbal |- *.
    cbn [ORM.save_savings_transaction SavingsAccount_objects].
    rewrite Hbal. cbn. lra. }
  change (SavingsTransaction.transaction_type t0) with ty in *.
  destruct (is_savings_deposit ty) eqn:Hty0.
  - split.
    { exists rt. cbn [ORM.save_savings_transaction SavingsTransaction_objects].
      rewrite Hrows, Hrt.
      rewrite (put_over_savings_transaction t0 (rewritten_deposit t0 (A - lp)))
        by (auto || reflexivity).
      rewrite (put_over_savings_transaction (rewritten_deposit t0 (A - lp))
                                            (rewritten_deposit t0 (A - lp)))
        by (auto || reflexivity).
      split; [reflexivity|]. split; [exact Hty|].
      split; [rewrite Hamt; exact Hmin | exact Hrel]. }
    cbn. split; [reflexivity|]. split; [reflexivity|].
    split; [intros _; split; lra | discriminate].
  - split.
    { exists rt. cbn [ORM.save_savings_transaction SavingsTransaction_objects].
      rewrite Hrows, Hrt.
      rewrite (put_over_savings_transaction t0 t0) by (auto || reflexivity).
      split; [reflexivity|]. split; [exact Hty|].
      split; [rewrite Hamt; exact Hmin | exact Hrel]. }
    cbn. split; [reflexivity|]. split; [reflexivity|].
    split; [discriminate | intros _; split; reflexivity].
Qed.

Lemma deposit_auto_split_witness :
  deposit_under_active_loan Scenario.db_60000 1
    (SavingsAccount.mk 1 200000 200000 0 true) Scenario.loan_60000
  /\ 0 < 50000
  /\ balance_of (fst (SavingsDepositForm_save Scenario.db_60000 1 compulsory 50000)) 1
     == 200000
  /\ SavingsTransaction.amount
       (snd (SavingsDepositForm_save Scenario.db_60000 1 compulsory 50000)) == 0.
Proof.
  assert (H : deposit_under_active_loan Scenario.db_60000 1
                (SavingsAccount.mk 1 200000 200000 0 true) Scenario.loan_60000)
    by (repeat split; vm_compute; reflexivity).
  assert (HA : 0 < 50000) by reflexivity.
  split; [exact H|]. split; [exact HA|].
  destruct (deposit_auto_split Scenario.db_60000 1 compulsory 50000 _ _ H HA)
    as (_ & Hbal & _ & _ & _ & Hrew & _).
  split.
  - rewrite Hbal. vm_compute. reflexivity.
  - rewrite (proj1 (Hrew eq_refl)). vm_compute. reflexivity.
Defined.

(** C5 as stated fails for a deposit of type 'interest', which the deposit
    form offers: in the situation of the claim (flag set, 60000 owed, 50000
    deposited) the savings portion is 0 and the balance stays at 200000, and
    the deposit's row keeps amount 50000 and balance_after 250000. *)
Lemma interest_deposit_is_not_rewritten :
  deposit_under_active_loan Scenario.db_60000 1
    (SavingsAccount.mk 1 200000 200000 0 true) Scenario.loan_60000
  /\ 0 < 50000
  /\ let t := snd interest_deposit_result in
     let savings_portion := 50000 - Qmin 50000 (0 + 60000) in
     savings_portion == 0
     /\ balance_of (fst interest_deposit_result) 1 == 200000 + savings_portion
     /\ In t (SavingsTransaction_objects (fst interest_deposit_result))
     /\ SavingsTransaction.amount t == 50000
     /\ SavingsTransaction.balance_after t == 250000
     /\ ~ SavingsTransaction.amount t == savings_portion
     /\ ~ SavingsTransaction.balance_after t
          == SavingsTransaction.balance_before t + savings_portion.
Proof.
  split; [repeat split; vm_compute; reflexivity|].
  split; [reflexivity|].
  cbv zeta. split; [vm_compute; reflexivity|].
  split; [vm_compute; reflexivity|].
  split; [vm_compute; do 4 right; left; reflexivity|].
  split; [vm_compute; reflexivity|].
  split; [vm_compute; reflexivity|].
  split; vm_compute; discriminate.
Qed.

(** No loan portion, no loan-repayment row: the helper then leaves the
    database as it found it. *)
Lemma no_repayment_row_without_loan_portion (db : DB) (m : nat) (l : Loan.t)
      (amount : Decimal) (d : option SavingsTransaction.t) :
  py_min amount (Loan.interest_balance l + Loan.principal_balance l) <= 0 ->
  r_db (process_loan_repayment_from_deposit db m l amount d) = db
  /\ r_repayment (process_loan_repayment_from_deposit db m l amount d) = None.
Proof.
  intro Hle. unfold process_loan_repayment_from_deposit.
  destruct (ORM.get_savings_account db m) as [a|]; [|split; reflexivity].
  destruct (negb (SavingsAccount.has_active_loan a)); [split; reflexivity|].
  destruct (Qleb amount 0); [split; reflexivity|].
  cbv zeta.
  assert (E : Qltb 0 (py_min amount (Loan.interest_balance l + Loan.principal_balance l))
              = false) by (apply Qltb_ge; exact Hle).
  rewrite E. split; reflexivity.
Qed.

Lemma unflagged_member_deposits_bypass_loan_witness :
  let db' := snd (disburse_loan None true 1 Scenario.db_no_savings) in
  no_active_loan_flag db' 1
  /\ all_ordinary db' 1 [(compulsory, 50000)]
  /\ exists l', ORM.get_loan (deposits db' 1 [(compulsory, 50000)]) 1 = Some l'
                /\ Loan.status l' = active.
Proof.
  cbv zeta.
  destruct (unflagged_member_deposits_bypass_loan None 1 Scenario.db_no_savings
              (snd (disburse_loan None true 1 Scenario.db_no_savings))
              Scenario.approved_loan (disbursed_successfully false))
    as (Hflag & Hds).
  - reflexivity.
  - left. reflexivity.
  - vm_compute. reflexivity.
  - split; [exact Hflag|].
    destruct (Hds [(compulsory, 50000)]) as (Hall & _ & _ & Hact).
    split; [exact Hall|].
    destruct (Hact false eq_refl) as (l' & Hl & Hs & _).
    exists l'. split; assumption.
Defined.

(** C10 as stated fails when the flag is already set.  The member's first
    loan has set it, the deposit behind it has been undone, and the second
    loan is disbursed at a savings balance of zero: the disbursement sets no
    collateral and leaves the flag as it is, and the deposit of 30000 that
    follows is redirected to the loan in full. *)
Lemma stale_flag_redirects_deposit :
  let db' := snd (disburse_loan None true 2 stale_flag) in
  ORM.get_loan stale_flag 2 = Some second_loan
  /\ ORM.get_savings_account stale_flag 1
     = Some (SavingsAccount.mk 1 0 200000 (0 - 200000) true)
  /\ fst (disburse_loan None true 2 stale_flag) = disbursed_successfully false
  /\ ORM.get_savings_account db' 1 = ORM.get_savings_account stale_flag 1
  /\ ~ all_ordinary db' 1 [(compulsory, 30000)]
  /\ balance_of (deposits db' 1 [(compulsory, 30000)]) 1 == 0
  /\ exists r,
      LoanRepayment_objects (deposits db' 1 [(compulsory, 30000)])
      = LoanRepayment_objects db' ++ [r]
      /\ LoanRepayment.loan r = 2%nat
      /\ LoanRepayment.amount r == 30000.
Proof.
  cbv zeta.
  split; [vm_compute; reflexivity|].
  split; [vm_compute; reflexivity|].
  split; [vm_compute; reflexivity|].
  split; [vm_compute; reflexivity|].
  split.
  { intros [(_ & Hr & _) _]. vm_compute in Hr. discriminate. }
  split; [vm_compute; reflexivity|].
  eexists. split; [vm_compute; reflexivity|].
  split; vm_compute; reflexivity.
Qed.

(** ** Balance reconciliation across the call sites *)

(** The dashboard's total is the helper's value on every database. *)
Lemma dashboard_total_is_helper (db : DB) :
  total_cooperative_balance (dashboard_home db) = calculate_cooperative_balance db.
Proof. reflexivity. Qed.

(** When every loan repayment on file is a completed one, the dashboard's
    figures are those of the formula of section 4.4. *)
Lemma dashboard_follows_formula (db : DB) :
  (forall r, In r (LoanRepayment_objects db) -> LoanRepayment.status r = row_completed) ->
  total_cooperative_balance (dashboard_home db) = spec_cooperative_balance db
  /\ available_balance (dashboard_home db) = spec_available_balance db.
Proof.
  intro Hall.
  assert (Hf : filter (fun r => RowStatus_eqb (LoanRepayment.status r) row_completed)
                      (LoanRepayment_objects db) = LoanRepayment_objects db).
  { induction (LoanRepayment_objects db) as [|r rows IH]; [reflexivity|].
    cbn. rewrite (Hall r (or_introl eq_refl)). cbn.
    rewrite IH; [reflexivity|]. intros r' Hr'. apply Hall. right. exact Hr'. }
  unfold spec_available_balance, spec_cooperative_balance. rewrite Hf.
  split; reflexivity.
Qed.

(** C1, on the database of the scenario with 60000 of principal left on a
    loan approved for 100000: savings 700000, interest received 10000.  The
    disbursement pre-check takes off the approved amount of the active loan
    and finds 610000; the dashboard takes off its outstanding principal and
    finds 650000, the value of the formula; the shared helper returns the
    total 710000 and takes nothing off. *)
Theorem available_balance_differs_between_call_sites :
  disburse_loan_available_balance Scenario.db_60000 == 610000
  /\ available_balance (dashboard_home Scenario.db_60000) == 650000
  /\ spec_available_balance Scenario.db_60000 == 650000
  /\ calculate_cooperative_balance Scenario.db_60000 == 710000
  /\ ~ disburse_loan_available_balance Scenario.db_60000
       == available_balance (dashboard_home Scenario.db_60000).
Proof.
  repeat split; try (vm_compute; reflexivity).
  vm_compute. discriminate.
Qed.

(** ** The balance identity of a loan *)

(** The deposit path keeps total_balance = principal_balance +
    interest_balance and keeps both balances from going below zero. *)
Lemma deposit_path_keeps_balance_identity (db : DB) (m : nat) (l : Loan.t)
      (amount : Decimal) (d : option SavingsTransaction.t) (r : LoanRepayment.t) :
  Loan.total_balance l == Loan.interest_balance l + Loan.principal_balance l ->
  0 <= Loan.interest_balance l -> 0 <= Loan.principal_balance l ->
  r_repayment (process_loan_repayment_from_deposit db m l amount d) = Some r ->
  let l' := r_loan (process_loan_repayment_from_deposit db m l amount d) in
  Loan.total_balance l' == Loan.interest_balance l' + Loan.principal_balance l'
  /\ 0 <= Loan.interest_balance l' /\ 0 <= Loan.principal_balance l'.
Proof.
  intros Hinv Hi Hp Hrep. cbv zeta.
  unfold process_loan_repayment_from_deposit in *.
  destruct (ORM.get_savings_account db m) as [a|]; [|discriminate].
  destruct (negb (SavingsAccount.has_active_loan a)); [discriminate|].
  destruct (Qleb amount 0); [discriminate|].
  cbv zeta in *.
  match type of Hrep with
  | r_repayment (if ?c then _ else _) = _ => destruct c
  end; [|discriminate].
  destruct (adjust_deposit _ d _) as [db3 d1].
  match type of Hrep with
  | r_repayment (if ?c then _ else _) = _ => destruct c
  end;
    cbn [r_loan with_balances Loan.total_balance Loan.interest_balance
         Loan.principal_balance clear_collateral];
    set (out := Loan.interest_balance l + Loan.principal_balance l);
    destruct (py_min_spec amount out) as [[H1 ->]|[H1 ->]];
    match goal with
    | |- context [py_min ?x (Loan.interest_balance l)] =>
        destruct (py_min_spec x (Loan.interest_balance l)) as [[H2 ->]|[H2 ->]]
    end;
    match goal with
    | |- context [py_min ?x (Loan.principal_balance l)] =>
        destruct (py_min_spec x (Loan.principal_balance l)) as [[H3 ->]|[H3 ->]]
    end; unfold out in *; repeat split; lra.
Qed.

(** * Further properties of the code around the claims *)
(** ** Withdrawals *)

Lemma truthy_false (d : Decimal) : truthy d = false <-> d == 0.
Proof.
  unfold truthy. rewrite negb_false_iff. apply Qeq_bool_iff.
Qed.

Lemma truthy_true (d : Decimal) : truthy d = true <-> ~ d == 0.
Proof.
  unfold truthy. rewrite negb_true_iff. split.
  - intros E H. apply Qeq_bool_iff in H. congruence.
  - intro H. destruct (Qeq_bool d 0) eqn:E; [|reflexivity].
    apply Qeq_bool_iff in E. contradiction.
Qed.

(** What a processed withdrawal leaves behind. *)
Lemma process_withdrawal_run (minimum_balance : nat -> Decimal) (db db' : DB)
      (member : nat) (amount paid : Decimal) :
  process_withdrawal minimum_balance db member amount = (withdrawal_processed paid, db') ->
  exists a,
    ORM.get_savings_account db member = Some a
    /\ SavingsWithdrawalForm_clean minimum_balance db member amount = None
    /\ paid = amount
    /\ db' = Ledger.add_transaction
               (Transaction.mk expense "Member withdrawal" amount t_completed)
               (ORM.save_savings_account
                  (ORM.save_savings_transaction db
                     (SavingsTransaction.mk (ORM.next_savings_transaction_pk db) member
                        withdrawal amount (SavingsAccount.balance a)
                        (SavingsAccount.balance a - amount) row_completed None false 0 0))
                  (SavingsAccount.mk member (SavingsAccount.balance a - amount)
                     (SavingsAccount.collateral_amount a)
                     (SavingsAccount.balance a - amount - SavingsAccount.collateral_amount a)
                     (SavingsAccount.has_active_loan a))).
Proof.
  unfold process_withdrawal, SavingsWithdrawalForm_save.
  destruct (SavingsWithdrawalForm_clean minimum_balance db member amount) eqn:Hc;
    [discriminate|].
  destruct (ORM.get_savings_account db member) as [a|] eqn:Hget; [|discriminate].
  cbv zeta. intro H. inversion H; subst. exists a.
  pose proof (get_savings_account_member _ _ _ Hget) as Hm.
  split; [reflexivity|]. split; [reflexivity|]. split; [reflexivity|].
  unfold update_available_balance. cbn [SavingsAccount.member SavingsAccount.balance
    SavingsAccount.collateral_amount SavingsAccount.has_active_loan
    SavingsTransaction.balance_after SavingsTransaction.amount].
  rewrite Hm. reflexivity.
Qed.

(** X1.  A withdrawal that is processed takes exactly its amount off the
    balance, leaves the collateral and the loan flag alone, and writes one
    'withdrawal' row and one completed 'expense' ledger row of that amount;
    loans and repayments are untouched.  When the account's available
    balance was in step with its balance and the amount is not zero, the
    balance that is left still covers the collateral. *)
Theorem withdrawal_leaves_collateral_covered (minimum_balance : nat -> Decimal)
        (db db' : DB) (member : nat) (amount paid : Decimal) :
  process_withdrawal minimum_balance db member amount = (withdrawal_processed paid, db') ->
  exists a a',
    ORM.get_savings_account db member = Some a
    /\ ORM.get_savings_account db' member = Some a'
    /\ paid = amount
    /\ SavingsAccount.balance a' == SavingsAccount.balance a - amount
    /\ SavingsAccount.collateral_amount a' = SavingsAccount.collateral_amount a
    /\ SavingsAccount.has_active_loan a' = SavingsAccount.has_active_loan a
    /\ SavingsAccount.available_balance a'
       == SavingsAccount.balance a' - SavingsAccount.collateral_amount a'
    /\ SavingsTransaction_objects db'
       = SavingsTransaction_objects db
         ++ [SavingsTransaction.mk (ORM.next_savings_transaction_pk db) member withdrawal
               amount (SavingsAccount.balance a) (SavingsAccount.balance a - amount)
               row_completed None false 0 0]
    /\ Transaction_objects db'
       = Transaction_objects db
         ++ [Transaction.mk expense "Member withdrawal" amount t_completed]
    /\ Loan_objects db' = Loan_objects db
    /\ LoanRepayment_objects db' = LoanRepayment_objects db
    /\ (SavingsAccount.available_balance a
        == SavingsAccount.balance a - SavingsAccount.collateral_amount a ->
        ~ amount == 0 ->
        SavingsAccount.collateral_amount a' <= SavingsAccount.balance a'
        /\ minimum_balance member <= amount).
Proof.
  intro Hrun.
  destruct (process_withdrawal_run _ _ _ _ _ _ Hrun) as (a & Hget & Hclean & Hpaid & Hdb).
  pose proof (get_savings_account_member _ _ _ Hget) as Hm.
  exists a. eexists.
  split; [exact Hget|].
  split.
  { rewrite Hdb. unfold ORM.get_savings_account.
    cbn [Ledger.add_transaction ORM.save_savings_account SavingsAccount_objects].
    apply find_put_savings_account_at. reflexivity. }
  cbn [SavingsAccount.balance SavingsAccount.collateral_amount
       SavingsAccount.has_active_loan SavingsAccount.available_balance].
  split; [exact Hpaid|]. split; [reflexivity|]. split; [reflexivity|].
  split; [reflexivity|]. split; [reflexivity|].
  split.
  { rewrite Hdb.
    cbn [Ledger.add_transaction ORM.save_savings_account SavingsTransaction_objects].
    apply create_savings_transaction_appends. reflexivity. }
  split; [rewrite Hdb; reflexivity|].
  split; [rewrite Hdb; reflexivity|].
  split; [rewrite Hdb; reflexivity|].
  intros Hav Hnz.
  unfold SavingsWithdrawalForm_clean in Hclean.
  apply truthy_true in Hnz. rewrite Hnz, Hget in Hclean.
  unfold can_withdraw in Hclean.
  destruct (Qleb amount (SavingsAccount.available_balance a)) eqn:E1;
    cbn [negb] in Hclean.
  - apply Qleb_le in E1.
    destruct (Qltb amount (minimum_balance member)) eqn:E2; [discriminate|].
    apply Qltb_ge in E2. split; lra.
  - destruct (SavingsAccount.has_active_loan a); discriminate.
Qed.

Lemma withdrawal_leaves_collateral_covered_witness :
  exists a',
    ORM.get_savings_account
      (snd (process_withdrawal (fun _ => 0) Scenario.db_new_savings 1 150000)) 1 = Some a'
    /\ SavingsAccount.balance a' == 250000
    /\ SavingsAccount.collateral_amount a' == 200000.
Proof.
  destruct (withdrawal_leaves_collateral_covered (fun _ => 0) Scenario.db_new_savings
              (snd (process_withdrawal (fun _ => 0) Scenario.db_new_savings 1 150000))
              1 150000 150000)
    as (a & a' & Ha & Ha' & _ & Hb & Hc & _).
  - vm_compute. reflexivity.
  - exists a'. split; [exact Ha'|].
    assert (a = SavingsAccount.mk 1 400000 200000 200000 true)
      by (vm_compute in Ha; congruence).
    subst a. split; [rewrite Hb; reflexivity | rewrite Hc; reflexivity].
Defined.
(** ** Sums and aggregates *)

Lemma total_cons (x : Decimal) (l : list Decimal) : total (x :: l) = x + total l.
Proof. reflexivity. Qed.

Lemma total_nil : total [] = 0.
Proof. reflexivity. Qed.

Lemma total_app (l l' : list Decimal) : total (l ++ l') == total l + total l'.
Proof.
  induction l as [|x l IH]; cbn [app]; rewrite ?total_cons, ?total_nil.
  - lra.
  - rewrite IH. lra.
Qed.

Lemma py_sum_total (l : list Decimal) : py_sum l == total l.
Proof.
  unfold py_sum.
  assert (H : forall s, fold_left Qplus l s == s + total l).
  { induction l as [|x l IH]; intro s; cbn [fold_left]; rewrite ?total_cons, ?total_nil.
    - lra.
    - rewrite IH. lra. }
  rewrite H. lra.
Qed.

Lemma Sum_acc (col : list (option Decimal)) (s : Decimal) :
  exists s',
    fold_left (fun acc v =>
                 match v, acc with
                 | None, _ => acc
                 | Some d, None => Some d
                 | Some d, Some s => Some (s + d)
                 end) col (Some s) = Some s'
    /\ s' == s + total (map or_zero col).
Proof.
  revert s. induction col as [|v col IH]; intro s;
    cbn [fold_left map]; cbv beta iota; rewrite ?total_cons, ?total_nil.
  - exists s. split; [reflexivity|lra].
  - destruct v as [d|]; cbn [or_zero]; cbv beta iota.
    + destruct (IH (s + d)) as (s' & E & H). exists s'. split; [exact E|]. lra.
    + destruct (IH s) as (s' & E & H). exists s'. split; [exact E|]. lra.
Qed.

Lemma or_else_Sum (col : list (option Decimal)) :
  or_else (Sum col) 0 == total (map or_zero col).
Proof.
  unfold Sum.
  induction col as [|v col IH]; cbn [fold_left map]; cbv beta iota;
    rewrite ?total_cons, ?total_nil.
  - reflexivity.
  - destruct v as [d|]; cbn [or_zero]; cbv beta iota.
    + destruct (Sum_acc col d) as (s' & E & H).
      match goal with
      | |- or_else ?X 0 == _ => replace X with (Some s') by (symmetry; exact E)
      end.
      cbn [or_else].
      destruct (truthy s') eqn:T.
      * lra.
      * apply truthy_false in T. lra.
    + rewrite IH. lra.
Qed.

Lemma or_else_Sum_map {A} (f : A -> Decimal) (l : list A) :
  or_else (Sum (map (fun x => Some (f x)) l)) 0 == total (map f l).
Proof.
  rewrite or_else_Sum, map_map. reflexivity.
Qed.

(** The four call sites in terms of plain sums. *)
Lemma calculate_cooperative_balance_total (db : DB) :
  calculate_cooperative_balance db
  == total (map SavingsAccount.balance (SavingsAccount_objects db))
     + total (map LoanRepayment.interest_amount (LoanRepayment_objects db))
     + total (map Member.registration_fee_amount (regular_members db))
     + (total (map Transaction.amount
                   (filter (fun t => negb (icontains "loan interest" (Transaction.description t)))
                      (filter (fun t => negb (icontains "registration" (Transaction.description t)))
                         (filter is_income (Transaction_objects db)))))
        + total (map SavingsTransaction.amount
                     (filter (fun t =>
                                SavingsType_eqb (SavingsTransaction.transaction_type t) interest
                                && RowStatus_eqb (SavingsTransaction.status t) row_completed)
                             (SavingsTransaction_objects db))))
     - total (map Transaction.amount
                  (filter is_completed_expense (Transaction_objects db))).
Proof.
  unfold calculate_cooperative_balance, sum_savings_balances, sum_repaid_interest,
    sum_registration_fees, sum_savings_interest, sum_completed_expenses.
  cbv zeta.
  rewrite !or_else_Sum_map. reflexivity.
Qed.

Lemma total_put_savings_account (a' : SavingsAccount.t) (rows : list SavingsAccount.t) :
  total (map SavingsAccount.balance (ORM.put_savings_account a' rows))
  == total (map SavingsAccount.balance rows)
     - or_zero (option_map SavingsAccount.balance
                  (find (fun x => Nat.eqb (SavingsAccount.member x) (SavingsAccount.member a'))
                        rows))
     + SavingsAccount.balance a'.
Proof.
  induction rows as [|r rows IH];
    cbn [ORM.put_savings_account map find option_map or_zero];
    rewrite ?total_cons, ?total_nil.
  - lra.
  - destruct (Nat.eqb (SavingsAccount.member r) (SavingsAccount.member a'));
      cbn [map option_map or_zero]; rewrite ?total_cons.
    + lra.
    + rewrite IH. lra.
Qed.

(** ** The ledger postings of a disbursement *)

Lemma bind_Returned_inv {A B} (m : M A) (k : A -> M B) (c c' : Connection) (y : B) :
  bind m k c = Returned y c' ->
  exists x c1, m c = Returned x c1 /\ k x c1 = Returned y c'.
Proof.
  unfold bind. destruct (m c) as [x c1|e c1]; [|discriminate].
  intro H. exists x, c1. split; [reflexivity|exact H].
Qed.

Lemma get_account_code (db : DB) (code : string) (a : Account.t) :
  Ledger.get_account db code = Some a -> Account.code a = code.
Proof.
  unfold Ledger.get_account. intro H. apply find_some in H.
  destruct H as [_ H]. apply String.eqb_eq in H. exact H.
Qed.

Lemma find_put_account_same (a : Account.t) (rows : list Account.t) :
  find (fun x => String.eqb (Account.code x) (Account.code a)) (Ledger.put_account a rows)
  = Some a.
Proof.
  induction rows as [|r rows IH]; cbn.
  - rewrite String.eqb_refl. reflexivity.
  - destruct (String.eqb (Account.code r) (Account.code a)) eqn:E; cbn.
    + rewrite String.eqb_refl. reflexivity.
    + rewrite E. exact IH.
Qed.

Lemma find_put_account_other (a : Account.t) (code : string) (rows : list Account.t) :
  code <> Account.code a ->
  find (fun x => String.eqb (Account.code x) code) (Ledger.put_account a rows)
  = find (fun x => String.eqb (Account.code x) code) rows.
Proof.
  intro Hne. induction rows as [|r rows IH]; cbn.
  - assert (E : String.eqb (Account.code a) code = false)
      by (apply String.eqb_neq; congruence).
    rewrite E. reflexivity.
  - destruct (String.eqb (Account.code r) (Account.code a)) eqn:E; cbn.
    + apply String.eqb_eq in E.
      assert (E1 : String.eqb (Account.code a) code = false)
        by (apply String.eqb_neq; congruence).
      assert (E2 : String.eqb (Account.code r) code = false)
        by (apply String.eqb_neq; congruence).
      rewrite E1, E2. reflexivity.
    + destruct (String.eqb (Account.code r) code); [reflexivity|exact IH].
Qed.

(** A category that is looked up or created leaves accounts, transactions
    and entries alone. *)
Lemma get_or_create_category_ledger (code name ty : string) (c c1 : Connection)
      (cat : AccountCategory.t) :
  get_or_create_category code name ty c = Returned cat c1 ->
  Account_objects (conn_db c1) = Account_objects (conn_db c)
  /\ Transaction_objects (conn_db c1) = Transaction_objects (conn_db c)
  /\ TransactionEntry_objects (conn_db c1) = TransactionEntry_objects (conn_db c).
Proof.
  unfold get_or_create_category, try_except, savepoint, mark_for_rollback_on_error,
    bind, get_db, write, ret, raise.
  cbv beta iota.
  destruct (Ledger.get_category (conn_db c) code) eqn:E.
  - intro H. inversion H; subst. repeat split.
  - destruct (Ledger.category_name_taken (conn_db c) name).
    + cbn [conn_db]. rewrite E. discriminate.
    + intro H. inversion H; subst. repeat split.
Qed.

(** An account that is looked up or created: it carries the code, it is the
    account of that code afterwards, no balance has moved, and the other
    accounts, the transactions and the entries are as before. *)
Lemma get_or_create_account_ledger (code name : string) (cat : AccountCategory.t)
      (c c1 : Connection) (acc : Account.t) :
  get_or_create_account code name cat c = Returned acc c1 ->
  Account.code acc = code
  /\ Ledger.get_account (conn_db c1) code = Some acc
  /\ account_balance (conn_db c1) code = account_balance (conn_db c) code
  /\ (forall code', code' <> code ->
                    Ledger.get_account (conn_db c1) code'
                    = Ledger.get_account (conn_db c) code')
  /\ Transaction_objects (conn_db c1) = Transaction_objects (conn_db c)
  /\ TransactionEntry_objects (conn_db c1) = TransactionEntry_objects (conn_db c).
Proof.
  unfold get_or_create_account, bind, get_db, write, ret. cbv beta iota.
  destruct (Ledger.get_account (conn_db c) code) as [a0|] eqn:E.
  - intro H. inversion H; subst.
    split; [eapply get_account_code; exact E|].
    repeat split. exact E.
  - intro H. inversion H; subst. cbn [conn_db Account.code].
    split; [reflexivity|].
    split.
    { unfold Ledger.get_account.
      cbn [Ledger.save_account Account_objects].
      apply (find_put_account_same (Account.mk code name (AccountCategory.code cat) 0)). }
    split.
    { unfold account_balance. rewrite E. unfold Ledger.get_account.
      cbn [Ledger.save_account Account_objects].
      rewrite (find_put_account_same (Account.mk code name (AccountCategory.code cat) 0)).
      reflexivity. }
    split.
    { intros code' Hne. unfold Ledger.get_account.
      cbn [Ledger.save_account Account_objects].
      apply find_put_account_other. exact Hne. }
    split; reflexivity.
Qed.

Lemma get_account_same_accounts (db db' : DB) (code : string) :
  Account_objects db' = Account_objects db ->
  Ledger.get_account db' code = Ledger.get_account db code.
Proof. intro H. unfold Ledger.get_account. rewrite H. reflexivity. Qed.

(** When the ledger block of the disbursement runs to its end, the
    disbursement is posted. *)
Lemma post_disbursement_posts (fault : option LedgerStep) (loan : Loan.t) (a : Decimal)
      (db : DB) (c' : Connection) :
  post_disbursement fault loan a (mkConnection db false) = Returned tt c' ->
  ledger_posted db (conn_db c') a.
Proof.
  unfold post_disbursement. intro H.
  apply bind_Returned_inv in H. destruct H as (cash & c1 & H1 & H).
  apply bind_Returned_inv in H. destruct H as (coop & c2 & H2 & H).
  apply bind_Returned_inv in H. destruct H as (recv & c3 & H3 & H).
  apply bind_Returned_inv in H. destruct H as (lacc & c4 & H4 & H).
  destruct (get_or_create_category_ledger _ _ _ _ _ _ H1) as (A1 & T1 & N1).
  destruct (get_or_create_account_ledger _ _ _ _ _ _ H2) as (C2 & G2 & B2 & O2 & T2 & N2).
  destruct (get_or_create_category_ledger _ _ _ _ _ _ H3) as (A3 & T3 & N3).
  destruct (get_or_create_account_ledger _ _ _ _ _ _ H4) as (C4 & G4 & B4 & O4 & T4 & N4).
  cbn [conn_db] in A1, T1, N1.
  assert (Hcoop4 : Ledger.get_account (conn_db c4) "COOP001" = Some coop).
  { rewrite O4 by discriminate.
    rewrite (get_account_same_accounts _ _ _ A3). exact G2. }
  assert (Hbal_coop : Account.balance coop = account_balance db "COOP001").
  { unfold account_balance in B2 |- *. rewrite G2 in B2. cbn in B2. rewrite B2.
    rewrite (get_account_same_accounts _ _ _ A1). reflexivity. }
  assert (Hbal_lacc : Account.balance lacc = account_balance db "1200").
  { unfold account_balance in B4 |- *. rewrite G4 in B4. cbn in B4. rewrite B4.
    rewrite (get_account_same_accounts _ _ _ A3).
    rewrite O2 by discriminate.
    rewrite (get_account_same_accounts _ _ _ A1). reflexivity. }
  assert (Hother : forall code, code <> "1200"%string -> code <> "COOP001"%string ->
                                Ledger.get_account (conn_db c4) code
                                = Ledger.get_account db code).
  { intros code Hn1 Hn2. rewrite O4 by exact Hn1.
    rewrite (get_account_same_accounts _ _ _ A3).
    rewrite O2 by exact Hn2.
    apply (get_account_same_accounts _ _ _ A1). }
  assert (HT : Transaction_objects (conn_db c4) = Transaction_objects db)
    by (rewrite T4, T3, T2, T1; reflexivity).
  assert (HN : TransactionEntry_objects (conn_db c4) = TransactionEntry_objects db)
    by (rewrite N4, N3, N2, N1; reflexivity).
  destruct c4 as [db4 nr4]. cbn [conn_db] in *.
  unfold step, mark_for_rollback_on_error, bind, write, get_db, ret, raise in H.
  destruct fault as [[]|]; cbn in H; try discriminate H.
  inversion H; subst c'. clear H.
  unfold ledger_posted. cbn [conn_db].
  cbn [Ledger.save_account Ledger.add_entry Ledger.add_transaction
       Transaction_objects TransactionEntry_objects].
  rewrite HT, HN, C2, C4.
  split; [reflexivity|].
  split; [rewrite <- app_assoc; reflexivity|].
  unfold account_balance at 1 3. unfold Ledger.get_account.
  cbn [Ledger.save_account Ledger.add_entry Ledger.add_transaction Account_objects].
  split.
  { rewrite find_put_account_other by (cbn [Account.code]; discriminate).
    pose proof (find_put_account_same
                  (Account.mk (Account.code lacc) (Account.name lacc)
                     (Account.category lacc) (Account.balance lacc + a))
                  (Account_objects db4)) as F.
    cbn [Account.code] in F. rewrite ?C4, ?C2 in F. rewrite F.
    cbn [option_map or_zero Account.balance]. rewrite Hbal_lacc. reflexivity. }
  split.
  { pose proof (find_put_account_same
                  (Account.mk (Account.code coop) (Account.name coop)
                     (Account.category coop) (Account.balance coop - a))
                  (Ledger.put_account
                     (Account.mk (Account.code lacc) (Account.name lacc)
                        (Account.category lacc) (Account.balance lacc + a))
                     (Account_objects db4))) as F.
    cbn [Account.code] in F. rewrite ?C4, ?C2 in F. rewrite F.
    cbn [option_map or_zero Account.balance]. rewrite Hbal_coop. reflexivity. }
  intros code Hn1 Hn2.
  rewrite find_put_account_other by (cbn [Account.code]; exact Hn2).
  rewrite find_put_account_other by (cbn [Account.code]; exact Hn1).
  apply (Hother code Hn1 Hn2).
Qed.

(** Setting the collateral does not touch the ledger. *)
Lemma set_loan_collateral_ledger (db : DB) (m : nat) (l : Loan.t) :
  Transaction_objects (fst (set_loan_collateral db m l)) = Transaction_objects db
  /\ TransactionEntry_objects (fst (set_loan_collateral db m l)) = TransactionEntry_objects db
  /\ Account_objects (fst (set_loan_collateral db m l)) = Account_objects db.
Proof.
  unfold set_loan_collateral.
  destruct (ORM.get_savings_account db m) as [a|]; [|repeat split].
  destruct (Qltb 0 (SavingsAccount.balance a)); repeat split.
Qed.

(** What a successful disbursement went through. *)
Lemma disburse_loan_success (fault : option LedgerStep) (pk : nat) (db db' : DB) (g : bool) :
  disburse_loan fault true pk db = (disbursed_successfully g, db') ->
  exists loan a c',
    ORM.get_loan db pk = Some loan
    /\ Loan.status loan = approved
    /\ Loan.approved_amount loan = Some a
    /\ a <= disburse_loan_available_balance db
    /\ ~ a == 0
    /\ same_core (disbursed_core db loan a) db'
    /\ post_disbursement fault (disbursed_loan loan a) a
         (mkConnection (disbursed_core db loan a) false) = Returned tt c'
    /\ db' = conn_db c'.
Proof.
  intro Hrun.
  destruct (ORM.get_loan db pk) as [loan|] eqn:Hget.
  2:{ unfold disburse_loan in Hrun. rewrite Hget in Hrun. discriminate. }
  assert (Hst : Loan.status loan = approved).
  { unfold disburse_loan in Hrun. rewrite Hget in Hrun.
    destruct (LoanStatus_eqb (Loan.status loan) approved) eqn:E.
    - destruct (Loan.status loan); try discriminate E. reflexivity.
    - cbn in Hrun. discriminate. }
  pose proof (disburse_loan_cases fault pk db loan Hget Hst) as Hc.
  destruct (Loan.approved_amount loan) as [a|] eqn:Ha;
    [|rewrite Hrun in Hc; discriminate].
  destruct (Qltb (disburse_loan_available_balance db) a) eqn:E1;
    [rewrite Hrun in Hc; discriminate|].
  destruct (negb (truthy a)) eqn:E2; [rewrite Hrun in Hc; discriminate|].
  pose proof (post_disbursement_outcome fault (disbursed_loan loan a) a
                                        (disbursed_core db loan a)) as Hout.
  rewrite categories_clash_disbursed_core in Hout.
  destruct (categories_clash db).
  { destruct Hc as (db1 & Hrun1 & _). rewrite Hrun in Hrun1. discriminate. }
  destruct fault as [s|]; [rewrite Hrun in Hc; discriminate|].
  destruct Hc as (g1 & db1 & Hrun1 & Hcore). rewrite Hrun in Hrun1.
  inversion Hrun1; subst g1 db1. clear Hrun1.
  destruct Hout as (c' & Hpost & Hnr).
  exists loan, a, c'.
  repeat (split; [reflexivity || assumption|]).
  split; [apply Qltb_ge; exact E1|].
  split; [apply truthy_true; apply negb_false_iff; exact E2|].
  split; [exact Hcore|]. split; [exact Hpost|].
  unfold disburse_loan in Hrun. rewrite Hget, Hst in Hrun. cbn [LoanStatus_eqb negb] in Hrun.
  unfold try_except at 1 in Hrun. unfold atomic, disburse_loan_body in Hrun.
  unfold bind, write, get_db, ret, try_except in Hrun.
  cbv beta iota in Hrun. cbn [conn_db needs_rollback] in Hrun.
  rewrite Ha, E1, E2 in Hrun. cbv zeta beta iota in Hrun.
  cbn [conn_db needs_rollback] in Hrun.
  fold (disbursed_loan loan a) in Hrun.
  change (Loan.member (disbursed_loan loan a)) with (Loan.member loan) in Hrun.
  fold (disbursed_core db loan a) in Hrun.
  rewrite Hpost in Hrun. rewrite Hnr in Hrun.
  inversion Hrun. reflexivity.
Qed.

(** X16.  A successful disbursement of a loan approved for a posts it in the
    ledger: one completed 'transfer' transaction of a and its two entries, a
    debit of account 1200 (Loans Receivable) and a credit of account COOP001
    (the main account), both of a; the balance of 1200 goes up by a and that
    of COOP001 goes down by a, so the two balances together are unchanged,
    and no other account is touched. *)
Theorem disbursement_posts_balanced_entries (fault : option LedgerStep) (pk : nat)
        (db db' : DB) (g : bool) :
  disburse_loan fault true pk db = (disbursed_successfully g, db') ->
  exists loan a,
    ORM.get_loan db pk = Some loan
    /\ Loan.approved_amount loan = Some a
    /\ ledger_posted db db' a
    /\ account_balance db' "1200" + account_balance db' "COOP001"
       == account_balance db "1200" + account_balance db "COOP001".
Proof.
  intro Hrun.
  destruct (disburse_loan_success _ _ _ _ _ Hrun)
    as (loan & a & c' & Hget & _ & Ha & _ & _ & _ & Hpost & Hdb).
  exists loan, a. split; [exact Hget|]. split; [exact Ha|].
  apply post_disbursement_posts in Hpost. rewrite <- Hdb in Hpost.
  assert (Hposted : ledger_posted db db' a).
  { destruct Hpost as (P1 & P2 & P3 & P4 & P5).
    unfold ledger_posted, account_balance, Ledger.get_account in *.
    unfold disbursed_core in *.
    rewrite !(proj1 (set_loan_collateral_ledger _ _ _)) in *.
    rewrite !(proj1 (proj2 (set_loan_collateral_ledger _ _ _))) in *.
    rewrite !(proj2 (proj2 (set_loan_collateral_ledger _ _ _))) in *.
    cbn [ORM.save_loan Transaction_objects TransactionEntry_objects Account_objects] in *.
    repeat split; assumption. }
  split; [exact Hposted|].
  destruct Hposted as (_ & _ & P3 & P4 & _). lra.
Qed.

Lemma disbursement_posts_balanced_entries_witness :
  exists loan a,
    ORM.get_loan Scenario.db_approved 1 = Some loan
    /\ Loan.approved_amount loan = Some a
    /\ account_balance (snd (disburse_loan None true 1 Scenario.db_approved)) "1200"
       == a
    /\ account_balance (snd (disburse_loan None true 1 Scenario.db_approved)) "COOP001"
       == - a.
Proof.
  destruct (disbursement_posts_balanced_entries None 1 Scenario.db_approved
              (snd (disburse_loan None true 1 Scenario.db_approved)) false)
    as (loan & a & Hget & Ha & (_ & _ & P3 & P4 & _) & _).
  - vm_compute. reflexivity.
  - exists loan, a. split; [exact Hget|]. split; [exact Ha|].
    split.
    + rewrite P3. unfold account_balance. cbn. lra.
    + rewrite P4. unfold account_balance. cbn. lra.
Defined.

(** X2.  A processed withdrawal of A lowers the cooperative balance of
    [calculate_cooperative_balance] by 2 x A: the member's savings balance goes
    down by A and the completed 'expense' ledger row the form writes is
    subtracted once more. *)
Theorem withdrawal_counts_twice_in_cooperative_balance
        (minimum_balance : nat -> Decimal) (db db' : DB) (member : nat)
        (amount paid : Decimal) :
  process_withdrawal minimum_balance db member amount = (withdrawal_processed paid, db') ->
  calculate_cooperative_balance db' == calculate_cooperative_balance db - 2 * amount.
Proof.
  intro Hrun.
  destruct (process_withdrawal_run _ _ _ _ _ _ Hrun) as (a & Hget & _ & _ & Hdb).
  rewrite !calculate_cooperative_balance_total. subst db'.
  unfold regular_members.
  cbn [Ledger.add_transaction ORM.save_savings_account ORM.save_savings_transaction
       Member_objects SavingsAccount_objects SavingsTransaction_objects
       LoanRepayment_objects Transaction_objects].
  rewrite put_fresh_savings_transaction
    by (intros r Hr; apply pk_lt_next in Hr; cbn [SavingsTransaction.pk]; lia).
  rewrite !filter_app, !map_app, !total_app.
  cbn [filter is_income is_completed_expense Transaction.transaction_type
       Transaction.status SavingsTransaction.transaction_type SavingsType_eqb andb
       map Transaction.amount].
  rewrite total_put_savings_account.
  cbn [SavingsAccount.member SavingsAccount.balance].
  unfold ORM.get_savings_account in Hget. rewrite Hget.
  cbn [option_map or_zero]. rewrite ?total_cons, ?total_nil. lra.
Qed.

Lemma withdrawal_counts_twice_in_cooperative_balance_witness :
  calculate_cooperative_balance Scenario.db_new_savings == 900000
  /\ calculate_cooperative_balance
       (snd (process_withdrawal (fun _ => 0) Scenario.db_new_savings 1 150000))
     == 600000.
Proof.
  split; [vm_compute; reflexivity|].
  rewrite (withdrawal_counts_twice_in_cooperative_balance (fun _ => 0)
             Scenario.db_new_savings _ 1 150000 150000).
  - vm_compute. reflexivity.
  - vm_compute. reflexivity.
Defined.

(** X3.  Once a loan is disbursed to a member whose savings balance is
    above zero, the whole balance is collateral and the available balance is
    zero: every withdrawal of an amount above zero is refused by the form
    with the collateral message, and nothing is written. *)
Theorem disbursement_blocks_withdrawals (fault : option LedgerStep)
        (minimum_balance : nat -> Decimal) (pk : nat) (db db' : DB) (loan : Loan.t)
        (a : SavingsAccount.t) (g : bool) (amount : Decimal) :
  ORM.get_loan db pk = Some loan ->
  ORM.get_savings_account db (Loan.member loan) = Some a ->
  0 < SavingsAccount.balance a ->
  disburse_loan fault true pk db = (disbursed_successfully g, db') ->
  0 < amount ->
  exists available held,
    process_withdrawal minimum_balance db' (Loan.member loan) amount
    = (withdrawal_form_invalid
         (insufficient_available_balance_for_withdrawal available held), db')
    /\ available == 0
    /\ held == SavingsAccount.balance a.
Proof.
  intros Hloan Hget Hbal Hrun Hamt.
  destruct (disburse_loan_success _ _ _ _ _ Hrun)
    as (loan0 & am & _ & Hloan0 & _ & _ & _ & _ & Hcore & _).
  rewrite Hloan in Hloan0. injection Hloan0 as <-.
  destruct Hcore as (_ & Hacc & _).
  pose proof (get_savings_account_member _ _ _ Hget) as Hm.
  assert (Hget' : ORM.get_savings_account db' (Loan.member loan)
                  = Some (SavingsAccount.mk (SavingsAccount.member a)
                            (SavingsAccount.balance a) (SavingsAccount.balance a)
                            (SavingsAccount.balance a - SavingsAccount.balance a) true)).
  { unfold ORM.get_savings_account. rewrite Hacc.
    unfold disbursed_core, set_loan_collateral.
    change (ORM.get_savings_account
              (ORM.save_loan db (disbursed_loan loan am)) (Loan.member loan))
      with (ORM.get_savings_account db (Loan.member loan)).
    rewrite Hget.
    assert (E : Qltb 0 (SavingsAccount.balance a) = true) by (apply Qltb_lt; exact Hbal).
    rewrite E.
    cbn [set_collateral fst ORM.save_savings_transaction ORM.save_savings_account
         SavingsAccount_objects].
    apply find_put_savings_account_at. exact Hm. }
  eexists. eexists.
  split.
  - unfold process_withdrawal, SavingsWithdrawalForm_clean.
    assert (T : truthy amount = true) by (apply truthy_true; lra).
    rewrite T, Hget'. unfold can_withdraw.
    cbn [SavingsAccount.available_balance SavingsAccount.has_active_loan
         SavingsAccount.collateral_amount].
    assert (E : Qleb amount (SavingsAccount.balance a - SavingsAccount.balance a) = false)
      by (apply Qleb_gt; lra).
    rewrite E. cbn [negb]. reflexivity.
  - split; lra.
Qed.

Lemma disbursement_blocks_withdrawals_witness :
  exists available held,
    process_withdrawal (fun _ => 0)
      (snd (disburse_loan None true 1 Scenario.db_approved)) 1 1000
    = (withdrawal_form_invalid
         (insufficient_available_balance_for_withdrawal available held),
       snd (disburse_loan None true 1 Scenario.db_approved))
    /\ available == 0 /\ held == 200000.
Proof.
  apply (disbursement_blocks_withdrawals None (fun _ => 0) 1 Scenario.db_approved
           (snd (disburse_loan None true 1 Scenario.db_approved))
           Scenario.approved_loan (SavingsAccount.mk 1 200000 0 200000 false) false 1000).
  - reflexivity.
  - reflexivity.
  - reflexivity.
  - vm_compute. reflexivity.
  - reflexivity.
Defined.

(** ** Undoing a savings transaction *)

Lemma find_put_savings_transaction (t : SavingsTransaction.t)
      (rows : list SavingsTransaction.t) :
  find (fun x => Nat.eqb (SavingsTransaction.pk x) (SavingsTransaction.pk t))
       (ORM.put_savings_transaction t rows) = Some t.
Proof.
  induction rows as [|r rows IH]; cbn.
  - rewrite Nat.eqb_refl. reflexivity.
  - destruct (Nat.eqb (SavingsTransaction.pk r) (SavingsTransaction.pk t)) eqn:E; cbn.
    + rewrite Nat.eqb_refl. reflexivity.
    + rewrite E. exact IH.
Qed.

(** Deleting the row that was created last gives back the rows there
    were. *)
Lemma delete_created_savings_transaction (db : DB) (t : SavingsTransaction.t) :
  SavingsTransaction.pk t = ORM.next_savings_transaction_pk db ->
  filter (fun r => negb (Nat.eqb (SavingsTransaction.pk r) (SavingsTransaction.pk t)))
         (ORM.put_savings_transaction t (SavingsTransaction_objects db))
  = SavingsTransaction_objects db.
Proof.
  intro Hpk.
  rewrite put_fresh_savings_transaction
    by (intros r Hr; apply pk_lt_next in Hr; lia).
  rewrite filter_app. cbn. rewrite Nat.eqb_refl. cbn. rewrite app_nil_r.
  assert (H : forall r, In r (SavingsTransaction_objects db) ->
                        negb (Nat.eqb (SavingsTransaction.pk r) (SavingsTransaction.pk t))
                        = true).
  { intros r Hr. apply pk_lt_next in Hr. apply negb_true_iff, Nat.eqb_neq. lia. }
  induction (SavingsTransaction_objects db) as [|r rows IH]; [reflexivity|].
  cbn. rewrite (H r (or_introl eq_refl)). rewrite IH; [reflexivity|].
  intros r' Hr'. apply H. right. exact Hr'.
Qed.

(** X4.  What undoing a completed, recent savings transaction does: the
    account's balance goes down by the row's amount for a 'compulsory' or
    'voluntary' row, up by it for a 'withdrawal' row, and stays as it is for
    a row of any other type ('interest', 'penalty', 'loan_repayment',
    'collateral'); the available balance is recomputed, collateral and loan
    flag are kept, the row is deleted, and loans, loan repayments and the
    ledger are not touched.  No check against the collateral is made. *)
Theorem undo_savings_transaction_effect (db : DB) (pk : nat) (t : SavingsTransaction.t)
        (a : SavingsAccount.t) :
  get_savings_transaction db pk = Some t ->
  SavingsTransaction.status t = row_completed ->
  ORM.get_savings_account db (SavingsTransaction.savings_account t) = Some a ->
  let ty := SavingsTransaction.transaction_type t in
  let change :=
    if is_savings_deposit ty then - SavingsTransaction.amount t
    else if SavingsType_eqb ty withdrawal then SavingsTransaction.amount t
    else 0 in
  exists db' a',
    undo_savings_transaction true false pk db = (undo_done, db')
    /\ ORM.get_savings_account db' (SavingsTransaction.savings_account t) = Some a'
    /\ SavingsAccount.balance a' == SavingsAccount.balance a + change
    /\ SavingsAccount.collateral_amount a' = SavingsAccount.collateral_amount a
    /\ SavingsAccount.has_active_loan a' = SavingsAccount.has_active_loan a
    /\ SavingsAccount.available_balance a'
       == SavingsAccount.balance a + change - SavingsAccount.collateral_amount a
    /\ get_savings_transaction db' pk = None
    /\ (forall pk', pk' <> pk ->
                    get_savings_transaction db' pk' = get_savings_transaction db pk')
    /\ Loan_objects db' = Loan_objects db
    /\ LoanRepayment_objects db' = LoanRepayment_objects db
    /\ Transaction_objects db' = Transaction_objects db.
Proof.
  intros Ht Hst Ha. cbv zeta.
  pose proof (get_savings_account_member _ _ _ Ha) as Hm.
  unfold undo_savings_transaction. cbn [negb].
  rewrite Ht, Hst. cbn [RowStatus_eqb negb]. rewrite Ha. cbv zeta.
  eexists. eexists.
  split; [reflexivity|].
  split.
  { unfold ORM.get_savings_account.
    cbn [delete_savings_transaction ORM.save_savings_account SavingsAccount_objects].
    apply find_put_savings_account_at. exact Hm. }
  unfold is_savings_deposit.
  cbn [update_available_balance SavingsAccount.balance SavingsAccount.collateral_amount
       SavingsAccount.has_active_loan SavingsAccount.available_balance].
  split.
  { destruct (existsb _ _); [lra|].
    destruct (SavingsType_eqb _ withdrawal); lra. }
  split; [reflexivity|]. split; [reflexivity|].
  split.
  { destruct (existsb _ _); [lra|].
    destruct (SavingsType_eqb _ withdrawal); lra. }
  unfold get_savings_transaction.
  cbn [delete_savings_transaction ORM.save_savings_account SavingsTransaction_objects].
  split.
  { clear. induction (SavingsTransaction_objects db) as [|r rows IH]; [reflexivity|].
    cbn. destruct (Nat.eqb (SavingsTransaction.pk r) pk) eqn:E; cbn; [exact IH|].
    rewrite E. exact IH. }
  split.
  { intros pk' Hne. clear - Hne.
    induction (SavingsTransaction_objects db) as [|r rows IH]; [reflexivity|].
    cbn. destruct (Nat.eqb (SavingsTransaction.pk r) pk) eqn:E; cbn.
    - apply Nat.eqb_eq in E.
      assert (E' : Nat.eqb (SavingsTransaction.pk r) pk' = false)
        by (apply Nat.eqb_neq; lia).
      rewrite E'. exact IH.
    - destruct (Nat.eqb (SavingsTransaction.pk r) pk'); [reflexivity|exact IH]. }
  repeat split.
Qed.

Lemma undo_savings_transaction_effect_witness :
  exists db' a',
    undo_savings_transaction true false 4 Scenario.db_60000 = (undo_done, db')
    /\ ORM.get_savings_account db' 1 = Some a'
    /\ SavingsAccount.balance a' == 200000
    /\ LoanRepayment_objects db' = LoanRepayment_objects Scenario.db_60000
    /\ get_savings_transaction db' 4 = None.
Proof.
  destruct (undo_savings_transaction_effect Scenario.db_60000 4
              (SavingsTransaction.mk 4 1 loan_repayment 50000 250000 200000 row_completed
                                     (Some 1%nat) true 40000 10000)
              (SavingsAccount.mk 1 200000 200000 0 true))
    as (db' & a' & Hrun & Ha' & Hbal & _ & _ & _ & Hgone & _ & _ & Hrep & _).
  - reflexivity.
  - reflexivity.
  - reflexivity.
  - exists db', a'. split; [exact Hrun|]. split; [exact Ha'|].
    split; [rewrite Hbal; vm_compute; reflexivity|].
    split; [exact Hrep | exact Hgone].
Defined.

(** The deposit of a member without the loan flag, step by step. *)
Lemma deposit_without_flag_run (db : DB) (m : nat) (ty : SavingsType) (A : Decimal) :
  no_active_loan_flag db m ->
  let db0 := fst (get_or_create_savings_account db m) in
  let a := snd (get_or_create_savings_account db m) in
  let t := SavingsTransaction.mk (ORM.next_savings_transaction_pk db) m ty A
             (SavingsAccount.balance a) (SavingsAccount.balance a + A)
             row_completed None false 0 0 in
  SavingsDepositForm_save db m ty A
  = (ORM.save_savings_account (ORM.save_savings_transaction db0 t)
       (SavingsAccount.mk (SavingsAccount.member a) (SavingsAccount.balance a + A)
          (SavingsAccount.collateral_amount a)
          (SavingsAccount.balance a + A - SavingsAccount.collateral_amount a)
          (SavingsAccount.has_active_loan a)), t)
  /\ SavingsAccount.member a = m
  /\ SavingsAccount.has_active_loan a = false
  /\ SavingsAccount.balance a == balance_of db m
  /\ SavingsTransaction_objects db0 = SavingsTransaction_objects db
  /\ Transaction_objects db0 = Transaction_objects db
  /\ Loan_objects db0 = Loan_objects db
  /\ LoanRepayment_objects db0 = LoanRepayment_objects db
  /\ Member_objects db0 = Member_objects db
  /\ SavingsAccount_objects db0 = ORM.put_savings_account a (SavingsAccount_objects db)
  /\ or_zero (option_map SavingsAccount.balance
                (find (fun x => Nat.eqb (SavingsAccount.member x) (SavingsAccount.member a))
                      (SavingsAccount_objects db)))
     == SavingsAccount.balance a.
Proof.
  intro Hflag. cbv zeta.
  unfold SavingsDepositForm_save, get_or_create_savings_account, no_active_loan_flag,
    balance_of in *.
  destruct (ORM.get_savings_account db m) as [a|] eqn:Hget.
  - pose proof (get_savings_account_member _ _ _ Hget) as Hm.
    cbn [fst snd]. cbv beta iota zeta.
    cbn [update_available_balance SavingsAccount.has_active_loan
         SavingsAccount.member SavingsAccount.balance SavingsAccount.collateral_amount
         SavingsTransaction.balance_after].
    rewrite Hflag.
    split; [reflexivity|]. split; [exact Hm|]. split; [reflexivity|].
    split; [reflexivity|]. repeat (split; [reflexivity|]).
    split.
    + unfold ORM.get_savings_account in Hget. clear - Hget Hm.
      induction (SavingsAccount_objects db) as [|r rows IH]; [discriminate|].
      cbn in Hget |- *. rewrite Hm.
      destruct (Nat.eqb (SavingsAccount.member r) m) eqn:E.
      * inversion Hget; subst. reflexivity.
      * f_equal. apply IH. exact Hget.
    + unfold ORM.get_savings_account in Hget. rewrite Hm, Hget. reflexivity.
  - cbn [fst snd]. cbv beta iota zeta.
    cbn [update_available_balance SavingsAccount.has_active_loan
         SavingsAccount.member SavingsAccount.balance SavingsAccount.collateral_amount
         SavingsTransaction.balance_after].
    unfold ORM.get_savings_account in Hget. rewrite Hget.
    cbn [option_map or_zero].
    repeat split; reflexivity.
Qed.

(** X5.  A deposit of a member whose account carries no loan flag,
    followed by the undo of its transaction: the savings transactions are the
    ones there were before; a 'compulsory' or 'voluntary' deposit leaves the
    balance where it was, while an 'interest' deposit, which the deposit form
    also offers, leaves its amount on the balance although its row is
    gone. *)
Theorem undo_reverses_ordinary_deposit (db : DB) (m : nat) (ty : SavingsType)
        (A : Decimal) :
  no_active_loan_flag db m ->
  let db1 := fst (SavingsDepositForm_save db m ty A) in
  let t := snd (SavingsDepositForm_save db m ty A) in
  let r := undo_savings_transaction true false (SavingsTransaction.pk t) db1 in
  fst r = undo_done
  /\ SavingsTransaction_objects (snd r) = SavingsTransaction_objects db
  /\ Loan_objects (snd r) = Loan_objects db
  /\ LoanRepayment_objects (snd r) = LoanRepayment_objects db
  /\ (is_savings_deposit ty = true -> balance_of (snd r) m == balance_of db m)
  /\ (ty = interest -> balance_of (snd r) m == balance_of db m + A).
Proof.
  intro Hflag. cbv zeta.
  destruct (deposit_without_flag_run db m ty A Hflag)
    as (Hrun & Hm & Hf & Hbal & Hrows & _ & Hloans & Hreps & _).
  rewrite Hrun. cbn [fst snd SavingsTransaction.pk].
  set (db0 := fst (get_or_create_savings_account db m)) in *.
  set (a := snd (get_or_create_savings_account db m)) in *.
  set (t := SavingsTransaction.mk _ m ty A _ _ _ _ _ _ _).
  set (a1 := SavingsAccount.mk _ _ _ _ _).
  assert (Hnext : ORM.next_savings_transaction_pk db = ORM.next_savings_transaction_pk db0).
  { unfold ORM.next_savings_transaction_pk. rewrite Hrows. reflexivity. }
  assert (Hpk : SavingsTransaction.pk t = ORM.next_savings_transaction_pk db0)
    by exact Hnext.
  unfold undo_savings_transaction. cbn [negb].
  assert (Hgt : get_savings_transaction
                  (ORM.save_savings_account (ORM.save_savings_transaction db0 t) a1)
                  (ORM.next_savings_transaction_pk db) = Some t).
  { unfold get_savings_transaction.
    cbn [ORM.save_savings_account ORM.save_savings_transaction SavingsTransaction_objects].
    apply (find_put_savings_transaction t). }
  rewrite Hgt.
  cbn [SavingsTransaction.status t RowStatus_eqb negb SavingsTransaction.savings_account].
  assert (Hga : ORM.get_savings_account
                  (ORM.save_savings_account (ORM.save_savings_transaction db0 t) a1) m
                = Some a1).
  { unfold ORM.get_savings_account.
    cbn [ORM.save_savings_account SavingsAccount_objects].
    apply find_put_savings_account_at. exact Hm. }
  rewrite Hga. cbv zeta. cbn [fst snd].
  split; [reflexivity|].
  split.
  { cbn [delete_savings_transaction ORM.save_savings_account ORM.save_savings_transaction
         SavingsTransaction_objects].
    rewrite <- Hrows.
    apply (delete_created_savings_transaction db0 t Hpk). }
  split; [exact Hloans|]. split; [exact Hreps|].
  unfold balance_of at 1 3. unfold ORM.get_savings_account.
  cbn [delete_savings_transaction ORM.save_savings_account SavingsAccount_objects].
  rewrite !find_put_savings_account_at by exact Hm.
  cbn [update_available_balance SavingsAccount.balance a1 t
       SavingsTransaction.transaction_type SavingsTransaction.amount].
  unfold is_savings_deposit.
  split.
  - intro Hty. rewrite Hty. lra.
  - intro Hty. subst ty. cbn [existsb SavingsType_eqb orb]. lra.
Qed.

Lemma undo_reverses_ordinary_deposit_witness :
  no_active_loan_flag Scenario.db_deposited 1
  /\ balance_of
       (snd (undo_savings_transaction true false
               (SavingsTransaction.pk
                  (snd (SavingsDepositForm_save Scenario.db_deposited 1 compulsory 50000)))
               (fst (SavingsDepositForm_save Scenario.db_deposited 1 compulsory 50000)))) 1
     == 200000.
Proof.
  assert (H : no_active_loan_flag Scenario.db_deposited 1) by reflexivity.
  split; [exact H|].
  destruct (undo_reverses_ordinary_deposit Scenario.db_deposited 1 compulsory 50000 H)
    as (_ & _ & _ & _ & Hb & _).
  rewrite (Hb eq_refl). vm_compute. reflexivity.
Defined.

(** X6.  A processed withdrawal followed by the undo of its savings
    transaction: the savings balance and the savings transactions are as
    before the withdrawal, but the completed 'expense' ledger row of the
    withdrawal stays, so the cooperative balance ends lower by the amount. *)
Theorem undo_of_withdrawal_keeps_expense (minimum_balance : nat -> Decimal)
        (db db1 : DB) (member : nat) (amount paid : Decimal) :
  process_withdrawal minimum_balance db member amount = (withdrawal_processed paid, db1) ->
  let r := undo_savings_transaction true false (ORM.next_savings_transaction_pk db) db1 in
  fst r = undo_done
  /\ balance_of (snd r) member == balance_of db member
  /\ SavingsTransaction_objects (snd r) = SavingsTransaction_objects db
  /\ Transaction_objects (snd r)
     = Transaction_objects db
       ++ [Transaction.mk expense "Member withdrawal" amount t_completed]
  /\ calculate_cooperative_balance (snd r) == calculate_cooperative_balance db - amount.
Proof.
  intro Hrun. cbv zeta.
  destruct (process_withdrawal_run _ _ _ _ _ _ Hrun) as (a & Hget & _ & _ & Hdb).
  pose proof (get_savings_account_member _ _ _ Hget) as Hm.
  subst db1.
  set (t := SavingsTransaction.mk (ORM.next_savings_transaction_pk db) member withdrawal
              amount (SavingsAccount.balance a) (SavingsAccount.balance a - amount)
              row_completed None false 0 0).
  set (a1 := SavingsAccount.mk member _ _ _ _).
  unfold undo_savings_transaction. cbn [negb].
  assert (Hgt : get_savings_transaction
                  (Ledger.add_transaction
                     (Transaction.mk expense "Member withdrawal" amount t_completed)
                     (ORM.save_savings_account (ORM.save_savings_transaction db t) a1))
                  (ORM.next_savings_transaction_pk db) = Some t).
  { unfold get_savings_transaction.
    cbn [Ledger.add_transaction ORM.save_savings_account ORM.save_savings_transaction
         SavingsTransaction_objects].
    apply (find_put_savings_transaction t). }
  rewrite Hgt.
  cbn [SavingsTransaction.status t RowStatus_eqb negb SavingsTransaction.savings_account].
  assert (Hga : ORM.get_savings_account
                  (Ledger.add_transaction
                     (Transaction.mk expense "Member withdrawal" amount t_completed)
                     (ORM.save_savings_account (ORM.save_savings_transaction db t) a1))
                  member = Some a1).
  { unfold ORM.get_savings_account.
    cbn [Ledger.add_transaction ORM.save_savings_account SavingsAccount_objects].
    apply find_put_savings_account_at. reflexivity. }
  rewrite Hga. cbv zeta. cbn [fst snd].
  cbn [SavingsTransaction.transaction_type existsb SavingsType_eqb orb].
  match goal with
  | |- context [delete_savings_transaction ?x ?k] =>
      set (db2 := delete_savings_transaction x k)
  end.
  assert (Hrows : SavingsTransaction_objects db2 = SavingsTransaction_objects db).
  { unfold db2.
    cbn [delete_savings_transaction ORM.save_savings_account Ledger.add_transaction
         ORM.save_savings_transaction SavingsTransaction_objects].
    apply (delete_created_savings_transaction db t). reflexivity. }
  assert (Hacc : ORM.get_savings_account db2 member
                 = Some (SavingsAccount.mk member
                           (SavingsAccount.balance a - amount + amount)
                           (SavingsAccount.collateral_amount a)
                           (SavingsAccount.balance a - amount + amount
                            - SavingsAccount.collateral_amount a)
                           (SavingsAccount.has_active_loan a))).
  { unfold db2, ORM.get_savings_account.
    cbn [delete_savings_transaction ORM.save_savings_account SavingsAccount_objects].
    rewrite find_put_savings_account_at by reflexivity. reflexivity. }
  assert (Htot : total (map SavingsAccount.balance (SavingsAccount_objects db2))
                 == total (map SavingsAccount.balance (SavingsAccount_objects db))).
  { unfold db2.
    cbn [delete_savings_transaction ORM.save_savings_account Ledger.add_transaction
         ORM.save_savings_transaction SavingsAccount_objects].
    rewrite !total_put_savings_account.
    rewrite find_put_savings_account_at by reflexivity.
    unfold a1, t.
    cbn [update_available_balance SavingsAccount.member SavingsAccount.balance
         SavingsTransaction.amount SavingsTransaction.transaction_type
         existsb SavingsType_eqb orb].
    unfold ORM.get_savings_account in Hget. rewrite Hget.
    cbn [option_map or_zero SavingsAccount.balance]. lra. }
  split; [reflexivity|].
  split.
  { unfold balance_of. rewrite Hget, Hacc. cbn [SavingsAccount.balance]. lra. }
  split; [exact Hrows|].
  split; [reflexivity|].
  rewrite !calculate_cooperative_balance_total. rewrite Hrows, Htot.
  unfold regular_members.
  change (Member_objects db2) with (Member_objects db).
  change (LoanRepayment_objects db2) with (LoanRepayment_objects db).
  change (Transaction_objects db2)
    with (Transaction_objects db
          ++ [Transaction.mk expense "Member withdrawal" amount t_completed]).
  rewrite !filter_app, !map_app, !total_app.
  cbn [filter is_income is_completed_expense Transaction.transaction_type
       Transaction.status map Transaction.amount].
  rewrite ?total_cons, ?total_nil. lra.
Qed.

Lemma undo_of_withdrawal_keeps_expense_witness :
  calculate_cooperative_balance Scenario.db_new_savings == 900000
  /\ calculate_cooperative_balance
       (snd (undo_savings_transaction true false
               (ORM.next_savings_transaction_pk Scenario.db_new_savings)
               (snd (process_withdrawal (fun _ => 0) Scenario.db_new_savings 1 150000))))
     == 750000.
Proof.
  split; [vm_compute; reflexivity|].
  destruct (undo_of_withdrawal_keeps_expense (fun _ => 0) Scenario.db_new_savings
              (snd (process_withdrawal (fun _ => 0) Scenario.db_new_savings 1 150000))
              1 150000 150000) as (_ & _ & _ & _ & H).
  - vm_compute. reflexivity.
  - rewrite H. vm_compute. reflexivity.
Defined.

(** ** Approval, rejection and the way to disbursement *)


(** Writing a row that the filter rejects over a row that it rejects leaves
    the filtered rows as they are. *)
Lemma filter_put_loan_rejected (p : Loan.t -> bool) (l l' : Loan.t) (rows : list Loan.t) :
  find (fun x => Nat.eqb (Loan.pk x) (Loan.pk l)) rows = Some l ->
  Loan.pk l' = Loan.pk l -> p l = false -> p l' = false ->
  filter p (ORM.put_loan l' rows) = filter p rows.
Proof.
  intros Hfind Hpk Hp Hp'. induction rows as [|r rows IH]; [discriminate|].
  cbn in Hfind |- *. rewrite Hpk.
  destruct (Nat.eqb (Loan.pk r) (Loan.pk l)) eqn:E.
  - inversion Hfind; subst r. cbn. rewrite Hp, Hp'. reflexivity.
  - cbn. rewrite (IH Hfind). reflexivity.
Qed.



(** X8.  A pending loan approved for an amount a above zero, of two
    decimal places as the column holds it, and then disbursed (the pre-check's
    available balance covers a, the ledger categories can be created and no
    write fails) ends active with principal_balance a, interest_balance 10%
    of a rounded to two places and total_balance a + 10% of a rounded to two
    places, the latter two within half a cent of the exact values; the three
    balances of the row are amounts of two places.  The approval leaves the
    pre-check's available balance as it was, and the disbursement never meets
    a missing approved amount. *)
Theorem approval_then_disbursement (db : DB) (pk : nat) (loan : Loan.t) (a : Decimal) :
  ORM.get_loan db pk = Some loan ->
  Loan.status loan = pending ->
  0 < a ->
  two_places a ->
  a <= disburse_loan_available_balance db ->
  categories_clash db = false ->
  exists db1 g db2 l2,
    loan_applications db (approve (Some a)) pk = (application_approved a, db1)
    /\ disburse_loan_available_balance db1 = disburse_loan_available_balance db
    /\ disburse_loan None true pk db1 = (disbursed_successfully g, db2)
    /\ ORM.get_loan db2 pk = Some l2
    /\ Loan.status l2 = active
    /\ Loan.member l2 = Loan.member loan
    /\ Loan.principal_balance l2 == a
    /\ Loan.interest_balance l2 == quantize (a * (10 # 100))
    /\ Loan.total_balance l2 == quantize (a + a * (10 # 100))
    /\ (a * (10 # 100) - (1 # 200) <= Loan.interest_balance l2
        /\ Loan.interest_balance l2 <= a * (10 # 100) + (1 # 200))
    /\ (a + a * (10 # 100) - (1 # 200) <= Loan.total_balance l2
        /\ Loan.total_balance l2 <= a + a * (10 # 100) + (1 # 200))
    /\ (two_places (Loan.principal_balance l2)
        /\ two_places (Loan.interest_balance l2)
        /\ two_places (Loan.total_balance l2)).
Proof.
  intros Hget Hst Ha Htwo Hav Hcl.
  pose proof (get_loan_pk _ _ _ Hget) as Hid.
  set (loan1 := with_status loan (Some a) approved).
  set (db1 := ORM.save_loan db loan1).
  assert (Hrun1 : loan_applications db (approve (Some a)) pk = (application_approved a, db1)).
  { unfold loan_applications. rewrite Hget, Hst. cbn [LoanStatus_eqb].
    assert (E : Qltb 0 a = true) by (apply Qltb_lt; exact Ha).
    rewrite E. reflexivity. }
  assert (Hav1 : disburse_loan_available_balance db1 = disburse_loan_available_balance db).
  { unfold disburse_loan_available_balance, sum_active_approved_amounts, active_loans,
      sum_savings_balances, sum_repaid_interest, sum_registration_fees,
      sum_completed_expenses, regular_members.
    cbn [db1 ORM.save_loan Loan_objects SavingsAccount_objects LoanRepayment_objects
         Member_objects Transaction_objects].
    rewrite (filter_put_loan_rejected _ loan loan1); [reflexivity| | | |].
    - unfold ORM.get_loan in Hget. rewrite Hid. exact Hget.
    - reflexivity.
    - rewrite Hst. reflexivity.
    - reflexivity. }
  assert (Hget1 : ORM.get_loan db1 pk = Some loan1).
  { unfold ORM.get_loan. cbn [db1 ORM.save_loan Loan_objects].
    rewrite <- Hid. apply (find_put_loan loan1). }
  pose proof (disburse_loan_cases None pk db1 loan1 Hget1 eq_refl) as Hc.
  cbn [loan1 with_status Loan.approved_amount] in Hc.
  rewrite Hav1 in Hc.
  assert (E1 : Qltb (disburse_loan_available_balance db) a = false)
    by (apply Qltb_ge; exact Hav).
  assert (E2 : truthy a = true) by (apply truthy_true; lra).
  rewrite E1, E2 in Hc. cbn [negb] in Hc.
  change (categories_clash db1) with (categories_clash db) in Hc.
  rewrite Hcl in Hc.
  destruct Hc as (g & db2 & Hrun2 & Hcore).
  exists db1, g, db2, (disbursed_loan loan1 a).
  split; [exact Hrun1|]. split; [exact Hav1|]. split; [exact Hrun2|].
  split; [eapply get_loan_disbursed_core; eassumption|].
  cbn [disbursed_loan with_balances Loan.status Loan.member Loan.principal_balance
       Loan.interest_balance Loan.total_balance loan1 with_status].
  split; [reflexivity|]. split; [reflexivity|]. split; [reflexivity|].
  split; [reflexivity|]. split; [reflexivity|].
  split; [apply quantize_near|]. split; [apply quantize_near|].
  split; [exact Htwo|]. split; apply quantize_two_places.
Qed.

Lemma approval_then_disbursement_witness :
  exists db1 g db2 l2,
    loan_applications pending_application (approve (Some 100000)) 1
    = (application_approved 100000, db1)
    /\ disburse_loan None true 1 db1 = (disbursed_successfully g, db2)
    /\ ORM.get_loan db2 1 = Some l2
    /\ Loan.status l2 = active
    /\ Loan.total_balance l2 == 110000.
Proof.
  destruct (approval_then_disbursement pending_application 1
              (Loan.mk 1 1 120000 None pending 0 0 0 0) 100000)
    as (db1 & g & db2 & l2 & H1 & _ & H2 & H3 & H4 & _ & _ & _ & H5 & _).
  - reflexivity.
  - reflexivity.
  - reflexivity.
  - vm_compute. reflexivity.
  - vm_compute. discriminate.
  - reflexivity.
  - exists db1, g, db2, l2. repeat (split; [assumption|]).
    rewrite H5. vm_compute. reflexivity.
Defined.

(** X9.  A loan is disbursed at most once: after a successful
    disbursement every further POST for the same loan is answered 'This loan
    cannot be disbursed.' and leaves the database as it is, whatever the
    funds and the state of the ledger. *)
Theorem loan_is_disbursed_once (fault fault' : option LedgerStep) (pk : nat)
        (db db' : DB) (g : bool) :
  disburse_loan fault true pk db = (disbursed_successfully g, db') ->
  disburse_loan fault' true pk db' = (cannot_be_disbursed, db').
Proof.
  intro Hrun.
  destruct (disburse_loan_success _ _ _ _ _ Hrun)
    as (loan & am & _ & Hloan & _ & _ & _ & _ & Hcore & _).
  pose proof (get_loan_disbursed_core db pk loan am db' Hloan Hcore) as Hget'.
  unfold disburse_loan. rewrite Hget'. reflexivity.
Qed.

Lemma loan_is_disbursed_once_witness :
  disburse_loan None true 1 (snd (disburse_loan None true 1 Scenario.db_approved))
  = (cannot_be_disbursed, snd (disburse_loan None true 1 Scenario.db_approved)).
Proof.
  apply (loan_is_disbursed_once None None 1 Scenario.db_approved _ false).
  vm_compute. reflexivity.
Defined.

(** ** The repayment schedule *)

Lemma inject_nat_S (k : nat) : inject_Z (Z.of_nat (S k)) == inject_Z (Z.of_nat k) + 1.
Proof. rewrite Nat2Z.inj_succ. unfold Z.succ. rewrite inject_Z_plus. reflexivity. Qed.

Lemma inject_nat_le (j k : nat) :
  (j <= k)%nat -> inject_Z (Z.of_nat j) <= inject_Z (Z.of_nat k).
Proof. intro H. rewrite <- Zle_Qle. lia. Qed.

Lemma inject_nat_add (j k : nat) :
  inject_Z (Z.of_nat (j + k)) == inject_Z (Z.of_nat j) + inject_Z (Z.of_nat k).
Proof. rewrite Nat2Z.inj_add, inject_Z_plus. reflexivity. Qed.

(** The row a turn of the first loop appends. *)
Lemma interest_phase_turn_row_ok (d : Decimal) (s : ScheduleState) :
  exists row,
    schedule (interest_phase_turn d s) = schedule s ++ [row]
    /\ ScheduleRow.month row = current_month s
    /\ ScheduleRow.remaining_balance row = owed (interest_phase_turn d s)
    /\ row_ok d row.
Proof.
  eexists. split; [reflexivity|]. split; [reflexivity|]. split; [reflexivity|].
  unfold row_ok.
  cbn [ScheduleRow.total_payment ScheduleRow.interest_payment
       ScheduleRow.principal_payment ScheduleRow.interest_phase].
  split; [reflexivity|].
  change (py_min d (remaining_interest s))
    with (if Qltb (remaining_interest s) d then remaining_interest s else d).
  destruct (Qltb (remaining_interest s) d) eqn:E.
  - apply Qltb_lt in E. split.
    + pose proof (py_min_le_l (d - remaining_interest s) (remaining_principal s)). lra.
    + intros _. apply Qltb_ge. lra.
  - apply Qltb_ge in E. split; [lra|]. intro H. lra.
Qed.

Lemma principal_phase_turn_row_ok (d : Decimal) (s : ScheduleState) :
  exists row,
    schedule (principal_phase_turn d s) = schedule s ++ [row]
    /\ ScheduleRow.month row = current_month s
    /\ ScheduleRow.remaining_balance row
       = remaining_principal (principal_phase_turn d s)
    /\ row_ok d row.
Proof.
  eexists. split; [reflexivity|]. split; [reflexivity|]. split; [reflexivity|].
  unfold row_ok.
  cbn [ScheduleRow.total_payment ScheduleRow.interest_payment
       ScheduleRow.principal_payment ScheduleRow.interest_phase].
  split; [lra|]. split; [apply py_min_le_l|]. reflexivity.
Qed.

(** What either loop returns, whatever the deposit: the months it adds are
    numbered on from the month it starts in and stop at 22, every row is
    well formed, the last row shows what the final state owes, and with
    fuel for the months that are left the loop ends because its condition
    fails. *)
Lemma interest_phase_loop_rows (d : Decimal) (fuel : nat) : forall s,
  exists rows,
    schedule (interest_phase_loop fuel d s) = schedule s ++ rows
    /\ current_month (interest_phase_loop fuel d s)
       = (current_month s + List.length rows)%nat
    /\ (rows = [] \/ current_month s + List.length rows <= 23)%nat
    /\ map ScheduleRow.month rows = seq (current_month s) (List.length rows)
    /\ Forall (row_ok d) rows
    /\ ((rows = [] /\ interest_phase_loop fuel d s = s)
        \/ exists rest row,
            rows = rest ++ [row]
            /\ ScheduleRow.remaining_balance row = owed (interest_phase_loop fuel d s))
    /\ ((23 - current_month s <= fuel)%nat ->
        Qltb 0 (remaining_interest (interest_phase_loop fuel d s))
        && Nat.leb (current_month (interest_phase_loop fuel d s)) 22 = false).
Proof.
  induction fuel as [|fuel IH]; intro s.
  - exists []. cbn [interest_phase_loop List.length seq map].
    rewrite app_nil_r, Nat.add_0_r.
    repeat (split; [reflexivity || (left; reflexivity) || apply Forall_nil|]).
    split; [left; split; reflexivity|].
    intro H. assert (E : Nat.leb (current_month s) 22 = false)
      by (apply Nat.leb_gt; lia).
    rewrite E. apply andb_false_r.
  - cbn [interest_phase_loop].
    destruct (Qltb 0 (remaining_interest s) && Nat.leb (current_month s) 22) eqn:C.
    + apply andb_true_iff in C. destruct C as [_ C]. apply Nat.leb_le in C.
      destruct (interest_phase_turn_row_ok d s) as (row1 & Hs1 & Hm1 & Hr1 & Hok1).
      destruct (IH (interest_phase_turn d s))
        as (rows & Hs & Hcm & Hb & Hm & Hok & Hlast & Hexit).
      change (current_month (interest_phase_turn d s)) with (S (current_month s)) in *.
      exists (row1 :: rows). cbn [List.length seq map].
      split; [rewrite Hs, Hs1, <- app_assoc; reflexivity|].
      split; [rewrite Hcm; lia|].
      split; [right; destruct Hb as [->|Hb]; cbn [List.length]; lia|].
      split; [rewrite Hm1, Hm; reflexivity|].
      split; [constructor; assumption|].
      split.
      * right. destruct Hlast as [[-> Heq]|(rest & row & -> & Hrow)].
        -- exists [], row1. split; [reflexivity|]. rewrite Heq. exact Hr1.
        -- exists (row1 :: rest), row. split; [reflexivity|exact Hrow].
      * intro H. apply Hexit. lia.
    + exists []. cbn [List.length seq map]. rewrite app_nil_r, Nat.add_0_r.
      repeat (split; [reflexivity || (left; reflexivity) || apply Forall_nil|]).
      split; [left; split; reflexivity|].
      intros _. exact C.
Qed.

Lemma principal_phase_loop_rows (d : Decimal) (fuel : nat) : forall s,
  exists rows,
    schedule (principal_phase_loop fuel d s) = schedule s ++ rows
    /\ current_month (principal_phase_loop fuel d s)
       = (current_month s + List.length rows)%nat
    /\ (rows = [] \/ current_month s + List.length rows <= 23)%nat
    /\ map ScheduleRow.month rows = seq (current_month s) (List.length rows)
    /\ Forall (row_ok d) rows
    /\ ((rows = [] /\ principal_phase_loop fuel d s = s)
        \/ exists rest row,
            rows = rest ++ [row]
            /\ ScheduleRow.remaining_balance row
               = remaining_principal (principal_phase_loop fuel d s))
    /\ remaining_interest (principal_phase_loop fuel d s) = remaining_interest s
    /\ ((23 - current_month s <= fuel)%nat ->
        Qltb 0 (remaining_principal (principal_phase_loop fuel d s))
        && Nat.leb (current_month (principal_phase_loop fuel d s)) 22 = false).
Proof.
  induction fuel as [|fuel IH]; intro s.
  - exists []. cbn [principal_phase_loop List.length seq map].
    rewrite app_nil_r, Nat.add_0_r.
    repeat (split; [reflexivity || (left; reflexivity) || apply Forall_nil|]).
    split; [left; split; reflexivity|].
    split; [reflexivity|].
    intro H. assert (E : Nat.leb (current_month s) 22 = false)
      by (apply Nat.leb_gt; lia).
    rewrite E. apply andb_false_r.
  - cbn [principal_phase_loop].
    destruct (Qltb 0 (remaining_principal s) && Nat.leb (current_month s) 22) eqn:C.
    + apply andb_true_iff in C. destruct C as [_ C]. apply Nat.leb_le in C.
      destruct (principal_phase_turn_row_ok d s) as (row1 & Hs1 & Hm1 & Hr1 & Hok1).
      destruct (IH (principal_phase_turn d s))
        as (rows & Hs & Hcm & Hb & Hm & Hok & Hlast & Hri & Hexit).
      change (current_month (principal_phase_turn d s)) with (S (current_month s)) in *.
      change (remaining_interest (principal_phase_turn d s))
        with (remaining_interest s) in *.
      exists (row1 :: rows). cbn [List.length seq map].
      split; [rewrite Hs, Hs1, <- app_assoc; reflexivity|].
      split; [rewrite Hcm; lia|].
      split; [right; destruct Hb as [->|Hb]; cbn [List.length]; lia|].
      split; [rewrite Hm1, Hm; reflexivity|].
      split; [constructor; assumption|].
      split.
      * right. destruct Hlast as [[-> Heq]|(rest & row & -> & Hrow)].
        -- exists [], row1. split; [reflexivity|]. rewrite Heq. exact Hr1.
        -- exists (row1 :: rest), row. split; [reflexivity|exact Hrow].
      * split; [exact Hri|]. intro H. apply Hexit. lia.
    + exists []. cbn [List.length seq map]. rewrite app_nil_r, Nat.add_0_r.
      repeat (split; [reflexivity || (left; reflexivity) || apply Forall_nil|]).
      split; [left; split; reflexivity|].
      split; [reflexivity|].
      intros _. exact C.
Qed.

(** More fuel than the months that are left changes nothing. *)
Lemma interest_phase_loop_fuel (d : Decimal) (fuel : nat) : forall fuel' s,
  (23 - current_month s <= fuel)%nat -> (23 - current_month s <= fuel')%nat ->
  interest_phase_loop fuel d s = interest_phase_loop fuel' d s.
Proof.
  induction fuel as [|fuel IH]; intros fuel' s H H'.
  - destruct fuel' as [|fuel']; [reflexivity|]. cbn [interest_phase_loop].
    assert (E : Nat.leb (current_month s) 22 = false) by (apply Nat.leb_gt; lia).
    rewrite E, andb_false_r. reflexivity.
  - destruct fuel' as [|fuel']; cbn [interest_phase_loop].
    + assert (E : Nat.leb (current_month s) 22 = false) by (apply Nat.leb_gt; lia).
      rewrite E, andb_false_r. reflexivity.
    + destruct (Qltb 0 (remaining_interest s) && Nat.leb (current_month s) 22);
        [|reflexivity].
      apply IH; cbn [interest_phase_turn current_month]; lia.
Qed.

Lemma principal_phase_loop_fuel (d : Decimal) (fuel : nat) : forall fuel' s,
  (23 - current_month s <= fuel)%nat -> (23 - current_month s <= fuel')%nat ->
  principal_phase_loop fuel d s = principal_phase_loop fuel' d s.
Proof.
  induction fuel as [|fuel IH]; intros fuel' s H H'.
  - destruct fuel' as [|fuel']; [reflexivity|]. cbn [principal_phase_loop].
    assert (E : Nat.leb (current_month s) 22 = false) by (apply Nat.leb_gt; lia).
    rewrite E, andb_false_r. reflexivity.
  - destruct fuel' as [|fuel']; cbn [principal_phase_loop].
    + assert (E : Nat.leb (current_month s) 22 = false) by (apply Nat.leb_gt; lia).
      rewrite E, andb_false_r. reflexivity.
    + destruct (Qltb 0 (remaining_principal s) && Nat.leb (current_month s) 22);
        [|reflexivity].
      apply IH; cbn [principal_phase_turn current_month]; lia.
Qed.

(** X10.  The repayment schedule has at most 22 rows, numbered 1, 2, ...
    without a gap; 22 turns are enough for both loops, more fuel gives the
    same rows; in every row the total is interest plus principal and is not
    above the member's monthly deposit, and a row that pays principal is
    marked 'Principal Phase': it leaves no interest behind. *)
Theorem repayment_schedule_shape (member : Member.t) (self : Loan.t) :
  let rows := get_repayment_schedule member self in
  (List.length rows <= 22)%nat
  /\ map ScheduleRow.month rows = seq 1 (List.length rows)
  /\ Forall (row_ok (Member.monthly_savings member)) rows
  /\ forall fuel, (22 <= fuel)%nat ->
                  schedule (run_repayment_schedule fuel member self) = rows.
Proof.
  cbv zeta. unfold get_repayment_schedule, run_repayment_schedule.
  set (d := Member.monthly_savings member).
  set (s0 := mkScheduleState [] (total_interest self) (principal self) 1).
  destruct (interest_phase_loop_rows d 22 s0)
    as (rows1 & Hs1 & Hcm1 & Hb1 & Hm1 & Hok1 & _ & _).
  destruct (principal_phase_loop_rows d 22 (interest_phase_loop 22 d s0))
    as (rows2 & Hs2 & Hcm2 & Hb2 & Hm2 & Hok2 & _ & _ & _).
  rewrite Hs2, Hs1. cbn [s0 schedule app]. cbn [s0 current_month] in *.
  rewrite Hcm1 in *.
  split.
  { rewrite length_app. destruct Hb2 as [->|Hb2]; destruct Hb1 as [->|Hb1];
      cbn [List.length] in *; lia. }
  split.
  { rewrite map_app, length_app, seq_app, Hm1, Hm2. reflexivity. }
  split; [apply Forall_app; split; assumption|].
  intros fuel Hfuel.
  rewrite (interest_phase_loop_fuel d fuel 22 s0) by (cbn; lia).
  rewrite (principal_phase_loop_fuel d fuel 22) by (rewrite Hcm1; lia).
  rewrite Hs2, Hs1. reflexivity.
Qed.

(** A turn of the first loop with a deposit above zero: it pays the
    deposit, or all that is owed when that is less. *)
Lemma interest_phase_turn_pays (d : Decimal) (s : ScheduleState) :
  0 < d -> 0 < remaining_interest s -> 0 <= remaining_principal s ->
  0 <= remaining_interest (interest_phase_turn d s)
  /\ 0 <= remaining_principal (interest_phase_turn d s)
  /\ owed (interest_phase_turn d s) <= owed s
  /\ owed s - d <= owed (interest_phase_turn d s)
  /\ (0 < owed (interest_phase_turn d s) -> owed (interest_phase_turn d s) == owed s - d).
Proof.
  intros Hd Hi Hp. unfold owed, interest_phase_turn.
  cbn [remaining_interest remaining_principal].
  change (py_min d (remaining_interest s))
    with (if Qltb (remaining_interest s) d then remaining_interest s else d).
  destruct (Qltb (remaining_interest s) d) eqn:E.
  - apply Qltb_lt in E.
    destruct (py_min_spec (d - remaining_interest s) (remaining_principal s))
      as [[H ->]|[H ->]]; repeat split; try lra.
  - apply Qltb_ge in E. repeat split; lra.
Qed.

Lemma principal_phase_turn_pays (d : Decimal) (s : ScheduleState) :
  0 < d -> 0 < remaining_principal s ->
  0 <= remaining_principal (principal_phase_turn d s)
  /\ remaining_principal (principal_phase_turn d s) <= remaining_principal s
  /\ remaining_principal s - d <= remaining_principal (principal_phase_turn d s)
  /\ (0 < remaining_principal (principal_phase_turn d s) ->
      remaining_principal (principal_phase_turn d s) == remaining_principal s - d).
Proof.
  intros Hd Hp. unfold principal_phase_turn. cbn [remaining_principal].
  destruct (py_min_spec d (remaining_principal s)) as [[H ->]|[H ->]];
    repeat split; lra.
Qed.

(** With a deposit above zero the first loop takes the deposit off what is
    owed month after month, until nothing is owed. *)
Lemma interest_phase_loop_pays (d : Decimal) (fuel : nat) : 0 < d -> forall s,
  0 <= remaining_interest s -> 0 <= remaining_principal s ->
  let s' := interest_phase_loop fuel d s in
  let k := inject_Z (Z.of_nat (current_month s' - current_month s)) in
  (current_month s <= current_month s')%nat
  /\ 0 <= remaining_interest s' /\ 0 <= remaining_principal s'
  /\ owed s' <= owed s
  /\ owed s - k * d <= owed s'
  /\ (0 < owed s' -> owed s' == owed s - k * d).
Proof.
  intro Hd. induction fuel as [|fuel IH]; intros s Hi Hp; cbv zeta.
  - cbn [interest_phase_loop]. rewrite Nat.sub_diag. cbn [Z.of_nat].
    change (inject_Z 0) with 0.
    split; [lia|]. split; [lra|]. split; [lra|]. split; [lra|]. split; [lra|].
    intros _. lra.
  - cbn [interest_phase_loop].
    destruct (Qltb 0 (remaining_interest s) && Nat.leb (current_month s) 22) eqn:C.
    + apply andb_true_iff in C. destruct C as [C _]. apply Qltb_lt in C.
      destruct (interest_phase_turn_pays d s Hd C Hp) as (T1 & T2 & T3 & T4 & T5).
      destruct (IH (interest_phase_turn d s) T1 T2) as (M & I1 & I2 & I3 & I4 & I5).
      change (current_month (interest_phase_turn d s)) with (S (current_month s)) in *.
      set (s' := interest_phase_loop fuel d (interest_phase_turn d s)) in *.
      assert (Hk : inject_Z (Z.of_nat (current_month s' - current_month s))
                   == inject_Z (Z.of_nat (current_month s' - S (current_month s))) + 1).
      { replace (current_month s' - current_month s)%nat
          with (S (current_month s' - S (current_month s))) by lia.
        apply inject_nat_S. }
      rewrite Hk.
      set (k := inject_Z (Z.of_nat (current_month s' - S (current_month s)))) in *.
      split; [lia|]. split; [exact I1|]. split; [exact I2|].
      split; [lra|]. split; [lra|].
      intro Hpos. specialize (I5 Hpos).
      assert (Hpos1 : 0 < owed (interest_phase_turn d s)) by lra.
      specialize (T5 Hpos1). lra.
    + rewrite Nat.sub_diag. cbn [Z.of_nat]. change (inject_Z 0) with 0.
      split; [lia|]. split; [lra|]. split; [lra|]. split; [lra|]. split; [lra|].
      intros _. lra.
Qed.

Lemma principal_phase_loop_pays (d : Decimal) (fuel : nat) : 0 < d -> forall s,
  0 <= remaining_principal s ->
  let s' := principal_phase_loop fuel d s in
  let k := inject_Z (Z.of_nat (current_month s' - current_month s)) in
  (current_month s <= current_month s')%nat
  /\ 0 <= remaining_principal s'
  /\ remaining_principal s' <= remaining_principal s
  /\ remaining_principal s - k * d <= remaining_principal s'
  /\ (0 < remaining_principal s' ->
      remaining_principal s' == remaining_principal s - k * d).
Proof.
  intro Hd. induction fuel as [|fuel IH]; intros s Hp; cbv zeta.
  - cbn [principal_phase_loop]. rewrite Nat.sub_diag. cbn [Z.of_nat].
    change (inject_Z 0) with 0.
    split; [lia|]. split; [lra|]. split; [lra|]. split; [lra|].
    intros _. lra.
  - cbn [principal_phase_loop].
    destruct (Qltb 0 (remaining_principal s) && Nat.leb (current_month s) 22) eqn:C.
    + apply andb_true_iff in C. destruct C as [C _]. apply Qltb_lt in C.
      destruct (principal_phase_turn_pays d s Hd C) as (T1 & T2 & T3 & T4).
      destruct (IH (principal_phase_turn d s) T1) as (M & I1 & I2 & I3 & I4).
      change (current_month (principal_phase_turn d s)) with (S (current_month s)) in *.
      set (s' := principal_phase_loop fuel d (principal_phase_turn d s)) in *.
      assert (Hk : inject_Z (Z.of_nat (current_month s' - current_month s))
                   == inject_Z (Z.of_nat (current_month s' - S (current_month s))) + 1).
      { replace (current_month s' - current_month s)%nat
          with (S (current_month s' - S (current_month s))) by lia.
        apply inject_nat_S. }
      rewrite Hk.
      set (k := inject_Z (Z.of_nat (current_month s' - S (current_month s)))) in *.
      split; [lia|]. split; [exact I1|].
      split; [lra|]. split; [lra|].
      intro Hpos. specialize (I4 Hpos).
      assert (Hpos1 : 0 < remaining_principal (principal_phase_turn d s)) by lra.
      specialize (T4 Hpos1). lra.
    + rewrite Nat.sub_diag. cbn [Z.of_nat]. change (inject_Z 0) with 0.
      split; [lia|]. split; [lra|]. split; [lra|]. split; [lra|].
      intros _. lra.
Qed.

(** Without a deposit above zero the first loop pays nothing off. *)
Lemma interest_phase_loop_without_deposit (d : Decimal) (fuel : nat) : d <= 0 -> forall s,
  0 < remaining_interest s ->
  remaining_interest s <= remaining_interest (interest_phase_loop fuel d s)
  /\ remaining_principal (interest_phase_loop fuel d s) == remaining_principal s.
Proof.
  intro Hd. induction fuel as [|fuel IH]; intros s Hi.
  - cbn [interest_phase_loop]. split; lra.
  - cbn [interest_phase_loop].
    destruct (Qltb 0 (remaining_interest s) && Nat.leb (current_month s) 22);
      [|split; lra].
    assert (E : Qltb (remaining_interest s) d = false) by (apply Qltb_ge; lra).
    assert (H1 : remaining_interest (interest_phase_turn d s) == remaining_interest s - d).
    { unfold interest_phase_turn. cbn [remaining_interest].
      change (py_min d (remaining_interest s))
        with (if Qltb (remaining_interest s) d then remaining_interest s else d).
      rewrite E. lra. }
    assert (H2 : remaining_principal (interest_phase_turn d s) == remaining_principal s).
    { unfold interest_phase_turn. cbn [remaining_principal]. rewrite E. lra. }
    destruct (IH (interest_phase_turn d s)) as (I1 & I2); [lra|].
    split; lra.
Qed.

(** X11.  For a loan with a principal above zero the schedule is not empty,
    and its last row shows a remaining balance of zero exactly when the
    member can repay the principal within 22 months by
    [can_repay_within_22_months]; otherwise the schedule stops after month 22
    with something still owed. *)
Theorem schedule_clears_loan_iff_repayable (member : Member.t) (self : Loan.t) :
  0 < principal self ->
  exists rows row,
    get_repayment_schedule member self = rows ++ [row]
    /\ (List.length rows < 22)%nat
    /\ 0 <= ScheduleRow.remaining_balance row
    /\ (ScheduleRow.remaining_balance row == 0
        <-> can_repay_within_22_months member (principal self) = true)
    /\ (0 < ScheduleRow.remaining_balance row -> List.length rows = 21%nat).
Proof.
  intro HP.
  unfold get_repayment_schedule, run_repayment_schedule.
  set (d := Member.monthly_savings member).
  set (s0 := mkScheduleState [] (total_interest self) (principal self) 1).
  set (s1 := interest_phase_loop 22 d s0).
  set (s2 := principal_phase_loop 22 d s1).
  assert (Hi0 : 0 < remaining_interest s0)
    by (cbn [s0 remaining_interest]; unfold total_interest; lra).
  assert (Hp0 : 0 < remaining_principal s0) by exact HP.
  destruct (interest_phase_loop_rows d 22 s0)
    as (rows1 & Hs1 & Hcm1 & Hb1 & _ & _ & Hlast1 & Hexit1).
  fold s1 in Hs1, Hcm1, Hlast1, Hexit1.
  destruct (principal_phase_loop_rows d 22 s1)
    as (rows2 & Hs2 & Hcm2 & Hb2 & _ & _ & Hlast2 & Hri2 & Hexit2).
  fold s2 in Hs2, Hcm2, Hlast2, Hri2, Hexit2.
  cbn [s0 schedule current_month app] in Hs1, Hcm1, Hb1, Hexit1.
  specialize (Hexit1 ltac:(lia)).
  specialize (Hexit2 ltac:(lia)).
  assert (Hne1 : exists rest1 row1,
             rows1 = rest1 ++ [row1] /\ ScheduleRow.remaining_balance row1 = owed s1).
  { destruct Hlast1 as [[_ Heq]|H]; [|exact H].
    rewrite Heq in Hexit1. cbn [s0 current_month] in Hexit1.
    apply Qltb_lt in Hi0. rewrite Hi0 in Hexit1. discriminate. }
  destruct Hne1 as (rest1 & row1 & Hrows1 & Hrow1).
  assert (Hlen1 : (List.length rows1 = S (List.length rest1))%nat)
    by (rewrite Hrows1, length_app; cbn; lia).
  assert (Hrepay : can_repay_within_22_months member (principal self) = true
                   <-> 0 < d /\ principal self * (10 # 100) + principal self
                                <= 22 * d).
  { unfold can_repay_within_22_months. fold d.
    destruct (Qleb d 0) eqn:E.
    - apply Qleb_le in E. split; [discriminate|]. intros [H _]. lra.
    - apply Qleb_gt in E. cbv zeta. split.
      + intro H. apply Qleb_le in H. split; [exact E|].
        assert (H' : principal self * (110 # 100) <= 22 * d).
        { apply (Qmult_le_r _ _ 22) in H; [|reflexivity].
          field_simplify in H. field_simplify. exact H. }
        lra.
      + intros [_ H]. apply Qleb_le.
        apply (Qmult_le_r _ _ 22); [reflexivity|].
        field_simplify. field_simplify in H. lra. }
  destruct (Qlt_le_dec 0 d) as [Hd|Hd].
  - (* a deposit above zero *)
    destruct (interest_phase_loop_pays d 22 Hd s0 (Qlt_le_weak _ _ Hi0) (Qlt_le_weak _ _ Hp0))
      as (_ & A1 & A2 & A3 & A4 & A5).
    fold s1 in A1, A2, A3, A4, A5.
    destruct (principal_phase_loop_pays d 22 Hd s1 A2) as (_ & B1 & B2 & B3 & B4).
    fold s2 in B1, B2, B3, B4.
    rewrite Hcm1 in A4, A5. rewrite Hcm2 in B3, B4.
    cbn [s0 current_month] in A4, A5.
    replace (1 + List.length rows1 - 1)%nat with (List.length rows1) in A4, A5 by lia.
    replace (current_month s1 + List.length rows2 - current_month s1)%nat
      with (List.length rows2) in B3, B4 by lia.
    assert (HT0 : owed s0 == principal self * (10 # 100) + principal self)
      by (unfold owed; cbn [s0 remaining_interest remaining_principal];
          unfold total_interest; lra).
    set (T0 := owed s0) in *.
    set (k1 := inject_Z (Z.of_nat (List.length rows1))) in *.
    set (k2 := inject_Z (Z.of_nat (List.length rows2))) in *.
    destruct Hlast2 as [[Hnil Heq]|(rest2 & row2 & Hrows2 & Hrow2)].
    + (* the second loop adds no row *)
      exists rest1, row1. rewrite Hs2, Hs1, Hnil, app_nil_r.
      split; [exact Hrows1|].
      assert (Hle : (List.length rows1 <= 22)%nat)
        by (destruct Hb1 as [->|Hb1]; cbn [List.length]; lia).
      split; [lia|].
      rewrite Hrow1. unfold owed at 1.
      split; [lra|].
      assert (Hk1 : k1 <= 22) by (apply (inject_nat_le _ 22); exact Hle).
      assert (Hfull : 0 < owed s1 -> List.length rows1 = 22%nat).
      { intro Hpos. rewrite Heq in Hexit2.
        destruct (Nat.leb (current_month s1) 22) eqn:L.
        - rewrite andb_true_r in Hexit1, Hexit2.
          apply Qltb_ge in Hexit1. apply Qltb_ge in Hexit2.
          unfold owed in Hpos. lra.
        - apply Nat.leb_gt in L. lia. }
      split; [|intro Hpos; specialize (Hfull Hpos); lia].
      rewrite Hrepay. split.
      * intro H0. split; [exact Hd|].
        assert (Hprod : 0 <= (22 - k1) * d) by (apply Qmult_le_0_compat; lra).
        unfold owed in A4, H0. lra.
      * intros [_ Hall].
        destruct (Qlt_le_dec 0 (owed s1)) as [Hpos|Hz];
          [|unfold owed in Hz |- *; lra].
        specialize (A5 Hpos). specialize (Hfull Hpos).
        assert (Hk22 : k1 == 22) by (unfold k1; rewrite Hfull; reflexivity).
        rewrite Hk22 in A5. lra.
    + (* the second loop adds rows: the interest is paid *)
      assert (Hlen2 : (List.length rows2 = S (List.length rest2))%nat)
        by (rewrite Hrows2, length_app; cbn; lia).
      assert (Hcm : (current_month s1 <= 22)%nat)
        by (destruct Hb2 as [E|Hb2]; [rewrite E in Hlen2; discriminate|lia]).
      assert (L : Nat.leb (current_month s1) 22 = true) by (apply Nat.leb_le; exact Hcm).
      rewrite L, andb_true_r in Hexit1. apply Qltb_ge in Hexit1.
      exists (rows1 ++ rest2), row2. rewrite Hs2, Hs1, Hrows2, app_assoc.
      split; [reflexivity|].
      assert (Hle : (List.length rows1 + List.length rows2 <= 22)%nat)
        by (destruct Hb2 as [E|Hb2]; [rewrite E in Hlen2; discriminate|lia]).
      split; [rewrite length_app; lia|].
      rewrite Hrow2.
      split; [exact B1|].
      assert (Hk : k1 + k2 <= 22).
      { unfold k1, k2. rewrite <- inject_nat_add. apply (inject_nat_le _ 22). exact Hle. }
      assert (Hfull : 0 < remaining_principal s2 ->
                      (List.length rows1 + List.length rows2 = 22)%nat).
      { intro Hpos. apply Qltb_lt in Hpos. rewrite Hpos in Hexit2.
        cbn [andb] in Hexit2. apply Nat.leb_gt in Hexit2. lia. }
      split; [|intro Hpos; specialize (Hfull Hpos); rewrite length_app; lia].
      rewrite Hrepay. unfold owed in A3, A4, A5. split.
      * intro H0. split; [exact Hd|].
        assert (Hprod : 0 <= (22 - (k1 + k2)) * d)
          by (apply Qmult_le_0_compat; lra).
        lra.
      * intros [_ Hall].
        destruct (Qlt_le_dec 0 (remaining_principal s2)) as [Hpos|Hz]; [|lra].
        specialize (B4 Hpos).
        assert (Hpos1 : 0 < remaining_interest s1 + remaining_principal s1) by lra.
        specialize (A5 Hpos1). specialize (Hfull Hpos).
        assert (Hk22 : k1 + k2 == 22).
        { unfold k1, k2. rewrite <- inject_nat_add, Hfull. reflexivity. }
        assert (Hprod : (k1 + k2) * d == 22 * d) by (rewrite Hk22; reflexivity).
        lra.
  - (* no deposit above zero *)
    destruct (interest_phase_loop_without_deposit d 22 Hd s0 Hi0) as (N1 & N2).
    fold s1 in N1, N2.
    assert (Hpos : Qltb 0 (remaining_interest s1) = true) by (apply Qltb_lt; lra).
    rewrite Hpos in Hexit1. cbn [andb] in Hexit1. apply Nat.leb_gt in Hexit1.
    assert (Hnil : rows2 = []).
    { destruct Hb2 as [E|Hb2]; [exact E|].
      destruct rows2; [reflexivity|]. cbn [List.length] in Hb2. lia. }
    exists rest1, row1. rewrite Hs2, Hs1, Hnil, app_nil_r.
    split; [exact Hrows1|].
    assert (Hle : (List.length rows1 <= 22)%nat)
      by (destruct Hb1 as [->|Hb1]; cbn [List.length]; lia).
    split; [lia|].
    rewrite Hrow1. unfold owed. cbn [s0 remaining_principal] in N2.
    split; [lra|].
    split; [|intros _; lia].
    rewrite Hrepay. split.
    + intro H0. lra.
    + intros [H _]. lra.
Qed.

Lemma schedule_clears_loan_iff_repayable_witness :
  exists rows row,
    get_repayment_schedule Scenario.member Scenario.approved_loan = rows ++ [row]
    /\ ScheduleRow.remaining_balance row == 0
    /\ List.length rows = 0%nat.
Proof.
  destruct (schedule_clears_loan_iff_repayable Scenario.member Scenario.approved_loan)
    as (rows & row & Hs & _ & _ & Hiff & _).
  - reflexivity.
  - exists rows, row. split; [exact Hs|]. split.
    + apply Hiff. reflexivity.
    + assert (H : List.length (get_repayment_schedule Scenario.member Scenario.approved_loan)
                  = 1%nat) by (vm_compute; reflexivity).
      rewrite Hs, length_app in H. cbn in H. lia.
Defined.

(** ** Eligibility along the operations *)

(** X12.  Eligibility is closed downwards: a member who may apply for an
    amount may apply for every smaller one. *)
Theorem smaller_request_stays_eligible (db : DB) (self : Member.t) (A B : Decimal) :
  B <= A ->
  fst (can_apply_for_loan db self A) = true ->
  fst (can_apply_for_loan db self B) = true.
Proof.
  intro HBA. unfold can_apply_for_loan. cbv zeta.
  set (out := get_outstanding_loan_amount db self).
  set (mx := maximum_loan_amount db self).
  destruct (Qltb mx (out + A)) eqn:E1; [discriminate|].
  destruct (can_repay_within_22_months self A) eqn:E2; cbn [negb]; [|discriminate].
  apply Qltb_ge in E1.
  assert (F1 : Qltb mx (out + B) = false) by (apply Qltb_ge; lra).
  assert (F2 : can_repay_within_22_months self B = true).
  { unfold can_repay_within_22_months in E2 |- *.
    destruct (Qleb (Member.monthly_savings self) 0); [discriminate|].
    cbv zeta in E2 |- *. apply Qleb_le in E2. apply Qleb_le.
    assert (H : B * (110 # 100) / 22 <= A * (110 # 100) / 22).
    { apply Qmult_le_compat_r; [lra|]. discriminate. }
    lra. }
  rewrite F1, F2. cbn [negb]. intro H. exact H.
Qed.

Lemma smaller_request_stays_eligible_witness :
  fst (can_apply_for_loan Scenario.db_deposited Scenario.member 100000) = true.
Proof.
  apply (smaller_request_stays_eligible Scenario.db_deposited Scenario.member
           300000 100000).
  - discriminate.
  - vm_compute. reflexivity.
Defined.

(** The deposits of an account are counted from the rows of its member. *)
Lemma get_total_savings_member (db : DB) (a a' : SavingsAccount.t) :
  SavingsAccount.member a' = SavingsAccount.member a ->
  get_total_savings db a' = get_total_savings db a.
Proof. intro H. unfold get_total_savings. rewrite H. reflexivity. Qed.

(** X13.  A processed withdrawal changes neither the maximum a member may
    borrow nor the answer of [can_apply_for_loan]: the maximum is twice the
    deposits ever made, and a withdrawal is not counted against them. *)
Theorem withdrawal_keeps_borrowing_limit (minimum_balance : nat -> Decimal)
        (db db' : DB) (member : nat) (amount paid : Decimal) (self : Member.t)
        (requested_amount : Decimal) :
  process_withdrawal minimum_balance db member amount = (withdrawal_processed paid, db') ->
  maximum_loan_amount db' self = maximum_loan_amount db self
  /\ can_apply_for_loan db' self requested_amount
     = can_apply_for_loan db self requested_amount.
Proof.
  intro Hrun.
  destruct (process_withdrawal_run _ _ _ _ _ _ Hrun) as (a & Hget & _ & _ & Hdb).
  pose proof (get_savings_account_member _ _ _ Hget) as Hm.
  assert (Hrows : forall acc, get_total_savings db' acc = get_total_savings db acc).
  { intro acc. unfold get_total_savings. rewrite Hdb.
    cbn [Ledger.add_transaction ORM.save_savings_account ORM.save_savings_transaction
         SavingsTransaction_objects].
    rewrite put_fresh_savings_transaction
      by (intros r Hr; apply pk_lt_next in Hr; cbn [SavingsTransaction.pk]; lia).
    rewrite filter_app.
    cbn [filter SavingsTransaction.transaction_type existsb SavingsType_eqb orb].
    rewrite andb_false_r, app_nil_r. reflexivity. }
  assert (Hmax : maximum_loan_amount db' self = maximum_loan_amount db self).
  { unfold maximum_loan_amount.
    destruct (Nat.eq_dec (Member.pk self) member) as [->|Hne].
    - rewrite Hget.
      assert (Hget' : ORM.get_savings_account db' member
                      = Some (SavingsAccount.mk member (SavingsAccount.balance a - amount)
                                (SavingsAccount.collateral_amount a)
                                (SavingsAccount.balance a - amount
                                 - SavingsAccount.collateral_amount a)
                                (SavingsAccount.has_active_loan a))).
      { rewrite Hdb. unfold ORM.get_savings_account.
        cbn [Ledger.add_transaction ORM.save_savings_account SavingsAccount_objects].
        apply find_put_savings_account_at. reflexivity. }
      rewrite Hget', Hrows.
      rewrite (get_total_savings_member db a _); [reflexivity|].
      cbn [SavingsAccount.member]. symmetry. exact Hm.
    - assert (Hget' : ORM.get_savings_account db' (Member.pk self)
                      = ORM.get_savings_account db (Member.pk self)).
      { rewrite Hdb. unfold ORM.get_savings_account.
        cbn [Ledger.add_transaction ORM.save_savings_account ORM.save_savings_transaction
             SavingsAccount_objects].
        apply find_put_savings_account_other. cbn [SavingsAccount.member]. exact Hne. }
      rewrite Hget'.
      destruct (ORM.get_savings_account db (Member.pk self)); [|reflexivity].
      rewrite Hrows. reflexivity. }
  split; [exact Hmax|].
  unfold can_apply_for_loan. rewrite Hmax.
  replace (get_outstanding_loan_amount db' self)
    with (get_outstanding_loan_amount db self) by (rewrite Hdb; reflexivity).
  replace (ORM.filter_loans db' (Member.pk self) [active; approved])
    with (ORM.filter_loans db (Member.pk self) [active; approved])
    by (rewrite Hdb; reflexivity).
  reflexivity.
Qed.

Lemma withdrawal_keeps_borrowing_limit_witness :
  maximum_loan_amount
    (snd (process_withdrawal (fun _ => 0) Scenario.db_deposited 1 200000))
    Scenario.member
  == 400000.
Proof.
  rewrite (proj1 (withdrawal_keeps_borrowing_limit (fun _ => 0) Scenario.db_deposited
                    (snd (process_withdrawal (fun _ => 0) Scenario.db_deposited 1 200000))
                    1 200000 200000 Scenario.member 0 eq_refl)).
  vm_compute. reflexivity.
Defined.

(** X14.  A deposit by a member whose account carries no loan flag raises
    the maximum the member may borrow by twice the amount when its type is
    'compulsory' or 'voluntary', and leaves it as it is for any other type,
    the 'interest' that the deposit form offers included. *)
Theorem deposit_raises_borrowing_limit (db : DB) (self : Member.t) (ty : SavingsType)
        (A : Decimal) (a : SavingsAccount.t) :
  ORM.get_savings_account db (Member.pk self) = Some a ->
  SavingsAccount.has_active_loan a = false ->
  let db1 := fst (SavingsDepositForm_save db (Member.pk self) ty A) in
  maximum_loan_amount db1 self
  == maximum_loan_amount db self + (if is_savings_deposit ty then 2 * A else 0).
Proof.
  intros Hget Hflag. cbv zeta.
  pose proof (get_savings_account_member _ _ _ Hget) as Hm.
  assert (Hnf : no_active_loan_flag db (Member.pk self))
    by (unfold no_active_loan_flag; rewrite Hget; exact Hflag).
  destruct (deposit_without_flag_run db (Member.pk self) ty A Hnf) as (Hrun & _).
  rewrite Hrun. cbn [fst].
  unfold get_or_create_savings_account. rewrite Hget. cbn [fst snd].
  unfold maximum_loan_amount. rewrite Hget.
  unfold ORM.get_savings_account.
  cbn [ORM.save_savings_account SavingsAccount_objects].
  rewrite find_put_savings_account_at by exact Hm.
  unfold get_total_savings.
  cbn [ORM.save_savings_account ORM.save_savings_transaction SavingsTransaction_objects
       SavingsAccount.member].
  rewrite put_fresh_savings_transaction
    by (intros r Hr; apply pk_lt_next in Hr; cbn [SavingsTransaction.pk]; lia).
  rewrite !or_else_Sum_map, filter_app, map_app, total_app.
  cbn [filter SavingsTransaction.savings_account SavingsTransaction.transaction_type].
  rewrite Hm, Nat.eqb_refl. cbn [andb].
  fold (is_savings_deposit ty).
  destruct (is_savings_deposit ty);
    cbn [map SavingsTransaction.amount]; rewrite ?total_cons, ?total_nil; lra.
Qed.

Lemma deposit_raises_borrowing_limit_witness :
  maximum_loan_amount
    (fst (SavingsDepositForm_save Scenario.db_deposited 1 voluntary 50000))
    Scenario.member
  == 500000.
Proof.
  rewrite (deposit_raises_borrowing_limit Scenario.db_deposited Scenario.member voluntary
             50000 (SavingsAccount.mk 1 200000 0 200000 false) eq_refl eq_refl).
  vm_compute. reflexivity.
Defined.

(** The only open loan of a member, written over by a row that is open
    too. *)
Lemma filter_put_only_loan (p : Loan.t -> bool) (l l' : Loan.t) (rows : list Loan.t) :
  find (fun x => Nat.eqb (Loan.pk x) (Loan.pk l)) rows = Some l ->
  filter p rows = [l] ->
  Loan.pk l' = Loan.pk l -> p l' = true ->
  filter p (ORM.put_loan l' rows) = [l'].
Proof.
  intros Hfind Hfil Hpk Hp'. induction rows as [|r rows IH]; [discriminate|].
  cbn in Hfind, Hfil |- *. rewrite Hpk.
  destruct (Nat.eqb (Loan.pk r) (Loan.pk l)) eqn:E.
  - inversion Hfind; subst r. cbn. rewrite Hp'.
    destruct (p l) eqn:Hpl; [|exfalso].
    + inversion Hfil as [H]. rewrite H. reflexivity.
    + assert (H : In l (filter p rows)) by (rewrite Hfil; left; reflexivity).
      apply filter_In in H. destruct H as [_ H]. congruence.
  - cbn. destruct (p r) eqn:Hr.
    + inversion Hfil; subst r. rewrite Nat.eqb_refl in E. discriminate.
    + apply IH; assumption.
Qed.

(** X15.  After the disbursement of a member's only open loan, approved
    for an amount of at least one cent (the least amount above zero that the
    column holds), [can_apply_for_loan] refuses the member whatever amount is
    requested: the interest is owed in full, so less than 85% of what was
    borrowed is repaid.  The total that is owed is the rounded one of the
    row. *)
Theorem fresh_borrower_is_not_eligible (fault : option LedgerStep) (pk : nat)
        (db db' : DB) (loan : Loan.t) (a : Decimal) (g : bool) (self : Member.t)
        (requested_amount : Decimal) :
  ORM.get_loan db pk = Some loan ->
  Loan.approved_amount loan = Some a ->
  1 # 100 <= a ->
  Member.pk self = Loan.member loan ->
  ORM.filter_loans db (Loan.member loan) [active; approved] = [loan] ->
  disburse_loan fault true pk db = (disbursed_successfully g, db') ->
  fst (can_apply_for_loan db' self requested_amount) = false.
Proof.
  intros Hloan Ham Ha Hself Honly Hrun.
  pose proof (get_loan_pk _ _ _ Hloan) as Hid.
  destruct (disburse_loan_success _ _ _ _ _ Hrun)
    as (loan0 & a0 & _ & Hloan0 & _ & Ham0 & _ & _ & Hcore & _).
  rewrite Hloan in Hloan0. injection Hloan0 as <-.
  rewrite Ham in Ham0. injection Ham0 as <-.
  destruct Hcore as (_ & _ & _ & Hloans & _).
  assert (Hopen : ORM.filter_loans db' (Member.pk self) [active; approved]
                  = [disbursed_loan loan a]).
  { unfold ORM.filter_loans. rewrite Hloans, Hself.
    unfold disbursed_core.
    rewrite (proj1 (set_loan_collateral_loans _ _ _)).
    cbn [ORM.save_loan Loan_objects].
    apply (filter_put_only_loan _ loan).
    - unfold ORM.get_loan in Hloan. rewrite Hid. exact Hloan.
    - exact Honly.
    - reflexivity.
    - cbn. rewrite Nat.eqb_refl. reflexivity. }
  unfold can_apply_for_loan. cbv zeta.
  unfold get_outstanding_loan_amount. rewrite Hopen.
  cbn [map py_sum fold_left outstanding_balance disbursed_loan with_balances
       Loan.status Loan.total_balance Loan.approved_amount Loan.requested_amount
       existsb LoanStatus_eqb orb negb or_else].
  rewrite Ham. cbn [or_else].
  assert (T : truthy a = true) by (apply truthy_true; lra).
  rewrite T.
  destruct (Qltb (maximum_loan_amount db' self) _); [reflexivity|].
  destruct (negb (can_repay_within_22_months self requested_amount)); [reflexivity|].
  pose proof (quantize_near (a + a * (10 # 100))) as [Hnear _].
  set (owed := quantize (a + a * (10 # 100))) in *.
  assert (E1 : Qltb 0 (0 + owed) = true) by (apply Qltb_lt; lra).
  rewrite E1.
  assert (E2 : Qltb 0 (0 + a) = true) by (apply Qltb_lt; lra).
  rewrite E2.
  assert (E3 : Qltb ((0 + a - (0 + owed)) / (0 + a) * 100) 85 = true).
  { apply Qltb_lt.
    assert (H : (0 + a - (0 + owed)) / (0 + a) < 85 # 100)
      by (apply Qlt_shift_div_r; lra).
    lra. }
  rewrite E3. reflexivity.
Qed.

Lemma fresh_borrower_is_not_eligible_witness :
  fst (can_apply_for_loan (snd (disburse_loan None true 1 Scenario.db_approved))
                          Scenario.member 1000) = false.
Proof.
  apply (fresh_borrower_is_not_eligible None 1 Scenario.db_approved _
           Scenario.approved_loan 100000 false).
  - reflexivity.
  - reflexivity.
  - vm_compute. discriminate.
  - reflexivity.
  - reflexivity.
  - vm_compute. reflexivity.
Defined.

(** ** How the operations move the balances of the dashboard *)

Lemma total_filter_put_loan (f : Loan.t -> Decimal) (p : Loan.t -> bool)
      (l l' : Loan.t) (rows : list Loan.t) :
  find (fun x => Nat.eqb (Loan.pk x) (Loan.pk l)) rows = Some l ->
  Loan.pk l' = Loan.pk l ->
  total (map f (filter p (ORM.put_loan l' rows)))
  == total (map f (filter p rows))
     - (if p l then f l else 0) + (if p l' then f l' else 0).
Proof.
  intros Hfind Hpk. induction rows as [|r rows IH]; [discriminate|].
  cbn [find ORM.put_loan] in Hfind |- *. rewrite Hpk.
  destruct (Nat.eqb (Loan.pk r) (Loan.pk l)) eqn:E.
  - inversion Hfind; subst r. cbn [filter].
    destruct (p l), (p l'); cbn [map]; rewrite ?total_cons; lra.
  - cbn [filter]. destruct (p r); cbn [map]; rewrite ?total_cons, (IH Hfind); lra.
Qed.

(** The available balance of the dashboard and of the disbursement
    pre-check in terms of plain sums. *)
Lemma dashboard_available_balance_total (db : DB) :
  available_balance (dashboard_home db)
  == calculate_cooperative_balance db
     - total (map Loan.principal_balance (active_loans db)).
Proof.
  change (available_balance (dashboard_home db))
    with (calculate_cooperative_balance db
          - py_sum (map Loan.principal_balance (active_loans db))).
  rewrite py_sum_total. reflexivity.
Qed.

Lemma disburse_loan_available_balance_total (db : DB) :
  disburse_loan_available_balance db
  == total (map SavingsAccount.balance (SavingsAccount_objects db))
     - total (map (fun l => or_zero (Loan.approved_amount l)) (active_loans db))
     + total (map LoanRepayment.interest_amount (LoanRepayment_objects db))
     + total (map Member.registration_fee_amount (regular_members db))
     + total (map Transaction.amount
                  (filter (fun t => negb (icontains "registration" (Transaction.description t)))
                     (filter is_income (Transaction_objects db))))
     - total (map Transaction.amount
                  (filter is_completed_expense (Transaction_objects db))).
Proof.
  unfold disburse_loan_available_balance, sum_savings_balances, sum_repaid_interest,
    sum_registration_fees, sum_completed_expenses, sum_active_approved_amounts.
  cbv zeta.
  rewrite !or_else_Sum_map, or_else_Sum, map_map. reflexivity.
Qed.

(** Locking the collateral keeps every savings balance and adds no
    'interest' row. *)
Lemma set_loan_collateral_sums (db : DB) (m : nat) (l : Loan.t) :
  total (map SavingsAccount.balance
             (SavingsAccount_objects (fst (set_loan_collateral db m l))))
  == total (map SavingsAccount.balance (SavingsAccount_objects db))
  /\ filter (fun t =>
               SavingsType_eqb (SavingsTransaction.transaction_type t) interest
               && RowStatus_eqb (SavingsTransaction.status t) row_completed)
            (SavingsTransaction_objects (fst (set_loan_collateral db m l)))
     = filter (fun t =>
                 SavingsType_eqb (SavingsTransaction.transaction_type t) interest
                 && RowStatus_eqb (SavingsTransaction.status t) row_completed)
              (SavingsTransaction_objects db)
  /\ Member_objects (fst (set_loan_collateral db m l)) = Member_objects db.
Proof.
  unfold set_loan_collateral.
  destruct (ORM.get_savings_account db m) as [a|] eqn:Hget;
    [|split; [reflexivity|split; reflexivity]].
  destruct (Qltb 0 (SavingsAccount.balance a));
    [|split; [reflexivity|split; reflexivity]].
  pose proof (get_savings_account_member _ _ _ Hget) as Hm.
  cbn [set_collateral fst ORM.save_savings_transaction ORM.save_savings_account
       SavingsAccount_objects SavingsTransaction_objects Member_objects
       update_available_balance SavingsAccount.member SavingsAccount.balance].
  split.
  { rewrite total_put_savings_account. unfold update_available_balance.
    cbn [SavingsAccount.member SavingsAccount.balance].
    unfold ORM.get_savings_account in Hget. rewrite Hm, Hget.
    cbn [option_map or_zero]. lra. }
  split; [|reflexivity].
  rewrite put_fresh_savings_transaction.
  - rewrite filter_app. cbn. rewrite app_nil_r. reflexivity.
  - intros r Hr. apply (pk_lt_next db) in Hr.
    unfold ORM.next_savings_transaction_pk in *.
    cbn [SavingsTransaction.pk ORM.save_savings_account SavingsTransaction_objects] in *.
    lia.
Qed.

(** X17.  A successful disbursement of a loan approved for a leaves the
    cooperative balance as it is and lowers by exactly a both the available
    balance of the dashboard and the available balance of the pre-check of
    [disburse_loan]; the latter stays at zero or above. *)
Theorem disbursement_lowers_available_balance (fault : option LedgerStep) (pk : nat)
        (db db' : DB) (g : bool) :
  disburse_loan fault true pk db = (disbursed_successfully g, db') ->
  exists loan a,
    ORM.get_loan db pk = Some loan
    /\ Loan.approved_amount loan = Some a
    /\ calculate_cooperative_balance db' == calculate_cooperative_balance db
    /\ available_balance (dashboard_home db')
       == available_balance (dashboard_home db) - a
    /\ disburse_loan_available_balance db'
       == disburse_loan_available_balance db - a
    /\ 0 <= disburse_loan_available_balance db'.
Proof.
  intro Hrun.
  destruct (disburse_loan_success _ _ _ _ _ Hrun)
    as (loan & a & c' & Hget & Hst & Ha & Hav & _ & Hcore & Hpost & Hdb).
  exists loan, a. split; [exact Hget|]. split; [exact Ha|].
  pose proof (get_loan_pk _ _ _ Hget) as Hid.
  apply post_disbursement_posts in Hpost. rewrite <- Hdb in Hpost.
  destruct Hpost as (HT & _).
  destruct Hcore as (HM & HA & HS & HL & HR).
  destruct (set_loan_collateral_sums (ORM.save_loan db (disbursed_loan loan a))
                                     (Loan.member loan) (disbursed_loan loan a))
    as (S1 & S2 & S3).
  fold (disbursed_core db loan a) in S1, S2, S3.
  cbn [ORM.save_loan SavingsAccount_objects SavingsTransaction_objects Member_objects]
    in S1, S2, S3.
  assert (HL' : Loan_objects db' = ORM.put_loan (disbursed_loan loan a) (Loan_objects db)).
  { rewrite HL. unfold disbursed_core.
    rewrite (proj1 (set_loan_collateral_loans _ _ _)). reflexivity. }
  assert (HR' : LoanRepayment_objects db' = LoanRepayment_objects db).
  { rewrite HR. unfold disbursed_core.
    rewrite (proj1 (proj2 (set_loan_collateral_loans _ _ _))). reflexivity. }
  assert (HT' : Transaction_objects db'
                = Transaction_objects db
                  ++ [Transaction.mk transfer "Loan disbursement" a t_completed]).
  { rewrite HT. unfold disbursed_core.
    rewrite (proj1 (set_loan_collateral_ledger _ _ _)). reflexivity. }
  assert (Hfind : find (fun x => Nat.eqb (Loan.pk x) (Loan.pk loan)) (Loan_objects db)
                  = Some loan)
    by (unfold ORM.get_loan in Hget; rewrite Hid; exact Hget).
  assert (Hcoop : calculate_cooperative_balance db' == calculate_cooperative_balance db).
  { rewrite !calculate_cooperative_balance_total. unfold regular_members.
    rewrite HM, HA, HS, HR', HT', S1, S2, S3.
    rewrite !filter_app. cbn [filter is_income is_completed_expense
                                Transaction.transaction_type Transaction.status].
    rewrite !app_nil_r. reflexivity. }
  assert (Hprin : total (map Loan.principal_balance (active_loans db'))
                  == total (map Loan.principal_balance (active_loans db)) + a).
  { unfold active_loans. rewrite HL'.
    rewrite (total_filter_put_loan _ _ loan) by (exact Hfind || reflexivity).
    rewrite Hst. cbn. lra. }
  assert (Happ : total (map (fun l => or_zero (Loan.approved_amount l)) (active_loans db'))
                 == total (map (fun l => or_zero (Loan.approved_amount l))
                               (active_loans db)) + a).
  { unfold active_loans. rewrite HL'.
    rewrite (total_filter_put_loan _ _ loan) by (exact Hfind || reflexivity).
    rewrite Hst. cbn. rewrite Ha. cbn. lra. }
  assert (Hpre : disburse_loan_available_balance db'
                 == disburse_loan_available_balance db - a).
  { rewrite !disburse_loan_available_balance_total. unfold regular_members.
    rewrite Happ.
    rewrite HM, HA, HR', HT', S1, S3.
    rewrite !filter_app. cbn [filter is_income is_completed_expense
                                Transaction.transaction_type Transaction.status].
    rewrite !app_nil_r. lra. }
  split; [exact Hcoop|].
  split; [rewrite !dashboard_available_balance_total, Hcoop, Hprin; lra|].
  split; [exact Hpre|].
  rewrite Hpre. lra.
Qed.

Lemma disbursement_lowers_available_balance_witness :
  available_balance (dashboard_home Scenario.db_approved) == 700000
  /\ available_balance
       (dashboard_home (snd (disburse_loan None true 1 Scenario.db_approved)))
     == 600000.
Proof.
  split; [vm_compute; reflexivity|].
  destruct (disbursement_lowers_available_balance None 1 Scenario.db_approved
              (snd (disburse_loan None true 1 Scenario.db_approved)) false)
    as (loan & a & Hget & Ha & _ & H & _).
  - vm_compute. reflexivity.
  - rewrite H. vm_compute in Hget. injection Hget as <-.
    injection Ha as <-. vm_compute. reflexivity.
Defined.

(** X18.  A deposit of A by a member whose account carries no loan flag
    raises the cooperative balance by A, and by 2 x A when its type is
    'interest': the amount is then on the savings balance and is counted once
    more as savings interest income. *)
Theorem deposit_raises_cooperative_balance (db : DB) (m : nat) (ty : SavingsType)
        (A : Decimal) :
  no_active_loan_flag db m ->
  let db1 := fst (SavingsDepositForm_save db m ty A) in
  calculate_cooperative_balance db1
  == calculate_cooperative_balance db + (if SavingsType_eqb ty interest then 2 * A else A).
Proof.
  intro Hflag. cbv zeta.
  destruct (deposit_without_flag_run db m ty A Hflag)
    as (Hrun & Hm & _ & _ & Hrows & Htx & _ & Hreps & Hmem & Hacc & Hbal).
  rewrite Hrun. cbn [fst].
  set (db0 := fst (get_or_create_savings_account db m)) in *.
  set (a := snd (get_or_create_savings_account db m)) in *.
  rewrite !calculate_cooperative_balance_total. unfold regular_members.
  cbn [ORM.save_savings_account ORM.save_savings_transaction
       Member_objects SavingsAccount_objects SavingsTransaction_objects
       LoanRepayment_objects Transaction_objects].
  rewrite Hmem, Hreps, Htx, Hacc, Hrows.
  rewrite put_fresh_savings_transaction
    by (intros r Hr; apply pk_lt_next in Hr; cbn [SavingsTransaction.pk]; lia).
  rewrite filter_app, map_app, total_app.
  rewrite !total_put_savings_account.
  cbn [SavingsAccount.member SavingsAccount.balance].
  rewrite find_put_savings_account_at by reflexivity.
  cbn [option_map or_zero filter SavingsTransaction.transaction_type
       SavingsTransaction.status RowStatus_eqb].
  rewrite andb_true_r.
  destruct (SavingsType_eqb ty interest);
    cbn [map SavingsTransaction.amount]; rewrite ?total_cons, ?total_nil; lra.
Qed.

Lemma deposit_raises_cooperative_balance_witness :
  calculate_cooperative_balance Scenario.db_deposited == 200000
  /\ calculate_cooperative_balance
       (fst (SavingsDepositForm_save Scenario.db_deposited 1 interest 50000))
     == 300000.
Proof.
  split; [vm_compute; reflexivity|].
  rewrite (deposit_raises_cooperative_balance Scenario.db_deposited 1 interest 50000).
  - vm_compute. reflexivity.
  - reflexivity.
Defined.

(** X19.  A 'compulsory' or 'voluntary' deposit of A > 0 by a member under
    an active loan (flag set, total_balance above zero, something owed on the
    two balances, neither of them below zero) raises the cooperative balance by
    A less the loan portion plus the interest part.  While the loan stays
    active the available balance of the dashboard rises by exactly A, whatever
    part of the deposit is redirected to the loan.  When the repayment
    completes the loan, the available balance rises by A plus the principal
    that is still on the loan's row, the loan being no longer counted; that
    principal is zero, and the rise exactly A, when total_balance =
    interest_balance + principal_balance. *)
Theorem deposit_under_loan_raises_available_balance (db : DB) (m : nat)
        (ty : SavingsType) (A : Decimal) (a : SavingsAccount.t) (l : Loan.t) :
  deposit_under_active_loan db m a l ->
  ORM.get_loan db (Loan.pk l) = Some l ->
  0 <= Loan.interest_balance l -> 0 <= Loan.principal_balance l ->
  0 < A ->
  is_savings_deposit ty = true ->
  let db' := fst (SavingsDepositForm_save db m ty A) in
  let loan_portion := Qmin A (Loan.interest_balance l + Loan.principal_balance l) in
  let interest_part := Qmin loan_portion (Loan.interest_balance l) in
  let principal_part := loan_portion - interest_part in
  calculate_cooperative_balance db'
  == calculate_cooperative_balance db + (A - loan_portion) + interest_part
  /\ (0 < Loan.total_balance l - loan_portion ->
      available_balance (dashboard_home db')
      == available_balance (dashboard_home db) + A)
  /\ (Loan.total_balance l - loan_portion <= 0 ->
      available_balance (dashboard_home db')
      == available_balance (dashboard_home db) + A
         + (Loan.principal_balance l - principal_part))
  /\ (Loan.total_balance l == Loan.interest_balance l + Loan.principal_balance l ->
      available_balance (dashboard_home db')
      == available_balance (dashboard_home db) + A).
Proof.
  intros (Hget & Hflag & Hfirst & Hinv & Hout) Hpk Hi Hp HA Hty. cbv zeta.
  pose proof (get_savings_account_member _ _ _ Hget) as Hm.
  assert (Hact : Loan.status l = active).
  { apply first_by_application_date_In in Hfirst.
    unfold ORM.filter_loans in Hfirst. apply filter_In in Hfirst.
    destruct Hfirst as [_ H]. apply andb_true_iff in H. destruct H as [_ H].
    cbn in H. destruct (Loan.status l); try discriminate H. reflexivity. }
  assert (Hfind : find (fun x => Nat.eqb (Loan.pk x) (Loan.pk l)) (Loan_objects db)
                  = Some l) by exact Hpk.
  rewrite <- !py_min_Qmin.
  set (lp := py_min A (Loan.interest_balance l + Loan.principal_balance l)).
  set (ip := py_min lp (Loan.interest_balance l)).
  set (pp := py_min (lp - ip) (Loan.principal_balance l)).
  assert (Hlp : 0 < lp /\ lp <= A
                /\ lp <= Loan.interest_balance l + Loan.principal_balance l
                /\ (lp == A \/ lp == Loan.interest_balance l + Loan.principal_balance l)).
  { unfold lp.
    destruct (py_min_spec A (Loan.interest_balance l + Loan.principal_balance l))
      as [[H ->]|[H ->]].
    - split; [lra|]. split; [lra|]. split; [lra|]. right. lra.
    - split; [lra|]. split; [lra|]. split; [lra|]. left. lra. }
  assert (Hsplit : ip + pp == lp /\ 0 <= ip /\ 0 <= pp
                   /\ (lp == Loan.interest_balance l + Loan.principal_balance l ->
                       pp == Loan.principal_balance l)).
  { destruct Hlp as (L1 & L2 & L3 & _). unfold pp, ip.
    destruct (py_min_spec lp (Loan.interest_balance l)) as [[H1 ->]|[H1 ->]];
      match goal with
      | |- context [py_min ?x (Loan.principal_balance l)] =>
          destruct (py_min_spec x (Loan.principal_balance l)) as [[H3 ->]|[H3 ->]]
      end;
      (split; [lra|]); (split; [lra|]); (split; [lra|]); intro; lra. }
  unfold SavingsDepositForm_save, get_or_create_savings_account.
  rewrite Hget. cbv beta iota zeta.
  set (t0 := SavingsTransaction.mk (ORM.next_savings_transaction_pk db) m ty A
               (SavingsAccount.balance a) (SavingsAccount.balance a + A)
               row_completed None false 0 0).
  set (a1 := update_available_balance _).
  set (db2 := ORM.save_savings_account (ORM.save_savings_transaction db t0) a1).
  assert (Hf1 : SavingsAccount.has_active_loan a1 = true) by exact Hflag.
  rewrite Hf1.
  change (ORM.filter_loans db2 m [active]) with (ORM.filter_loans db m [active]).
  rewrite Hfirst.
  assert (E : Qltb 0 (Loan.total_balance l) = true) by (apply Qltb_lt; lra).
  rewrite E.
  assert (Hget2 : ORM.get_savings_account db2 m = Some a1).
  { unfold ORM.get_savings_account, db2. cbn [ORM.save_savings_account SavingsAccount_objects].
    apply find_put_savings_account_at. exact Hm. }
  change (SavingsTransaction.amount t0) with A.
  unfold process_loan_repayment_from_deposit.
  rewrite Hget2, Hf1. cbn [negb].
  assert (E0 : Qleb A 0 = false) by (apply Qleb_gt; exact HA).
  rewrite E0. cbv zeta. fold lp. fold ip. fold pp.
  assert (E1 : Qltb 0 lp = true) by (apply Qltb_lt; tauto).
  rewrite E1.
  unfold adjust_deposit.
  change (existsb (SavingsType_eqb (SavingsTransaction.transaction_type t0))
                  [compulsory; voluntary]) with (is_savings_deposit ty).
  rewrite Hty.
  assert (Hrows0 : SavingsTransaction_objects db2 = SavingsTransaction_objects db ++ [t0]).
  { apply (create_savings_transaction_appends db t0). reflexivity. }
  assert (Hfresh : forall r, In r (SavingsTransaction_objects db) ->
                             SavingsTransaction.pk r <> SavingsTransaction.pk t0).
  { intros r Hr. apply pk_lt_next in Hr. cbn. lia. }
  set (rt := SavingsTransaction.mk (ORM.next_savings_transaction_pk db2) _ loan_repayment
               lp _ _ row_completed _ true pp ip).
  assert (Hrt : ORM.put_savings_transaction rt (SavingsTransaction_objects db2)
                = SavingsTransaction_objects db ++ [t0; rt]).
  { rewrite put_fresh_savings_transaction.
    - rewrite Hrows0, <- app_assoc. reflexivity.
    - intros r Hr. apply (pk_lt_next db2) in Hr. cbn [rt SavingsTransaction.pk]. lia. }
  set (t1 := SavingsTransaction.mk (SavingsTransaction.pk t0) _ _ (A - lp) _ _ _ _ _ _ _).
  assert (Hfinal : ORM.put_savings_transaction t1
                     (ORM.put_savings_transaction t1
                        (ORM.put_savings_transaction rt (SavingsTransaction_objects db2)))
                   = SavingsTransaction_objects db ++ [t1; rt]).
  { rewrite Hrt.
    rewrite (put_over_savings_transaction t0 t1) by (auto || reflexivity).
    rewrite (put_over_savings_transaction t1 t1) by (auto || reflexivity).
    reflexivity. }
  assert (Hinterest :
            filter (fun t =>
                      SavingsType_eqb (SavingsTransaction.transaction_type t) interest
                      && RowStatus_eqb (SavingsTransaction.status t) row_completed)
                   (SavingsTransaction_objects db ++ [t1; rt])
            = filter (fun t =>
                        SavingsType_eqb (SavingsTransaction.transaction_type t) interest
                        && RowStatus_eqb (SavingsTransaction.status t) row_completed)
                     (SavingsTransaction_objects db)).
  { rewrite filter_app.
    cbn [filter t1 rt t0 SavingsTransaction.transaction_type SavingsType_eqb andb].
    assert (Hni : SavingsType_eqb ty interest = false)
      by (destruct ty; try discriminate Hty; reflexivity).
    rewrite Hni. cbn [andb]. apply app_nil_r. }
  assert (Haccounts :
            forall x3 x2 : SavingsAccount.t,
              SavingsAccount.member x3 = m -> SavingsAccount.member x2 = m ->
              total (map SavingsAccount.balance
                         (ORM.put_savings_account x3
                            (ORM.put_savings_account x2
                               (ORM.put_savings_account a1 (SavingsAccount_objects db)))))
              == total (map SavingsAccount.balance (SavingsAccount_objects db))
                 - SavingsAccount.balance a + SavingsAccount.balance x3).
  { intros x3 x2 H3 H2.
    rewrite !total_put_savings_account.
    rewrite H3, H2.
    rewrite !find_put_savings_account_at by (exact H2 || exact Hm).
    change (SavingsAccount.member a1) with (SavingsAccount.member a).
    unfold ORM.get_savings_account in Hget. rewrite Hm, Hget.
    cbn [option_map or_zero]. lra. }
  assert (Haccounts2 :
            forall x2 : SavingsAccount.t,
              SavingsAccount.member x2 = m ->
              total (map SavingsAccount.balance
                         (ORM.put_savings_account x2
                            (ORM.put_savings_account a1 (SavingsAccount_objects db))))
              == total (map SavingsAccount.balance (SavingsAccount_objects db))
                 - SavingsAccount.balance a + SavingsAccount.balance x2).
  { intros x2 H2.
    rewrite !total_put_savings_account.
    rewrite H2.
    rewrite !find_put_savings_account_at by exact Hm.
    change (SavingsAccount.member a1) with (SavingsAccount.member a).
    unfold ORM.get_savings_account in Hget. rewrite Hm, Hget.
    cbn [option_map or_zero]. lra. }
  rewrite !dashboard_available_balance_total.
  destruct (Qleb (Loan.total_balance l - lp) 0) eqn:Edone;
    cbn [r_success r_deposit r_db fst snd clear_collateral];
    rewrite !calculate_cooperative_balance_total; unfold regular_members, active_loans;
    cbn [ORM.save_savings_transaction ORM.save_savings_account ORM.save_loan
         ORM.create_loan_repayment Member_objects SavingsAccount_objects
         SavingsTransaction_objects Loan_objects LoanRepayment_objects
         Transaction_objects];
    change (Member_objects db2) with (Member_objects db);
    change (Loan_objects db2) with (Loan_objects db);
    change (LoanRepayment_objects db2) with (LoanRepayment_objects db);
    change (Transaction_objects db2) with (Transaction_objects db);
    change (SavingsAccount_objects db2)
      with (ORM.put_savings_account a1 (SavingsAccount_objects db));
    fold rt; fold t1;
    rewrite Hfinal, Hinterest;
    rewrite !map_app, !total_app;
    rewrite !(total_filter_put_loan _ _ l) by (exact Hfind || reflexivity);
    cbn [with_balances Loan.status Loan.principal_balance LoanStatus_eqb];
    rewrite Hact; cbn [LoanStatus_eqb map LoanRepayment.interest_amount];
    rewrite ?total_cons, ?total_nil.
  - apply Qleb_le in Edone.
    rewrite Haccounts by (reflexivity || exact Hm).
    cbn [update_available_balance SavingsAccount.balance a1 t0
         SavingsTransaction.balance_after].
    destruct Hlp as (L1 & L2 & L3 & L4). destruct Hsplit as (S1 & S2 & S3 & S4).
    split; [lra|]. split; [intro; lra|]. split; [intros _; lra|].
    intro Hid.
    assert (Hall : lp == Loan.interest_balance l + Loan.principal_balance l) by lra.
    specialize (S4 Hall). lra.
  - apply Qleb_gt in Edone.
    rewrite Haccounts2 by exact Hm.
    cbn [update_available_balance SavingsAccount.balance a1 t0
         SavingsTransaction.balance_after].
    destruct Hlp as (L1 & L2 & L3 & L4). destruct Hsplit as (S1 & S2 & S3 & S4).
    split; [lra|]. split; [intros _; lra|]. split; [intro; lra|]. intros _; lra.
Qed.

(** A deposit of 50000 against the loan of 110000 raises the available
    balance by 50000; a deposit of 110000.16 that completes the loan stored
    with total 110000.16 and principal and interest of 110000.17 raises it by
    110000.17. *)
Lemma deposit_under_loan_raises_available_balance_witness :
  (available_balance (dashboard_home Scenario.db_active) == 600000
   /\ available_balance
        (dashboard_home
           (fst (SavingsDepositForm_save Scenario.db_active 1 compulsory 50000)))
      == 650000)
  /\ available_balance
       (dashboard_home
          (fst (SavingsDepositForm_save odd_cents_active 1 compulsory (11000016 # 100))))
     == available_balance (dashboard_home odd_cents_active) + (11000017 # 100).
Proof.
  split.
  - split; [vm_compute; reflexivity|].
    destruct (deposit_under_loan_raises_available_balance Scenario.db_active 1 compulsory
                50000 (SavingsAccount.mk 1 200000 200000 0 true) Scenario.active_loan)
      as (_ & H & _).
    + repeat split; vm_compute; reflexivity.
    + reflexivity.
    + discriminate.
    + discriminate.
    + reflexivity.
    + reflexivity.
    + rewrite H by (vm_compute; reflexivity). vm_compute. reflexivity.
  - destruct (deposit_under_loan_raises_available_balance odd_cents_active 1 compulsory
                (11000016 # 100) (SavingsAccount.mk 1 200000 200000 0 true)
                (disbursed_loan loan_of_odd_cents (10000015 # 100)))
      as (_ & _ & H & _).
    + repeat split; vm_compute; reflexivity.
    + vm_compute. reflexivity.
    + vm_compute. discriminate.
    + vm_compute. discriminate.
    + reflexivity.
    + reflexivity.
    + rewrite H by (vm_compute; discriminate). vm_compute. reflexivity.
Defined.

(** ** The chart of accounts and the receiver of new transactions *)

Lemma bind_Returned {A B} (m : M A) (k : A -> M B) (c c1 : Connection) (x : A) :
  m c = Returned x c1 -> bind m k c = k x c1.
Proof. intro H. unfold bind. rewrite H. reflexivity. Qed.

Lemma bind_Raised {A B} (m : M A) (k : A -> M B) (c c1 : Connection) (e : Exception) :
  m c = Raised e c1 -> bind m k c = Raised e c1.
Proof. intro H. unfold bind. rewrite H. reflexivity. Qed.

Lemma get_or_create_category_creates (code name ty : string) (c : Connection) :
  Ledger.get_category (conn_db c) code = None ->
  Ledger.category_name_taken (conn_db c) name = false ->
  get_or_create_category code name ty c
  = Returned (AccountCategory.mk code name ty)
             (mkConnection (Ledger.add_category (AccountCategory.mk code name ty) (conn_db c))
                           (needs_rollback c)).
Proof.
  intros Hc Hn.
  unfold get_or_create_category, try_except, savepoint, mark_for_rollback_on_error,
    bind, get_db, write, ret, raise.
  cbv beta iota. rewrite Hc, Hn. reflexivity.
Qed.

Lemma bind_create_category {B} (code name ty : string) (k : AccountCategory.t -> M B)
      (c : Connection) :
  Ledger.get_category (conn_db c) code = None ->
  Ledger.category_name_taken (conn_db c) name = false ->
  bind (get_or_create_category code name ty) k c
  = k (AccountCategory.mk code name ty)
      (mkConnection (Ledger.add_category (AccountCategory.mk code name ty) (conn_db c))
                    (needs_rollback c)).
Proof.
  intros Hc Hn. apply bind_Returned. apply get_or_create_category_creates; assumption.
Qed.

Lemma get_or_create_category_clash (code name ty : string) (c : Connection) :
  Ledger.get_category (conn_db c) code = None ->
  Ledger.category_name_taken (conn_db c) name = true ->
  get_or_create_category code name ty c
  = Raised IntegrityError (mkConnection (conn_db c) false).
Proof.
  intros Hc Hn.
  unfold get_or_create_category, try_except, savepoint, mark_for_rollback_on_error,
    bind, get_db, write, ret, raise.
  cbv beta iota. rewrite Hc, Hn. cbn [conn_db]. rewrite Hc. reflexivity.
Qed.

Lemma get_or_create_category_finds (code name ty : string) (c : Connection)
      (cat : AccountCategory.t) :
  Ledger.get_category (conn_db c) code = Some cat ->
  get_or_create_category code name ty c = Returned cat c.
Proof.
  intro Hc.
  unfold get_or_create_category, bind, get_db, ret. cbv beta iota. rewrite Hc. reflexivity.
Qed.

(** Looking an account up or creating it always goes through and leaves the
    categories alone. *)
Lemma get_or_create_account_returns (code name : string) (cat : AccountCategory.t)
      (c : Connection) :
  exists acc c',
    get_or_create_account code name cat c = Returned acc c'
    /\ AccountCategory_objects (conn_db c') = AccountCategory_objects (conn_db c)
    /\ needs_rollback c' = needs_rollback c.
Proof.
  unfold get_or_create_account, bind, get_db, write, ret. cbv beta iota.
  destruct (Ledger.get_account (conn_db c) code) as [a0|].
  - exists a0, c. repeat split.
  - eexists. eexists. split; [reflexivity|]. split; reflexivity.
Qed.

Lemma create_accounts_returns (l : list (string * string * AccountCategory.t)) :
  forall c,
    exists c',
      for_each l (fun '(code, name, category) =>
                    get_or_create_account code name category ;;; ret tt) c
      = Returned tt c'
      /\ AccountCategory_objects (conn_db c') = AccountCategory_objects (conn_db c)
      /\ needs_rollback c' = needs_rollback c.
Proof.
  induction l as [|[[code name] cat] l IH]; intro c; cbn [for_each].
  - exists c. repeat split.
  - destruct (get_or_create_account_returns code name cat c) as (acc & c1 & H1 & A1 & N1).
    destruct (IH c1) as (c' & H & A & N).
    exists c'. split.
    + rewrite (bind_Returned _ _ c c1 tt).
      * exact H.
      * rewrite (bind_Returned _ _ c c1 acc H1). reflexivity.
    + split; [rewrite A, A1; reflexivity | rewrite N, N1; reflexivity].
Qed.

(** The categories of a chart of accounts set up on an empty one. *)
Lemma setup_accounts_handle_run (db : DB) :
  AccountCategory_objects db = [] ->
  exists c1,
    setup_accounts_handle (mkConnection db false) = Returned tt c1
    /\ needs_rollback c1 = false
    /\ AccountCategory_objects (conn_db c1)
       = [AccountCategory.mk "1" "Assets" "asset";
          AccountCategory.mk "2" "Liabilities" "liability";
          AccountCategory.mk "3" "Equity" "equity";
          AccountCategory.mk "4" "Income" "income";
          AccountCategory.mk "5" "Expenses" "expense"].
Proof.
  intro Hempty. unfold setup_accounts_handle.
  do 5 (rewrite bind_create_category;
        [ cbn [conn_db needs_rollback]
        | unfold Ledger.get_category;
          cbn [conn_db Ledger.add_category AccountCategory_objects];
          rewrite Hempty; reflexivity
        | unfold Ledger.category_name_taken;
          cbn [conn_db Ledger.add_category AccountCategory_objects];
          rewrite Hempty; reflexivity ]).
  match goal with
  | |- exists c1, for_each ?l ?body ?c = _ /\ _ =>
      destruct (create_accounts_returns l c) as (c1 & H & A & N)
  end.
  exists c1. split; [exact H|]. split; [exact N|].
  rewrite A. cbn [conn_db Ledger.add_category AccountCategory_objects].
  rewrite Hempty. reflexivity.
Qed.

(** X20.  On a chart of accounts that [setup_accounts] has set up from an
    empty category table, the receiver of new transactions raises
    [IntegrityError] for every completed income or expense transaction and
    posts nothing: the command stores 'Income' and 'Expenses' under the codes
    4 and 5, the receiver asks for the codes 4000 and 5000 and cannot create
    them under names that are taken. *)
Theorem receiver_fails_after_setup_accounts (db : DB) (pk : nat) (instance : Transaction.t) :
  AccountCategory_objects db = [] ->
  Transaction.status instance = t_completed ->
  Transaction.transaction_type instance <> transfer ->
  exists c1,
    setup_accounts_handle (mkConnection db false) = Returned tt c1
    /\ create_transaction_entries pk instance true c1
       = Raised IntegrityError (mkConnection (conn_db c1) false).
Proof.
  intros Hempty Hst Hty.
  destruct (setup_accounts_handle_run db Hempty) as (c1 & Hrun & Hnr & Hcats).
  exists c1. split; [exact Hrun|].
  unfold create_transaction_entries. rewrite Hst. cbn [andb]. unfold atomic.
  assert (H1 : get_or_create_category "1000" "Cash and Bank" "asset" c1
               = Returned (AccountCategory.mk "1000" "Cash and Bank" "asset")
                   (mkConnection
                      (Ledger.add_category
                         (AccountCategory.mk "1000" "Cash and Bank" "asset") (conn_db c1))
                      (needs_rollback c1))).
  { apply get_or_create_category_creates.
    - unfold Ledger.get_category. rewrite Hcats. reflexivity.
    - unfold Ledger.category_name_taken. rewrite Hcats. reflexivity. }
  rewrite (bind_Returned _ _ _ _ _ H1).
  destruct (get_or_create_account_returns "COOP001" "Cooperative Main Account"
              (AccountCategory.mk "1000" "Cash and Bank" "asset")
              (mkConnection
                 (Ledger.add_category
                    (AccountCategory.mk "1000" "Cash and Bank" "asset") (conn_db c1))
                 (needs_rollback c1)))
    as (coop & c2 & H2 & A2 & N2).
  rewrite (bind_Returned _ _ _ _ _ H2).
  cbn [conn_db Ledger.add_category AccountCategory_objects] in A2.
  rewrite Hcats in A2. cbn [app] in A2.
  assert (Hraise : forall code name ty,
             Ledger.get_category (conn_db c2) code = None ->
             Ledger.category_name_taken (conn_db c2) name = true ->
             forall (k : AccountCategory.t -> M unit) (k' : M unit),
               bind (bind (get_or_create_category code name ty) k) (fun _ => k') c2
               = Raised IntegrityError (mkConnection (conn_db c2) false)).
  { intros code name ty Hc Hn k k'.
    apply bind_Raised. apply bind_Raised.
    apply get_or_create_category_clash; assumption. }
  destruct (Transaction.transaction_type instance); [| |contradiction Hty; reflexivity].
  - rewrite Hraise; [reflexivity| |].
    + unfold Ledger.get_category. rewrite A2. reflexivity.
    + unfold Ledger.category_name_taken. rewrite A2. reflexivity.
  - rewrite Hraise; [reflexivity| |].
    + unfold Ledger.get_category. rewrite A2. reflexivity.
    + unfold Ledger.category_name_taken. rewrite A2. reflexivity.
Qed.

Lemma receiver_fails_after_setup_accounts_witness :
  exists c1,
    setup_accounts_handle (mkConnection empty_db false) = Returned tt c1
    /\ create_transaction_entries 0 (Transaction.mk income "Donation" 5000 t_completed)
                                  true c1
       = Raised IntegrityError (mkConnection (conn_db c1) false).
Proof.
  apply (receiver_fails_after_setup_accounts empty_db 0
           (Transaction.mk income "Donation" 5000 t_completed)).
  - reflexivity.
  - reflexivity.
  - discriminate.
Defined.

(** ** The books the receiver keeps *)

Lemma find_app_l {A} (p : A -> bool) (l l' : list A) :
  find p (l ++ l') = match find p l with Some x => Some x | None => find p l' end.
Proof.
  induction l as [|x l IH]; [reflexivity|]. cbn. destruct (p x); [reflexivity|exact IH].
Qed.

Lemma find_none_not_in {A} (p : A -> bool) (l : list A) (x : A) :
  find p l = None -> In x l -> p x = false.
Proof. intros H Hin. exact (find_none p l H x Hin). Qed.

(** In a ledger of the receiver's making a category is known by its
    code. *)
Lemma receiver_category_found (db : DB) (code name ty : string) :
  (forall c, In c (AccountCategory_objects db) -> receiver_category c) ->
  receiver_category (AccountCategory.mk code name ty) ->
  Ledger.get_category db code <> None ->
  Ledger.get_category db code = Some (AccountCategory.mk code name ty).
Proof.
  intros Hall Hrc Hsome. unfold Ledger.get_category in *.
  destruct (find _ (AccountCategory_objects db)) as [x|] eqn:E; [|contradiction].
  apply find_some in E. destruct E as [Hin Hcode].
  apply String.eqb_eq in Hcode. specialize (Hall x Hin). f_equal.
  destruct Hall as [-> | [-> | ->]]; cbn in Hcode; subst code;
    destruct Hrc as [H|[H|H]]; congruence.
Qed.

Lemma receiver_category_step (code name ty : string) (c : Connection) :
  receiver_category (AccountCategory.mk code name ty) ->
  (forall x, In x (AccountCategory_objects (conn_db c)) -> receiver_category x) ->
  exists c1,
    get_or_create_category code name ty c = Returned (AccountCategory.mk code name ty) c1
    /\ needs_rollback c1 = needs_rollback c
    /\ (forall x, In x (AccountCategory_objects (conn_db c1)) -> receiver_category x)
    /\ Ledger.get_category (conn_db c1) code = Some (AccountCategory.mk code name ty)
    /\ (forall code', Ledger.get_category (conn_db c) code' <> None ->
                      Ledger.get_category (conn_db c1) code' <> None)
    /\ Account_objects (conn_db c1) = Account_objects (conn_db c)
    /\ Transaction_objects (conn_db c1) = Transaction_objects (conn_db c)
    /\ TransactionEntry_objects (conn_db c1) = TransactionEntry_objects (conn_db c).
Proof.
  intros Hrc Hall.
  destruct (Ledger.get_category (conn_db c) code) as [x|] eqn:E.
  - assert (Hx : Ledger.get_category (conn_db c) code
                 = Some (AccountCategory.mk code name ty)).
    { apply receiver_category_found; [exact Hall|exact Hrc|]. rewrite E. discriminate. }
    exists c. rewrite (get_or_create_category_finds _ _ _ _ _ Hx).
    repeat (split; [reflexivity || assumption|]).
    split; [intros code' H; exact H|]. repeat split.
  - assert (Hfree : Ledger.category_name_taken (conn_db c) name = false).
    { unfold Ledger.category_name_taken.
      destruct (existsb _ (AccountCategory_objects (conn_db c))) eqn:Ex; [|reflexivity].
      exfalso. apply existsb_exists in Ex. destruct Ex as (x & Hin & Hname).
      apply String.eqb_eq in Hname.
      unfold Ledger.get_category in E.
      pose proof (find_none_not_in _ _ x E Hin) as Hcode. cbn beta in Hcode.
      apply String.eqb_neq in Hcode. apply Hcode.
      specialize (Hall x Hin).
      destruct Hall as [-> | [-> | ->]]; cbn in Hname; subst name;
        destruct Hrc as [H|[H|H]]; cbn [AccountCategory.code]; congruence. }
    rewrite (get_or_create_category_creates _ _ _ _ E Hfree).
    eexists. split; [reflexivity|].
    cbn [conn_db needs_rollback Ledger.add_category AccountCategory_objects
         Account_objects Transaction_objects TransactionEntry_objects].
    split; [reflexivity|].
    split.
    { intros x Hin. apply in_app_iff in Hin. destruct Hin as [Hin|[<-|[]]].
      - apply Hall. exact Hin.
      - exact Hrc. }
    split.
    { unfold Ledger.get_category in E |- *.
      cbn [Ledger.add_category AccountCategory_objects].
      rewrite find_app_l, E. cbn. rewrite String.eqb_refl. reflexivity. }
    split.
    { intros code' H. unfold Ledger.get_category in H |- *.
      cbn [Ledger.add_category AccountCategory_objects].
      rewrite find_app_l.
      destruct (find _ (AccountCategory_objects (conn_db c))); [discriminate|].
      contradiction. }
    repeat split.
Qed.


Lemma in_put_account (x a : Account.t) (rows : list Account.t) :
  In x (Ledger.put_account a rows) -> x = a \/ In x rows.
Proof.
  induction rows as [|r rows IH]; cbn.
  - intros [H|[]]. left. congruence.
  - destruct (String.eqb (Account.code r) (Account.code a)).
    + intros [H|H]; [left; congruence|right; right; exact H].
    + intros [H|H]; [right; left; exact H|].
      destruct (IH H) as [H'|H']; [left; exact H'|right; right; exact H'].
Qed.

Lemma accounts_ok_save (db : DB) (a : Account.t) :
  accounts_ok db ->
  receiver_account a ->
  Ledger.get_category db (Account.category a) <> None ->
  accounts_ok (Ledger.save_account a db).
Proof.
  intros Hok Hra Hcat x Hin. cbn [Ledger.save_account Account_objects] in Hin.
  apply in_put_account in Hin. destruct Hin as [->|Hin].
  - split; [exact Hra|exact Hcat].
  - exact (Hok x Hin).
Qed.

Lemma account_balance_save (db : DB) (a : Account.t) (code : string) :
  account_balance (Ledger.save_account a db) code
  = if String.eqb code (Account.code a) then Account.balance a
    else account_balance db code.
Proof.
  unfold account_balance, Ledger.get_account.
  cbn [Ledger.save_account Account_objects].
  destruct (String.eqb code (Account.code a)) eqn:E.
  - apply String.eqb_eq in E. subst code. rewrite find_put_account_same. reflexivity.
  - apply String.eqb_neq in E. rewrite find_put_account_other by exact E. reflexivity.
Qed.

Lemma receiver_account_step (code name : string) (cat : AccountCategory.t)
      (c : Connection) :
  receiver_account (Account.mk code name (AccountCategory.code cat) 0) ->
  Ledger.get_category (conn_db c) (AccountCategory.code cat) <> None ->
  accounts_ok (conn_db c) ->
  exists acc c1,
    get_or_create_account code name cat c = Returned acc c1
    /\ needs_rollback c1 = needs_rollback c
    /\ Account.code acc = code
    /\ Account.category acc = AccountCategory.code cat
    /\ Ledger.get_account (conn_db c1) code = Some acc
    /\ accounts_ok (conn_db c1)
    /\ (forall code', account_balance (conn_db c1) code' = account_balance (conn_db c) code')
    /\ (forall code', code' <> code ->
                      Ledger.get_account (conn_db c1) code'
                      = Ledger.get_account (conn_db c) code')
    /\ AccountCategory_objects (conn_db c1) = AccountCategory_objects (conn_db c)
    /\ Transaction_objects (conn_db c1) = Transaction_objects (conn_db c)
    /\ TransactionEntry_objects (conn_db c1) = TransactionEntry_objects (conn_db c).
Proof.
  intros Hra Hcat Hok.
  unfold get_or_create_account, bind, get_db, write, ret. cbv beta iota.
  destruct (Ledger.get_account (conn_db c) code) as [a0|] eqn:E.
  - exists a0, c.
    pose proof (get_account_code _ _ _ E) as Hcode.
    split; [reflexivity|]. split; [reflexivity|]. split; [exact Hcode|].
    split.
    { unfold Ledger.get_account in E. apply find_some in E. destruct E as [Hin _].
      destruct (Hok a0 Hin) as [Ha0 _].
      unfold receiver_account in Ha0, Hra. cbn [Account.code Account.category] in Hra.
      destruct Ha0 as [[H1 H2]|[[H1 H2]|[H1 H2]]];
        destruct Hra as [[H3 H4]|[[H3 H4]|[H3 H4]]]; congruence. }
    split; [exact E|]. split; [exact Hok|]. repeat split.
  - eexists. eexists. split; [reflexivity|].
    cbn [conn_db needs_rollback Account.code Account.category].
    split; [reflexivity|]. split; [reflexivity|]. split; [reflexivity|].
    split.
    { unfold Ledger.get_account. cbn [Ledger.save_account Account_objects].
      apply (find_put_account_same (Account.mk code name (AccountCategory.code cat) 0)). }
    split; [apply accounts_ok_save; assumption|].
    split.
    { intro code'. rewrite account_balance_save. cbn [Account.code Account.balance].
      destruct (String.eqb code' code) eqn:E'; [|reflexivity].
      apply String.eqb_eq in E'. subst code'.
      unfold account_balance. rewrite E. reflexivity. }
    split.
    { intros code' Hne. unfold Ledger.get_account.
      cbn [Ledger.save_account Account_objects].
      apply find_put_account_other. exact Hne. }
    repeat split.
Qed.

Lemma update_account_balance_step (entry : TransactionEntry.t) (c : Connection)
      (acc : Account.t) (cat : AccountCategory.t) :
  Ledger.get_account (conn_db c) (TransactionEntry.account entry) = Some acc ->
  Ledger.get_category (conn_db c) (Account.category acc) = Some cat ->
  update_account_balance entry c
  = Returned tt
      (mkConnection
         (Ledger.save_account
            (Account.mk (Account.code acc) (Account.name acc) (Account.category acc)
               (moved_balance (TransactionEntry.entry_type entry)
                              (AccountCategory.category_type cat)
                              (Account.balance acc) (TransactionEntry.amount entry)))
            (conn_db c))
         (needs_rollback c)).
Proof.
  intros Ha Hc. unfold update_account_balance, bind, get_db, write, ret.
  cbv beta iota. rewrite Ha, Hc. reflexivity.
Qed.

(** Once the two entries of a transaction without entries are written,
    [update_account_balances] moves the balances of their accounts, the later
    entry first. *)
Lemma post_pair (db : DB) (nr : bool) (pk : nat) (code1 code2 : string)
      (et1 et2 : EntryType) (A : Decimal) (acc1 acc2 : Account.t)
      (cat1 cat2 : AccountCategory.t) :
  code1 <> code2 ->
  Ledger.get_account db code1 = Some acc1 ->
  Ledger.get_account db code2 = Some acc2 ->
  Ledger.get_category db (Account.category acc1) = Some cat1 ->
  Ledger.get_category db (Account.category acc2) = Some cat2 ->
  (forall e, In e (TransactionEntry_objects db) ->
             TransactionEntry.transaction e <> pk) ->
  update_account_balances pk
    (mkConnection
       (Ledger.add_entry (TransactionEntry.mk pk code2 et2 A)
          (Ledger.add_entry (TransactionEntry.mk pk code1 et1 A) db)) nr)
  = Returned tt
      (mkConnection
         (Ledger.save_account
            (Account.mk (Account.code acc1) (Account.name acc1) (Account.category acc1)
               (moved_balance et1 (AccountCategory.category_type cat1)
                              (Account.balance acc1) A))
            (Ledger.save_account
               (Account.mk (Account.code acc2) (Account.name acc2) (Account.category acc2)
                  (moved_balance et2 (AccountCategory.category_type cat2)
                                 (Account.balance acc2) A))
               (Ledger.add_entry (TransactionEntry.mk pk code2 et2 A)
                  (Ledger.add_entry (TransactionEntry.mk pk code1 et1 A) db))))
         nr).
Proof.
  intros Hne H1 H2 Hc1 Hc2 Hfresh.
  pose proof (get_account_code _ _ _ H2) as Hcode2.
  assert (Hfilter : filter (fun e => Nat.eqb (TransactionEntry.transaction e) pk)
                           (TransactionEntry_objects db) = []).
  { induction (TransactionEntry_objects db) as [|e rows IH]; [reflexivity|].
    cbn. assert (E : Nat.eqb (TransactionEntry.transaction e) pk = false)
      by (apply Nat.eqb_neq; apply Hfresh; left; reflexivity).
    rewrite E. apply IH. intros e' He'. apply Hfresh. right. exact He'. }
  unfold update_account_balances, bind at 1, get_db. cbv beta iota.
  cbn [conn_db Ledger.add_entry TransactionEntry_objects].
  rewrite <- app_assoc, filter_app, Hfilter.
  cbn [app filter TransactionEntry.transaction]. rewrite Nat.eqb_refl.
  cbn [rev app for_each].
  set (e1 := TransactionEntry.mk pk code1 et1 A).
  set (e2 := TransactionEntry.mk pk code2 et2 A).
  match goal with |- bind _ _ ?c = _ => set (c2 := c) end.
  assert (S2 := update_account_balance_step e2 c2 acc2 cat2 H2 Hc2).
  rewrite (bind_Returned _ _ _ _ tt S2).
  match type of S2 with _ = Returned tt ?c3 =>
    assert (S1 := update_account_balance_step e1 c3 acc1 cat1)
  end.
  rewrite (bind_Returned _ _ _ _ tt (S1
    ltac:(unfold Ledger.get_account;
          cbn [conn_db Ledger.save_account Account_objects TransactionEntry.account e1];
          rewrite find_put_account_other
            by (cbn [Account.code]; rewrite Hcode2; exact Hne);
          exact H1)
    Hc1)).
  reflexivity.
Qed.

Lemma accounts_ok_mono (db db1 : DB) :
  Account_objects db1 = Account_objects db ->
  (forall code, Ledger.get_category db code <> None ->
                Ledger.get_category db1 code <> None) ->
  accounts_ok db -> accounts_ok db1.
Proof.
  intros Ha Hm Hok a Hin. rewrite Ha in Hin. destruct (Hok a Hin) as [H1 H2].
  split; [exact H1|apply Hm; exact H2].
Qed.

(** [get_or_create] of a category of the receiver and of an account of the
    receiver under it: both return, and no balance moves. *)
Lemma receiver_pair_step (ccode cname cty acode aname : string) (c : Connection) :
  receiver_category (AccountCategory.mk ccode cname cty) ->
  receiver_account (Account.mk acode aname ccode 0) ->
  categories_ok (conn_db c) ->
  accounts_ok (conn_db c) ->
  exists acc c1,
    (forall B (k : Account.t -> M B),
        bind (get_or_create_category ccode cname cty)
             (fun cat => bind (get_or_create_account acode aname cat) k) c
        = k acc c1)
    /\ needs_rollback c1 = needs_rollback c
    /\ categories_ok (conn_db c1)
    /\ accounts_ok (conn_db c1)
    /\ Account.code acc = acode
    /\ Account.category acc = ccode
    /\ Ledger.get_account (conn_db c1) acode = Some acc
    /\ Ledger.get_category (conn_db c1) ccode = Some (AccountCategory.mk ccode cname cty)
    /\ (forall code', account_balance (conn_db c1) code' = account_balance (conn_db c) code')
    /\ (forall code', code' <> acode ->
                      Ledger.get_account (conn_db c1) code'
                      = Ledger.get_account (conn_db c) code')
    /\ (forall code', Ledger.get_category (conn_db c) code' <> None ->
                      Ledger.get_category (conn_db c1) code' <> None)
    /\ Transaction_objects (conn_db c1) = Transaction_objects (conn_db c)
    /\ TransactionEntry_objects (conn_db c1) = TransactionEntry_objects (conn_db c).
Proof.
  intros Hrc Hra Hcats Hok.
  destruct (receiver_category_step ccode cname cty c Hrc Hcats)
    as (c1 & R1 & N1 & Hcats1 & G1 & M1 & A1 & T1 & E1).
  assert (Hok1 : accounts_ok (conn_db c1)) by (exact (accounts_ok_mono _ _ A1 M1 Hok)).
  destruct (receiver_account_step acode aname (AccountCategory.mk ccode cname cty) c1)
    as (acc & c2 & R2 & N2 & Hcode & Hcat & G2 & Hok2 & B2 & O2 & C2 & T2 & E2).
  { exact Hra. }
  { cbn [AccountCategory.code]. rewrite G1. discriminate. }
  { exact Hok1. }
  cbn [AccountCategory.code] in Hcat.
  assert (Hgc : forall code', Ledger.get_category (conn_db c2) code'
                              = Ledger.get_category (conn_db c1) code').
  { intro code'. unfold Ledger.get_category. rewrite C2. reflexivity. }
  exists acc, c2.
  split.
  { intros B k. rewrite (bind_Returned _ _ _ _ _ R1).
    rewrite (bind_Returned _ _ _ _ _ R2). reflexivity. }
  split; [congruence|].
  split; [unfold categories_ok; rewrite C2; exact Hcats1|].
  split; [exact Hok2|]. split; [exact Hcode|]. split; [exact Hcat|].
  split; [exact G2|]. split; [rewrite Hgc; exact G1|].
  split.
  { intro code'. rewrite B2. unfold account_balance, Ledger.get_account.
    rewrite A1. reflexivity. }
  split.
  { intros code' Hne. rewrite (O2 code' Hne). unfold Ledger.get_account.
    rewrite A1. reflexivity. }
  split; [intros code' H; rewrite Hgc; apply M1; exact H|].
  split; congruence.
Qed.

Lemma entries_filter_none (pk : nat) (rows : list TransactionEntry.t) :
  (forall e, In e rows -> (TransactionEntry.transaction e < pk)%nat) ->
  filter (fun e => Nat.eqb (TransactionEntry.transaction e) pk) rows = [].
Proof.
  induction rows as [|e rows IH]; [reflexivity|]. intro H. cbn.
  assert (E : Nat.eqb (TransactionEntry.transaction e) pk = false).
  { apply Nat.eqb_neq. specialize (H e (or_introl eq_refl)). lia. }
  rewrite E. apply IH. intros e' He'. apply H. right. exact He'.
Qed.

Lemma bind_run {A B} (m : M A) (k : A -> M B) (c : Connection) (r : Outcome A) :
  m c = r ->
  bind m k c = match r with
               | Returned x c' => k x c'
               | Raised e c' => Raised e c'
               end.
Proof. intro H. unfold bind. rewrite H. reflexivity. Qed.

Lemma account_balance_found (db : DB) (code : string) (a : Account.t) :
  Ledger.get_account db code = Some a -> Account.balance a = account_balance db code.
Proof. intro H. unfold account_balance. rewrite H. reflexivity. Qed.

Lemma account_balance_add_entry (db : DB) (e : TransactionEntry.t) (code : string) :
  account_balance (Ledger.add_entry e db) code = account_balance db code.
Proof. reflexivity. Qed.

(** The ledger once two entries of the transaction [pk] are written and
    their accounts saved is still of the receiver's making. *)
Lemma posted_ledger (db : DB) (pk : nat) (e1 e2 : TransactionEntry.t)
      (a1 a2 : Account.t) :
  categories_ok db ->
  accounts_ok db ->
  receiver_account a1 ->
  receiver_account a2 ->
  Ledger.get_category db (Account.category a1) <> None ->
  Ledger.get_category db (Account.category a2) <> None ->
  (forall e, In e (TransactionEntry_objects db) ->
             (TransactionEntry.transaction e < pk)%nat) ->
  TransactionEntry.transaction e1 = pk ->
  TransactionEntry.transaction e2 = pk ->
  categories_ok
    (Ledger.save_account a1 (Ledger.save_account a2
       (Ledger.add_entry e2 (Ledger.add_entry e1 db))))
  /\ accounts_ok
       (Ledger.save_account a1 (Ledger.save_account a2
          (Ledger.add_entry e2 (Ledger.add_entry e1 db))))
  /\ (forall e,
         In e (TransactionEntry_objects
                 (Ledger.save_account a1 (Ledger.save_account a2
                    (Ledger.add_entry e2 (Ledger.add_entry e1 db))))) ->
         (TransactionEntry.transaction e < S pk)%nat).
Proof.
  intros Hcats Hok R1 R2 C1 C2 Hent P1 P2.
  split; [exact Hcats|]. split.
  - apply accounts_ok_save; [apply accounts_ok_save|exact R1|exact C1].
    + exact Hok.
    + exact R2.
    + exact C2.
  - cbn [Ledger.save_account Ledger.add_entry TransactionEntry_objects].
    intros e He. apply in_app_or in He. destruct He as [He|[<-|[]]]; [|lia].
    apply in_app_or in He. destruct He as [He|[<-|[]]]; [|lia].
    specialize (Hent e He). lia.
Qed.

(** The receiver on a new transaction, over a ledger of its own making:
    it returns, keeps the ledger of its own making, and moves the main,
    the income and the expense account by the amount of a completed income or
    expense transaction and by nothing otherwise. *)
Lemma create_transaction_entries_step (c : Connection) (pk : nat) (t : Transaction.t) :
  needs_rollback c = false ->
  categories_ok (conn_db c) ->
  accounts_ok (conn_db c) ->
  (forall e, In e (TransactionEntry_objects (conn_db c)) ->
             (TransactionEntry.transaction e < pk)%nat) ->
  exists c',
    create_transaction_entries pk t true c = Returned tt c'
    /\ needs_rollback c' = false
    /\ categories_ok (conn_db c')
    /\ accounts_ok (conn_db c')
    /\ (forall e, In e (TransactionEntry_objects (conn_db c')) ->
                  (TransactionEntry.transaction e < S pk)%nat)
    /\ Transaction_objects (conn_db c') = Transaction_objects (conn_db c)
    /\ account_balance (conn_db c') "COOP001"
       == account_balance (conn_db c) "COOP001"
          + completed_income [t] - completed_expenses [t]
    /\ account_balance (conn_db c') "INC001"
       == account_balance (conn_db c) "INC001" + completed_income [t]
    /\ account_balance (conn_db c') "EXP001"
       == account_balance (conn_db c) "EXP001" + completed_expenses [t].
Proof.
  intros Hnr Hcats Hok Hent.
  assert (Hstay : exists c',
             (ret tt : M unit) c = Returned tt c'
             /\ needs_rollback c' = false
             /\ categories_ok (conn_db c')
             /\ accounts_ok (conn_db c')
             /\ (forall e, In e (TransactionEntry_objects (conn_db c')) ->
                           (TransactionEntry.transaction e < S pk)%nat)
             /\ Transaction_objects (conn_db c') = Transaction_objects (conn_db c)
             /\ account_balance (conn_db c') "COOP001"
                == account_balance (conn_db c) "COOP001" + 0 - 0
             /\ account_balance (conn_db c') "INC001"
                == account_balance (conn_db c) "INC001" + 0
             /\ account_balance (conn_db c') "EXP001"
                == account_balance (conn_db c) "EXP001" + 0).
  { exists c. split; [reflexivity|]. split; [exact Hnr|]. split; [exact Hcats|].
    split; [exact Hok|].
    split; [intros e He; specialize (Hent e He); lia|].
    split; [reflexivity|]. split; [lra|]. split; lra. }
  destruct t as [ty desc A status].
  unfold create_transaction_entries, completed_income, completed_expenses.
  cbn [andb Transaction.status Transaction.transaction_type Transaction.amount
       filter is_completed_income is_completed_expense map].
  destruct status; try (destruct ty; cbn [map]; rewrite ?total_nil; exact Hstay).
  clear Hstay.
  unfold atomic.
  destruct (receiver_pair_step "1000" "Cash and Bank" "asset"
              "COOP001" "Cooperative Main Account" c)
    as (coop & c1 & R1 & N1 & Hcats1 & Hok1 & Hcode1 & Hcat1 & G1 & GC1 & B1 & O1 & M1
        & T1 & E1).
  { left. reflexivity. }
  { left. split; reflexivity. }
  { exact Hcats. }
  { exact Hok. }
  rewrite R1. clear R1.
  destruct ty.
  - destruct (receiver_pair_step "4000" "Income" "income" "INC001" "General Income" c1)
      as (inc & c2 & R2 & N2 & Hcats2 & Hok2 & Hcode2 & Hcat2 & G2 & GC2 & B2 & O2 & M2
          & T2 & E2).
    { right. left. reflexivity. }
    { right. left. split; reflexivity. }
    { exact Hcats1. }
    { exact Hok1. }
    rewrite (bind_run _ _ _ _ (R2 _ _)). cbv beta.
    cbn [bind write conn_db needs_rollback].
    assert (Gc : Ledger.get_account (conn_db c2) "COOP001" = Some coop)
      by (rewrite O2 by discriminate; exact G1).
    assert (Cc : Ledger.get_category (conn_db c2) "1000"
                 = Some (AccountCategory.mk "1000" "Cash and Bank" "asset")).
    { apply receiver_category_found; [exact Hcats2|left; reflexivity|].
      apply M2. rewrite GC1. discriminate. }
    rewrite (post_pair (conn_db c2) (needs_rollback c2) pk (Account.code coop)
               (Account.code inc) debit credit A coop inc
               (AccountCategory.mk "1000" "Cash and Bank" "asset")
               (AccountCategory.mk "4000" "Income" "income")).
    2:{ rewrite Hcode1, Hcode2. discriminate. }
    2:{ rewrite Hcode1. exact Gc. }
    2:{ rewrite Hcode2. exact G2. }
    2:{ rewrite Hcat1. exact Cc. }
    2:{ rewrite Hcat2. exact GC2. }
    2:{ intros e He. rewrite E2, E1 in He. specialize (Hent e He). lia. }
    cbn [needs_rollback]. rewrite N2, N1, Hnr.
    eexists. split; [reflexivity|]. cbn [conn_db needs_rollback].
    split; [reflexivity|].
    match goal with |- categories_ok (Ledger.save_account ?a1 (Ledger.save_account ?a2
                         (Ledger.add_entry ?e2 (Ledger.add_entry ?e1 _)))) /\ _ =>
      destruct (posted_ledger (conn_db c2) pk e1 e2 a1 a2) as (Q1 & Q2 & Q3)
    end.
    { exact Hcats2. }
    { exact Hok2. }
    { left. split; assumption. }
    { right. left. split; assumption. }
    { cbn [Account.category]. rewrite Hcat1, Cc. discriminate. }
    { cbn [Account.category]. rewrite Hcat2, GC2. discriminate. }
    { intros e He. rewrite E2, E1 in He. exact (Hent e He). }
    { reflexivity. }
    { reflexivity. }
    split; [exact Q1|]. split; [exact Q2|]. split; [exact Q3|].
    split; [cbn [Ledger.save_account Ledger.add_entry Transaction_objects]; congruence|].
    rewrite !account_balance_save, !account_balance_add_entry.
    cbn [Account.code Account.balance AccountCategory.category_type].
    rewrite Hcode1, Hcode2.
    unfold moved_balance, is_asset_or_expense.
    cbn [existsb String.eqb Ascii.eqb Bool.eqb orb].
    rewrite (account_balance_found _ _ _ Gc), (account_balance_found _ _ _ G2).
    unfold is_completed_income, is_completed_expense.
    cbn [Transaction.transaction_type Transaction.status Transaction.amount map].
    rewrite !B2, !B1, ?total_cons, ?total_nil.
    split; [lra|]. split; lra.
  - destruct (receiver_pair_step "5000" "Expenses" "expense" "EXP001" "General Expenses" c1)
      as (exp & c2 & R2 & N2 & Hcats2 & Hok2 & Hcode2 & Hcat2 & G2 & GC2 & B2 & O2 & M2
          & T2 & E2).
    { right. right. reflexivity. }
    { right. right. split; reflexivity. }
    { exact Hcats1. }
    { exact Hok1. }
    rewrite (bind_run _ _ _ _ (R2 _ _)). cbv beta.
    cbn [bind write conn_db needs_rollback].
    assert (Gc : Ledger.get_account (conn_db c2) "COOP001" = Some coop)
      by (rewrite O2 by discriminate; exact G1).
    assert (Cc : Ledger.get_category (conn_db c2) "1000"
                 = Some (AccountCategory.mk "1000" "Cash and Bank" "asset")).
    { apply receiver_category_found; [exact Hcats2|left; reflexivity|].
      apply M2. rewrite GC1. discriminate. }
    rewrite (post_pair (conn_db c2) (needs_rollback c2) pk (Account.code exp)
               (Account.code coop) debit credit A exp coop
               (AccountCategory.mk "5000" "Expenses" "expense")
               (AccountCategory.mk "1000" "Cash and Bank" "asset")).
    2:{ rewrite Hcode1, Hcode2. discriminate. }
    2:{ rewrite Hcode2. exact G2. }
    2:{ rewrite Hcode1. exact Gc. }
    2:{ rewrite Hcat2. exact GC2. }
    2:{ rewrite Hcat1. exact Cc. }
    2:{ intros e He. rewrite E2, E1 in He. specialize (Hent e He). lia. }
    cbn [needs_rollback]. rewrite N2, N1, Hnr.
    eexists. split; [reflexivity|]. cbn [conn_db needs_rollback].
    split; [reflexivity|].
    match goal with |- categories_ok (Ledger.save_account ?a1 (Ledger.save_account ?a2
                         (Ledger.add_entry ?e2 (Ledger.add_entry ?e1 _)))) /\ _ =>
      destruct (posted_ledger (conn_db c2) pk e1 e2 a1 a2) as (Q1 & Q2 & Q3)
    end.
    { exact Hcats2. }
    { exact Hok2. }
    { right. right. split; assumption. }
    { left. split; assumption. }
    { cbn [Account.category]. rewrite Hcat2, GC2. discriminate. }
    { cbn [Account.category]. rewrite Hcat1, Cc. discriminate. }
    { intros e He. rewrite E2, E1 in He. exact (Hent e He). }
    { reflexivity. }
    { reflexivity. }
    split; [exact Q1|]. split; [exact Q2|]. split; [exact Q3|].
    split; [cbn [Ledger.save_account Ledger.add_entry Transaction_objects]; congruence|].
    rewrite !account_balance_save, !account_balance_add_entry.
    cbn [Account.code Account.balance AccountCategory.category_type].
    rewrite Hcode1, Hcode2.
    unfold moved_balance, is_asset_or_expense.
    cbn [existsb String.eqb Ascii.eqb Bool.eqb orb].
    rewrite (account_balance_found _ _ _ Gc), (account_balance_found _ _ _ G2).
    unfold is_completed_income, is_completed_expense.
    cbn [Transaction.transaction_type Transaction.status Transaction.amount map].
    rewrite !B2, !B1, ?total_cons, ?total_nil.
    split; [lra|]. split; lra.
  - rewrite (bind_run _ _ _ _ (eq_refl : (ret tt : M unit) c1 = Returned tt c1)).
    unfold update_account_balances, bind, get_db. cbv beta iota.
    rewrite entries_filter_none by (intros e He; rewrite E1 in He; exact (Hent e He)).
    cbn [rev for_each ret]. rewrite N1, Hnr.
    exists c1. split; [reflexivity|]. split; [congruence|].
    split; [exact Hcats1|]. split; [exact Hok1|].
    split; [intros e He; rewrite E1 in He; specialize (Hent e He); lia|].
    split; [exact T1|].
    unfold is_completed_income, is_completed_expense.
    cbn [Transaction.transaction_type Transaction.status Transaction.amount map].
    rewrite !B1, ?total_nil.
    split; [lra|]. split; lra.
Qed.

Lemma completed_income_cons (t : Transaction.t) (ts : list Transaction.t) :
  completed_income (t :: ts) == completed_income [t] + completed_income ts.
Proof.
  unfold completed_income. cbn [filter].
  destruct (is_completed_income t); cbn [map]; rewrite ?total_cons, ?total_nil; lra.
Qed.

Lemma completed_expenses_cons (t : Transaction.t) (ts : list Transaction.t) :
  completed_expenses (t :: ts) == completed_expenses [t] + completed_expenses ts.
Proof.
  unfold completed_expenses. cbn [filter].
  destruct (is_completed_expense t); cbn [map]; rewrite ?total_cons, ?total_nil; lra.
Qed.

(** X21.  Over a ledger that only the receiver has written to, creating any
    list of transactions with the receiver connected never fails and keeps
    the books: every row is stored, the main account COOP001 moves by the
    completed income less the completed expenses of the list, the income
    account INC001 by the completed income and the expense account EXP001 by
    the completed expenses; transfers and transactions that are not completed
    move nothing. *)
Theorem receiver_keeps_the_books (ts : list Transaction.t) (db : DB) :
  receiver_ledger db ->
  exists c',
    for_each ts Transaction_objects_create (mkConnection db false) = Returned tt c'
    /\ needs_rollback c' = false
    /\ receiver_ledger (conn_db c')
    /\ Transaction_objects (conn_db c') = Transaction_objects db ++ ts
    /\ account_balance (conn_db c') "COOP001"
       == account_balance db "COOP001" + completed_income ts - completed_expenses ts
    /\ account_balance (conn_db c') "INC001"
       == account_balance db "INC001" + completed_income ts
    /\ account_balance (conn_db c') "EXP001"
       == account_balance db "EXP001" + completed_expenses ts.
Proof.
  revert db. induction ts as [|t ts IH]; intros db Hledger.
  - exists (mkConnection db false). cbn [for_each ret conn_db needs_rollback].
    split; [reflexivity|]. split; [reflexivity|]. split; [exact Hledger|].
    split; [rewrite app_nil_r; reflexivity|].
    unfold completed_income, completed_expenses. cbn [filter map].
    rewrite total_nil. split; [lra|]. split; lra.
  - destruct Hledger as (Hcats & Hok & Hent).
    destruct (create_transaction_entries_step
                (mkConnection (Ledger.add_transaction t db) false)
                (List.length (Transaction_objects db)) t)
      as (c1 & R1 & N1 & Hcats1 & Hok1 & Hent1 & T1 & B1 & B2 & B3).
    { reflexivity. }
    { exact Hcats. }
    { exact Hok. }
    { exact Hent. }
    destruct c1 as [db1 nr1]. cbn [needs_rollback conn_db] in *. subst nr1.
    assert (Hledger1 : receiver_ledger db1).
    { split; [exact Hcats1|]. split; [exact Hok1|].
      intros e He. rewrite T1.
      cbn [Ledger.add_transaction Transaction_objects].
      rewrite length_app. cbn [List.length]. specialize (Hent1 e He). lia. }
    destruct (IH db1 Hledger1) as (c' & R & N & L & T & C1 & C2 & C3).
    exists c'. split.
    { cbn [for_each].
      assert (Hcreate : Transaction_objects_create t (mkConnection db false)
                        = Returned tt (mkConnection db1 false)).
      { unfold Transaction_objects_create, bind, get_db, write. cbv beta iota.
        cbn [conn_db needs_rollback]. exact R1. }
      rewrite (bind_Returned _ _ _ _ tt Hcreate). exact R. }
    split; [exact N|]. split; [exact L|].
    split.
    { rewrite T, T1. cbn [Ledger.add_transaction Transaction_objects].
      rewrite <- app_assoc. reflexivity. }
    change (account_balance (Ledger.add_transaction t db)) with (account_balance db)
      in B1, B2, B3.
    rewrite completed_income_cons, completed_expenses_cons.
    rewrite C1, C2, C3, B1, B2, B3.
    split; [lra|]. split; lra.
Qed.

Lemma receiver_keeps_the_books_witness :
  exists c',
    for_each [Transaction.mk income "Dues" 5000 t_completed;
              Transaction.mk expense "Rent" 1200 t_completed;
              Transaction.mk income "Pledge" 700 t_pending;
              Transaction.mk transfer "Loan disbursement" 300 t_completed]%string
             Transaction_objects_create (mkConnection empty_db false)
    = Returned tt c'
    /\ needs_rollback c' = false
    /\ receiver_ledger (conn_db c')
    /\ List.length (Transaction_objects (conn_db c')) = 4%nat
    /\ account_balance (conn_db c') "COOP001" == 3800
    /\ account_balance (conn_db c') "INC001" == 5000
    /\ account_balance (conn_db c') "EXP001" == 1200.
Proof.
  destruct (receiver_keeps_the_books
              [Transaction.mk income "Dues" 5000 t_completed;
               Transaction.mk expense "Rent" 1200 t_completed;
               Transaction.mk income "Pledge" 700 t_pending;
               Transaction.mk transfer "Loan disbursement" 300 t_completed]%string
              empty_db)
    as (c' & R & N & L & T & C1 & C2 & C3).
  - split; [intros x []|]. split; [intros x []|intros x []].
  - exists c'. split; [exact R|]. split; [exact N|]. split; [exact L|].
    split; [rewrite T; reflexivity|].
    rewrite C1, C2, C3. vm_compute. repeat split; reflexivity.
Defined.
